(** * Signal outcome and partial-exit P&L engine

    A shallow embedding of the two Python modules that hold the engine:

    - [optimize_exit_strategy.py]: [StrategyOptimizer.calculate_signal_profit],
      [calculate_portfolio_profit], [generate_strategies] and the report
      arithmetic of [optimize];
    - [dashboard_backend.py]: the per-row body of
      [get_signal_history_fallback] (outcome, pips, profit percentage and the
      per-level [tp_breakdown]).

    Python floats are embedded as exact rationals ([Q]): every arithmetic
    expression is written in the order of the source, but binary64 rounding
    is not represented.  Python exceptions are embedded as the [Raise]
    branch of [pyresult]; division is checked, so that a division by zero
    shows up as [Raise ZeroDivisionError] and not as a number.  [round] is
    taken on the exact value, ties to the even neighbour.  The module
    [Binary64] repeats the profit formula on IEEE 754 doubles, to evaluate
    concrete scenarios as the interpreter does. *)

From Stdlib Require Import ZArith QArith Qabs Qround List String Ascii Bool.
From Stdlib Require Import Lia Lqa SetoidList Sorted Permutation.
From Stdlib Require Import PrimFloat.
From Stdlib Require Uint63.
Import ListNotations.

Open Scope Q_scope.

Set Warnings "-inexact-float".

(** ** Python results *)

Module Py.

Inductive pyerror : Set :=
| IndexError
| TypeError
| ValueError
| ZeroDivisionError.

Inductive pyresult (A : Type) : Type :=
| Ok (a : A)
| Raise (e : pyerror).

Arguments Ok {A} a.
Arguments Raise {A} e.

Definition bind {A B : Type} (m : pyresult A) (f : A -> pyresult B) : pyresult B :=
  match m with
  | Ok a => f a
  | Raise e => Raise e
  end.

(** [returns r] : the call produced a value, no exception escaped. *)
Definition returns {A : Type} (r : pyresult A) : Prop :=
  exists a, r = Ok a.

(** [for x in xs: acc = body(acc, x)], stopping at the first exception. *)
Fixpoint for_each {A S : Type} (body : S -> A -> pyresult S) (xs : list A) (acc : S)
  : pyresult S :=
  match xs with
  | [] => Ok acc
  | x :: xs' => bind (body acc x) (for_each body xs')
  end.

(** [range(lo, hi)] over Python integers. *)
Definition range (lo hi : Z) : list Z :=
  map (fun k => (lo + Z.of_nat k)%Z) (seq 0 (Z.to_nat (hi - lo))).

(** [range(0, stop, step)] for a positive [step]; empty for a negative one;
    Python raises [ValueError] when [step] is zero. *)
Definition range_step (stop step : Z) : pyresult (list Z) :=
  if (step =? 0)%Z then Raise ValueError
  else if (step <? 0)%Z then Ok []
  else Ok (map (fun k => (Z.of_nat k * step)%Z)
               (seq 0 (Z.to_nat ((stop + step - 1) / step)))).

(** [xs[i]] for a non-negative index. *)
Definition index {A : Type} (xs : list A) (i : Z) : pyresult A :=
  if (i <? 0)%Z then Raise IndexError
  else match nth_error xs (Z.to_nat i) with
       | Some x => Ok x
       | None => Raise IndexError
       end.

(** Float division [a / b]. *)
Definition div (a b : Q) : pyresult Q :=
  if Qeq_bool b 0 then Raise ZeroDivisionError else Ok (a / b).

(** Truth value of a nullable float column: [None] and [0.0] are false. *)
Definition truthy (v : option Q) : bool :=
  match v with
  | Some q => negb (Qeq_bool q 0)
  | None => false
  end.

(** [float(v)] of a nullable float column. *)
Definition float (v : option Q) : pyresult Q :=
  match v with
  | Some q => Ok q
  | None => Raise TypeError
  end.

(** Nearest integer, ties to the even neighbour. *)
Definition round_half_even (q : Q) : Z :=
  let f := Qfloor q in
  let d := q - inject_Z f in
  match Qcompare d (1 # 2) with
  | Lt => f
  | Gt => (f + 1)%Z
  | Eq => if Z.even f then f else (f + 1)%Z
  end.

(** [round(q, ndigits)] for [ndigits >= 0]. *)
Definition round (q : Q) (ndigits : nat) : Q :=
  let scale := inject_Z (10 ^ Z.of_nat ndigits) in
  inject_Z (round_half_even (q * scale)) / scale.

(** [int(q)]: truncation towards zero. *)
Definition int (q : Q) : Z :=
  Z.quot (Qnum q) (Zpos (Qden q)).

(** [a if a else 0] on a number. *)
Definition or_zero (f : Q -> Q) (q : Q) : Q :=
  if Qeq_bool q 0 then 0 else f q.

(** [needle in haystack] on strings. *)
Fixpoint starts_with (p s : string) : bool :=
  match p, s with
  | EmptyString, _ => true
  | String a p', String b s' => Ascii.eqb a b && starts_with p' s'
  | String _ _, EmptyString => false
  end.

Fixpoint contains (needle s : string) : bool :=
  starts_with needle s ||
  match s with
  | EmptyString => false
  | String _ s' => contains needle s'
  end.

End Py.

Import Py.

Notation "x <- m ;; k" := (Py.bind m (fun x => k))
  (at level 61, m at next level, right associativity).

(** ** Persisted signals

    One row of the [signal_details] table with the columns the two queries
    select.  [REAL] columns are nullable floats, [risk_level] a nullable
    string. *)

Module Signals.

Record signal_details : Type := mkSignalDetails {
  signal_number : Z;
  symbol : string;
  action : string;
  entry_price : option Q;
  stop_loss : option Q;
  tp1 : option Q;
  tp2 : option Q;
  tp3 : option Q;
  tp4 : option Q;
  tp5 : option Q;
  tp6 : option Q;
  risk_level : option string
}.

(** The column named [f'tp{n}'], when the row has one. *)
Definition tp_column (r : signal_details) (n : Z) : option (option Q) :=
  match n with
  | 1%Z => Some (tp1 r)
  | 2%Z => Some (tp2 r)
  | 3%Z => Some (tp3 r)
  | 4%Z => Some (tp4 r)
  | 5%Z => Some (tp5 r)
  | 6%Z => Some (tp6 r)
  | _ => None
  end.

(** [max(xs) if xs else 0] *)
Definition highest_of (tps : list Z) : Z :=
  match tps with
  | [] => 0%Z
  | x :: xs => fold_left Z.max xs x
  end.

End Signals.

Import Signals.

(** ** optimize_exit_strategy.py *)

Module Optimizer.

(** A signal dictionary as [load_signals] builds it: the row plus the
    [tps_hit] and [highest_tp] keys. *)
Record signal : Type := mkSignal {
  details : signal_details;
  tps_hit : list Z;
  highest_tp : Z
}.

(** [announced_tps]: pairs (signal_number, tp_level). *)
Definition announced_tps := list (Z * Z).

Definition tps_hit_of (announced : announced_tps) (n : Z) : list Z :=
  map snd (filter (fun a => (fst a =? n)%Z) announced).

Definition is_not_null {A : Type} (v : option A) : bool :=
  match v with Some _ => true | None => false end.

(** [load_signals]: rows [WHERE entry_price IS NOT NULL], each extended with
    the TP levels announced for it.  Only the maximum of [tps_hit] is read
    afterwards, so the [ORDER BY] clauses are not represented. *)
Definition load_signals (table : list signal_details) (announced : announced_tps)
  : list signal :=
  map (fun row =>
         let hits := tps_hit_of announced (signal_number row) in
         mkSignal row hits (highest_of hits))
      (filter (fun row => is_not_null (entry_price row)) table).

(** [{'LOW': 1, 'MEDIUM': 2, 'HIGH': 3}.get(risk_level, 2)] *)
Definition risk_percent_of (risk_level : option string) : Q :=
  match risk_level with
  | Some s =>
      if String.eqb s "LOW" then 1
      else if String.eqb s "MEDIUM" then 2
      else if String.eqb s "HIGH" then 3
      else 2
  | None => 2
  end.

(** [signal.get(f'tp{tp_num}')] *)
Definition get_tp (s : signal) (tp_num : Z) : option Q :=
  match tp_column (details s) tp_num with
  | Some v => v
  | None => None
  end.

(** One turn of the loop [for i in range(highest_tp)]. *)
Definition tp_step (s : signal) (strategy : list Q) (entry_price risk_percent : Q)
  (total_profit : Q) (i : Z) : pyresult Q :=
  let tp_num := (i + 1)%Z in
  let tp_price := get_tp s tp_num in
  if negb (Py.truthy tp_price) then Ok total_profit
  else
    tp_price <- Py.float tp_price ;;
    let price_move := Qabs (tp_price - entry_price) in
    ratio <- Py.div price_move entry_price ;;
    let price_move_percent := ratio * 100 in
    let leveraged_move := price_move_percent * 500 in
    strategy_percent <- Py.index strategy i ;;
    let tp_profit := (leveraged_move * strategy_percent) * (risk_percent / 100) in
    Ok (total_profit + tp_profit).

Definition calculate_signal_profit (s : signal) (strategy : list Q) : pyresult Q :=
  if (highest_tp s =? 0)%Z then
    let risk_percent := risk_percent_of (risk_level (details s)) in
    Ok (- risk_percent)
  else
    entry_price <- Py.float (entry_price (details s)) ;;
    if Qeq_bool entry_price 0 then Ok 0
    else
      let risk_percent := risk_percent_of (risk_level (details s)) in
      Py.for_each (tp_step s strategy entry_price risk_percent)
                  (Py.range 0 (highest_tp s)) 0.

Record signal_result : Type := mkSignalResult {
  sr_signal_number : Z;
  sr_symbol : string;
  sr_highest_tp : Z;
  sr_profit : Q
}.

Record stats : Type := mkStats {
  total_pl_percent : Q;
  wins : Z;
  losses : Z;
  win_rate : Q;
  signal_results : list signal_result
}.

Definition Qltb (a b : Q) : bool :=
  match Qcompare a b with Lt => true | _ => false end.

(** Loop state of [calculate_portfolio_profit]. *)
Record tally : Type := mkTally {
  t_total_pl : Q;
  t_wins : Z;
  t_losses : Z;
  t_results : list signal_result
}.

Definition tally_step (strategy : list Q) (t : tally) (s : signal) : pyresult tally :=
  profit <- calculate_signal_profit s strategy ;;
  let total_pl := t_total_pl t + profit in
  let wins := if Qltb 0 profit then (t_wins t + 1)%Z else t_wins t in
  let losses :=
    if Qltb 0 profit then t_losses t
    else if Qltb profit 0 then (t_losses t + 1)%Z else t_losses t in
  Ok (mkTally total_pl wins losses
        (t_results t ++
         [mkSignalResult (signal_number (details s)) (symbol (details s))
                         (highest_tp s) profit])).

Definition calculate_portfolio_profit (signals : list signal) (strategy : list Q)
  : pyresult (Q * stats) :=
  t <- Py.for_each (tally_step strategy) signals (mkTally 0 0 0 []) ;;
  let win_rate :=
    match signals with
    | [] => 0
    | _ => inject_Z (t_wins t) / inject_Z (Z.of_nat (length signals)) * 100
    end in
  Ok (t_total_pl t,
      mkStats (t_total_pl t) (t_wins t) (t_losses t) win_rate (t_results t)).

(** [tp / 100] for an integer percentage. *)
Definition percent_fraction (tp : Z) : Q := tp # 100.

Definition generate_strategies (step : Z) (include_tp6 : bool) : pyresult (list (list Q)) :=
  percentages <- Py.range_step 101 step ;;
  if negb include_tp6 then
    Ok (flat_map (fun tp1 =>
        flat_map (fun tp2 =>
        flat_map (fun tp3 =>
        flat_map (fun tp4 =>
        flat_map (fun tp5 =>
          if (tp1 + tp2 + tp3 + tp4 + tp5 =? 100)%Z then
            [[percent_fraction tp1; percent_fraction tp2; percent_fraction tp3;
              percent_fraction tp4; percent_fraction tp5; 0]]
          else [])
        percentages) percentages) percentages) percentages) percentages)
  else
    Ok (flat_map (fun tp1 =>
        flat_map (fun tp2 =>
        flat_map (fun tp3 =>
        flat_map (fun tp4 =>
        flat_map (fun tp5 =>
        flat_map (fun tp6 =>
          if (tp1 + tp2 + tp3 + tp4 + tp5 + tp6 =? 100)%Z then
            [[percent_fraction tp1; percent_fraction tp2; percent_fraction tp3;
              percent_fraction tp4; percent_fraction tp5; percent_fraction tp6]]
          else [])
        percentages) percentages) percentages) percentages) percentages) percentages).

(** One entry of [results] in [optimize]. *)
Record result : Type := mkResult {
  r_strategy : list Q;
  r_total_pl : Q;
  r_stats : stats
}.

Definition default_strategy : list Q := [0.5; 0.2; 0.1; 0.1; 0.1; 0.0].

Definition evaluate_strategy (signals : list signal) (acc : list result)
  (strategy : list Q) : pyresult (list result) :=
  p <- calculate_portfolio_profit signals strategy ;;
  Ok (acc ++ [mkResult strategy (fst p) (snd p)]).

(** [results.sort(key=lambda x: x['total_pl'], reverse=True)]: stable,
    entries of equal P/L keep their order. *)
Fixpoint insert_by_total_pl (x : result) (sorted : list result) : list result :=
  match sorted with
  | [] => [x]
  | y :: rest =>
      if Qltb (r_total_pl x) (r_total_pl y) then y :: insert_by_total_pl x rest
      else x :: sorted
  end.

Definition sort_by_total_pl (results : list result) : list result :=
  fold_right insert_by_total_pl [] results.

(** [xs[:n]] *)
Definition slice_to {A : Type} (xs : list A) (n : Z) : list A :=
  if (n <? 0)%Z then firstn (length xs - Z.to_nat (- n)) xs
  else firstn (Z.to_nat n) xs.

(** [((pl - baseline_pl) / abs(baseline_pl) * 100) if baseline_pl != 0 else 0] *)
Definition improvement (pl baseline_pl : Q) : pyresult Q :=
  if negb (Qeq_bool baseline_pl 0) then
    ratio <- Py.div (pl - baseline_pl) (Qabs baseline_pl) ;;
    Ok (ratio * 100)
  else Ok 0.

(** One entry of the "TOP N STRATEGIES" listing. *)
Record top_line : Type := mkTopLine {
  l_strategy : list Q;
  l_total_pl : Q;
  l_improvement : Q;
  l_win_rate : Q
}.

Definition top_line_step (baseline_pl : Q) (lines : list top_line) (r : result)
  : pyresult (list top_line) :=
  imp <- improvement (r_total_pl r) baseline_pl ;;
  Ok (lines ++ [mkTopLine (r_strategy r) (r_total_pl r) imp (win_rate (r_stats r))]).

(** The loop [for i, result in enumerate(results[:top_n], 1)]. *)
Definition top_listing (results : list result) (baseline_pl : Q) (top_n : Z)
  : pyresult (list top_line) :=
  Py.for_each (top_line_step baseline_pl) (slice_to results top_n) [].

(** [max(results, key=lambda x: x['stats']['win_rate'])]: the first entry of
    maximal win rate. *)
Definition best_by_win_rate (results : list result) : pyresult result :=
  match results with
  | [] => Raise ValueError
  | r :: rest =>
      Ok (fold_left (fun best x =>
                       if Qltb (win_rate (r_stats best)) (win_rate (r_stats x))
                       then x else best) rest r)
  end.

(** The "Improvement over baseline" figure of the recommended strategy. *)
Definition recommended_improvement (best_pl baseline_pl : Q) : pyresult Q :=
  ratio <- Py.div (best_pl - baseline_pl) (Qabs baseline_pl) ;;
  Ok (ratio * 100).

(** What [optimize] prints, and the list it returns. *)
Record report : Type := mkReport {
  baseline_pl_of : Q;
  baseline_stats_of : stats;
  top : list top_line;
  best_winrate : result;
  best_strategy : result;
  best_improvement : Q;
  results_of : list result
}.

(** [optimize]: [None] when no signal was loaded.  The DEBUG block, which
    prints one signal the baseline has already evaluated, is left out. *)
Definition optimize (table : list signal_details) (announced : announced_tps)
  (step : Z) (include_tp6 : bool) (top_n : Z) : pyresult (option report) :=
  let signals := load_signals table announced in
  match signals with
  | [] => Ok None
  | _ =>
      baseline <- calculate_portfolio_profit signals default_strategy ;;
      let baseline_pl := fst baseline in
      strategies <- generate_strategies step include_tp6 ;;
      results <- Py.for_each (evaluate_strategy signals) strategies [] ;;
      let results := sort_by_total_pl results in
      lines <- top_listing results baseline_pl top_n ;;
      best_wr <- best_by_win_rate results ;;
      best <- Py.index results 0 ;;
      imp <- recommended_improvement (r_total_pl best) baseline_pl ;;
      Ok (Some (mkReport baseline_pl (snd baseline) lines best_wr best imp results))
  end.

End Optimizer.

(** ** dashboard_backend.py: [get_signal_history_fallback] *)

Module Dashboard.

Inductive outcome : Set :=
| SL_Hit
| TP_Hit (level : Z).

Inductive outcome_class : Set :=
| loss
| win.

Record breakdown_row : Type := mkBreakdownRow {
  tp_level : Z;
  price : Q;
  row_pips : Q;
  partial_exit_percent : Z;
  row_profit_percent : Q
}.

(** The entry appended to [signals] for one row (the fields copied
    unchanged from the row are left out). *)
Record signal_view : Type := mkSignalView {
  exit_price : option Q;
  view_risk_level : string;
  highest_tp : Z;
  view_outcome : outcome;
  view_outcome_class : outcome_class;
  pips : Q;
  profit_percent : Q;
  tp_breakdown : list breakdown_row
}.

(** [row[f'tp{n}']]: [sqlite3.Row] raises [IndexError] on an unknown key. *)
Definition row_tp (row : signal_details) (n : Z) : pyresult (option Q) :=
  match tp_column row n with
  | Some v => Ok v
  | None => Raise IndexError
  end.

(** The chain of substring tests that sets [pip_multiplier]; the source
    repeats it verbatim in the stop-loss and in the take-profit branch. *)
Definition pip_multiplier (symbol : string) : Q :=
  if Py.contains "XAU" symbol || Py.contains "GOLD" symbol then 0.10
  else if Py.contains "BTC" symbol || Py.contains "BITCOIN" symbol then 1.0
  else if Py.contains "NAS" symbol || Py.contains "US100" symbol
          || Py.contains "NDX" symbol then 1.0
  else if Py.contains "JPY" symbol then 0.01
  else 0.0001.

(** Stop-loss pips when the stop-loss or entry price is unknown. *)
Definition estimated_sl_pips (symbol : string) : Q :=
  if Py.contains "XAU" symbol || Py.contains "GOLD" symbol then -30
  else if Py.contains "BTC" symbol || Py.contains "BITCOIN" symbol then -400
  else if Py.contains "NAS" symbol || Py.contains "US100" symbol
          || Py.contains "NDX" symbol then -75
  else -30.

Definition risk_level_of (row : signal_details) : string :=
  match risk_level row with
  | Some EmptyString => "MEDIUM"
  | Some s => s
  | None => "MEDIUM"
  end.

Definition risk_percent_of (risk_level : string) : Q :=
  if String.eqb risk_level "LOW" then 1.0
  else if String.eqb risk_level "HIGH" then 3.0
  else 2.0.

(** Signed pip distance from entry to [target]. *)
Definition signed_pips (row : signal_details) (target entry pip_multiplier : Q)
  : pyresult Q :=
  if String.eqb (action row) "BUY" then Py.div (target - entry) pip_multiplier
  else Py.div (entry - target) pip_multiplier.

(** [row['tp6'] is not None if 'tp6' in row.keys() else False]; the query
    always selects the [tp6] column. *)
Definition has_tp6 (row : signal_details) : bool :=
  match tp6 row with Some _ => true | None => false end.

(** The cascade on [highest_tp] that sets [profit_percent] for a TP outcome. *)
Definition tp_profit_percent (row : signal_details) (highest_tp : Z)
  (leveraged_move risk_percent : Q) : Q :=
  if (highest_tp =? 1)%Z then (leveraged_move * 0.50) * (risk_percent / 100)
  else if (highest_tp =? 2)%Z then (leveraged_move * 0.70) * (risk_percent / 100)
  else if (highest_tp =? 3)%Z then (leveraged_move * 0.80) * (risk_percent / 100)
  else if (highest_tp =? 4)%Z then (leveraged_move * 0.90) * (risk_percent / 100)
  else if (highest_tp =? 5)%Z then
    if has_tp6 row then (leveraged_move * 0.95) * (risk_percent / 100)
    else leveraged_move * (risk_percent / 100)
  else if (highest_tp >=? 6)%Z then leveraged_move * (risk_percent / 100)
  else 0.

(** [pips] and [profit_percent] before the final rounding. *)
Definition pips_and_profit (row : signal_details) (highest_tp : Z)
  (exit_price : option Q) (risk_percent : Q) : pyresult (Q * Q) :=
  if (highest_tp =? 0)%Z then
    let profit_percent := - risk_percent in
    if Py.truthy exit_price && Py.truthy (entry_price row) then
      x <- Py.float exit_price ;;
      e <- Py.float (entry_price row) ;;
      pips <- signed_pips row x e (pip_multiplier (symbol row)) ;;
      Ok (pips, profit_percent)
    else Ok (estimated_sl_pips (symbol row), profit_percent)
  else if Py.truthy exit_price && Py.truthy (entry_price row) then
    x <- Py.float exit_price ;;
    e <- Py.float (entry_price row) ;;
    pips <- signed_pips row x e (pip_multiplier (symbol row)) ;;
    ratio <- Py.div (Qabs (x - e)) e ;;
    let price_move_percent := ratio * 100 in
    let leveraged_move := price_move_percent * 500 in
    Ok (pips, tp_profit_percent row highest_tp leveraged_move risk_percent)
  else Ok (0, 0).

Definition partial_exit_of (row : signal_details) (tp_level : Z) : Q :=
  if (tp_level =? 1)%Z then 0.50
  else if (tp_level =? 2)%Z then 0.20
  else if (tp_level =? 3)%Z then 0.10
  else if (tp_level =? 4)%Z then 0.10
  else if (tp_level =? 5)%Z then (if has_tp6 row then 0.05 else 0.10)
  else if (tp_level =? 6)%Z then 0.05
  else 0.

(** One turn of [for tp_level in range(1, highest_tp + 1)].  [pip_multiplier]
    is read only under the condition that made the take-profit branch set
    it for this row. *)
Definition breakdown_step (row : signal_details) (exit_price : option Q)
  (risk_percent : Q) (tp_breakdown : list breakdown_row) (tp_level : Z)
  : pyresult (list breakdown_row) :=
  tp_price <- row_tp row tp_level ;;
  if negb (Py.truthy tp_price) then Ok tp_breakdown
  else
    tp_price <- Py.float tp_price ;;
    tp_pips <-
      (if Py.truthy exit_price && Py.truthy (entry_price row) then
         e <- Py.float (entry_price row) ;;
         signed_pips row tp_price e (pip_multiplier (symbol row))
       else Ok 0) ;;
    tp_price_move <-
      (if Py.truthy (entry_price row) then
         e <- Py.float (entry_price row) ;;
         ratio <- Py.div (Qabs (tp_price - e)) e ;;
         Ok (ratio * 100)
       else Ok 0) ;;
    let tp_leveraged_move := tp_price_move * 500 in
    let partial_exit := partial_exit_of row tp_level in
    let tp_profit := (tp_leveraged_move * partial_exit) * (risk_percent / 100) in
    Ok (tp_breakdown ++
        [mkBreakdownRow tp_level
           (Py.round tp_price (if negb (Py.contains "JPY" (symbol row)) then 2 else 3))
           (Py.round tp_pips 1)
           (Py.int (partial_exit * 100))
           (Py.round tp_profit 2)]).

(** The body of [for row in rows] for one row; [tp_hits] is the parsed
    [GROUP_CONCAT] of the TP levels announced for the row. *)
Definition evaluate_row (row : signal_details) (tp_hits : list Z) : pyresult signal_view :=
  let highest_tp := highest_of tp_hits in
  exit_price <-
    (if (highest_tp =? 0)%Z then Ok (stop_loss row) else row_tp row highest_tp) ;;
  let risk_level := risk_level_of row in
  let risk_percent := risk_percent_of risk_level in
  pp <- pips_and_profit row highest_tp exit_price risk_percent ;;
  tp_breakdown <-
    Py.for_each (breakdown_step row exit_price risk_percent)
                (Py.range 1 (highest_tp + 1)) [] ;;
  Ok (mkSignalView exit_price risk_level highest_tp
        (if (highest_tp =? 0)%Z then SL_Hit else TP_Hit highest_tp)
        (if (highest_tp =? 0)%Z then loss else win)
        (Py.or_zero (fun p => Py.round p 1) (fst pp))
        (Py.or_zero (fun p => Py.round p 2) (snd pp))
        tp_breakdown).

(** The summary statistics computed over the processed signals. *)
Record summary : Type := mkSummary {
  total_signals : Z;
  winning_signals : Z;
  losing_signals : Z;
  summary_win_rate : Q;
  total_pl_percent : Q;
  total_pips : Q;
  tp_distribution : list Z
}.

Definition count_where (p : signal_view -> bool) (signals : list signal_view) : Z :=
  Z.of_nat (length (filter p signals)).

Definition is_win (v : signal_view) : bool :=
  match view_outcome_class v with win => true | loss => false end.

Definition summarize (signals : list signal_view) : summary :=
  let total_signals := Z.of_nat (length signals) in
  let winning_signals := count_where is_win signals in
  let losing_signals := count_where (fun v => negb (is_win v)) signals in
  let win_rate :=
    if (0 <? total_signals)%Z
    then inject_Z winning_signals / inject_Z total_signals * 100 else 0 in
  let total_pl_percent := fold_left (fun acc v => acc + profit_percent v) signals 0 in
  let total_pips := fold_left (fun acc v => acc + pips v) signals 0 in
  mkSummary total_signals winning_signals losing_signals
    (Py.round win_rate 2) (Py.round total_pl_percent 2) (Py.round total_pips 1)
    (losing_signals ::
     map (fun k => count_where (fun v => (highest_tp v =? k)%Z) signals)
         [1; 2; 3; 4; 5; 6]%Z).

(** The JSON answer: the processed signals with their summary, or, when
    any exception escapes the body, the error answer with status 500. *)
Inductive response : Type :=
| Success (signals : list signal_view) (stats : summary)
| ServerError (e : pyerror).

(** [get_signal_history_fallback] on the rows the query returned, each with
    its parsed [tp_hits]. *)
Definition get_signal_history_fallback (rows : list (signal_details * list Z))
  : response :=
  match Py.for_each
          (fun signals r =>
             v <- evaluate_row (fst r) (snd r) ;;
             Ok (signals ++ [v]))
          rows [] with
  | Ok signals => Success signals (summarize signals)
  | Raise e => ServerError e
  end.

(** Sum of the [profit_percent] fields of the breakdown rows. *)
Definition breakdown_total (rows : list breakdown_row) : Q :=
  fold_left (fun acc r => acc + row_profit_percent r) rows 0.

End Dashboard.

(** ** The profit formula on binary64 floats

    The arithmetic shared by both evaluators, on IEEE 754 doubles, with the
    operations in the order of the source. *)

Module Binary64.

(** [abs(target - entry) / entry * 100 * 500] *)
Definition leveraged_move (target entry : PrimFloat.float) : PrimFloat.float :=
  (PrimFloat.abs (target - entry) / entry * 100 * 500)%float.

(** [(leveraged_move * strategy_percent) * (risk_percent / 100)] *)
Definition tp_profit
  (tp_price entry_price strategy_percent risk_percent : PrimFloat.float)
  : PrimFloat.float :=
  ((leveraged_move tp_price entry_price * strategy_percent)
   * (risk_percent / 100))%float.

(** [(target - entry) / pip_multiplier], the pip distance of a BUY. *)
Definition buy_pips (target entry pip_multiplier : PrimFloat.float)
  : PrimFloat.float :=
  ((target - entry) / pip_multiplier)%float.

(** [tp / 100] for an integer percentage given as a float. *)
Definition percent_fraction (tp : PrimFloat.float) : PrimFloat.float :=
  (tp / 100)%float.

(** [sum(strategy)] *)
Definition fraction_sum (strategy : list PrimFloat.float) : PrimFloat.float :=
  fold_left PrimFloat.add strategy 0%float.

(** [tp / 100] for an integer percentage [tp] of [generate_strategies]: true
    division of two small integers, the quotient rounded once. *)
Definition stored_fraction (tp : Z) : PrimFloat.float :=
  percent_fraction (PrimFloat.of_uint63 (Uint63.of_Z tp)).

(** [generate_strategies] with the fractions as the doubles the lists hold. *)
Definition generate_strategies (step : Z) (include_tp6 : bool)
  : pyresult (list (list PrimFloat.float)) :=
  percentages <- Py.range_step 101 step ;;
  if negb include_tp6 then
    Ok (flat_map (fun tp1 =>
        flat_map (fun tp2 =>
        flat_map (fun tp3 =>
        flat_map (fun tp4 =>
        flat_map (fun tp5 =>
          if (tp1 + tp2 + tp3 + tp4 + tp5 =? 100)%Z then
            [[stored_fraction tp1; stored_fraction tp2; stored_fraction tp3;
              stored_fraction tp4; stored_fraction tp5; 0%float]]
          else [])
        percentages) percentages) percentages) percentages) percentages)
  else
    Ok (flat_map (fun tp1 =>
        flat_map (fun tp2 =>
        flat_map (fun tp3 =>
        flat_map (fun tp4 =>
        flat_map (fun tp5 =>
        flat_map (fun tp6 =>
          if (tp1 + tp2 + tp3 + tp4 + tp5 + tp6 =? 100)%Z then
            [[stored_fraction tp1; stored_fraction tp2; stored_fraction tp3;
              stored_fraction tp4; stored_fraction tp5; stored_fraction tp6]]
          else [])
        percentages) percentages) percentages) percentages) percentages) percentages).

End Binary64.

(** ** Vocabulary of the statements *)

Module Spec.

(** [needle] occurs in [s] as a contiguous substring. *)
Definition Substring (needle s : string) : Prop :=
  exists pre post : string, s = (pre ++ needle ++ post)%string.

Definition gold_family (symbol : string) : Prop :=
  Substring "XAU" symbol \/ Substring "GOLD" symbol.

Definition bitcoin_family (symbol : string) : Prop :=
  Substring "BTC" symbol \/ Substring "BITCOIN" symbol.

Definition nasdaq_family (symbol : string) : Prop :=
  Substring "NAS" symbol \/ Substring "US100" symbol \/ Substring "NDX" symbol.

Definition jpy_quoted (symbol : string) : Prop :=
  Substring "JPY" symbol.

(** The same row or signal with another [risk_level]. *)
Definition with_risk_level (row : signal_details) (rl : option string) : signal_details :=
  mkSignalDetails (signal_number row) (symbol row) (action row) (entry_price row)
    (stop_loss row) (tp1 row) (tp2 row) (tp3 row) (tp4 row) (tp5 row) (tp6 row) rl.

Definition signal_with_risk_level (s : Optimizer.signal) (rl : option string)
  : Optimizer.signal :=
  Optimizer.mkSignal (with_risk_level (Optimizer.details s) rl)
    (Optimizer.tps_hit s) (Optimizer.highest_tp s).

(** Sum of the fractions of a strategy, left to right. *)
Definition fraction_sum (strategy : list Q) : Q :=
  fold_left Qplus strategy 0.

(** The numbers of a dashboard evaluation: pips, profit percentage and the
    breakdown rows (or the exception). *)
Definition figures (r : pyresult Dashboard.signal_view)
  : pyresult (Q * Q * list Dashboard.breakdown_row) :=
  v <- r ;;
  Ok (Dashboard.pips v, Dashboard.profit_percent v, Dashboard.tp_breakdown v).

(** The scenario signal: BUY XAUUSD at 2000.0 with TP1 at 2010.0, MEDIUM
    risk; the remaining columns are arbitrary. *)
Definition scenario_row (n : Z) (sl t2 t3 t4 t5 t6 : option Q) : signal_details :=
  mkSignalDetails n "XAUUSD" "BUY" (Some 2000.0) sl (Some 2010.0) t2 t3 t4 t5 t6
    (Some "MEDIUM"%string).

(** A BUY XAUUSD signal at 2000.0 whose TP1 (2010.0) and TP2 (2020.0) were
    both reached. *)
Definition two_level_row : signal_details :=
  mkSignalDetails 7 "XAUUSD" "BUY" (Some 2000.0) (Some 1990.0) (Some 2010.0)
    (Some 2020.0) None None None None (Some "MEDIUM"%string).

(** What one turn of the optimizer's loop adds for a level whose price is
    recorded. *)
Definition level_profit (tp entry strategy_percent risk_percent : Q) : Q :=
  (Qabs (tp - entry) / entry * 100 * 500 * strategy_percent) * (risk_percent / 100).

(** Two strategies are the same candidate when their fractions are equal
    as numbers, slot by slot. *)
Definition same_strategy : list Q -> list Q -> Prop := eqlistA Qeq.

(** The integer percentages of a strategy read as one base-101 number. *)
Definition strategy_key (strategy : list Q) : Z :=
  fold_left (fun acc f => (acc * 101 + Qfloor (f * 100))%Z) strategy 0%Z.

Fixpoint increasing (ks : list Z) : bool :=
  match ks with
  | a :: (b :: _) as rest => (a <? b)%Z && increasing rest
  | _ => true
  end.

(** [strategy] is the candidate built from the integer percentages
    [tp1 .. tp5], multiples of [step] between 0 and 100 adding up to 100,
    with the sixth slot at 0. *)
Definition five_slot_candidate (step : Z) (strategy : list Q) : Prop :=
  exists tp1 tp2 tp3 tp4 tp5 : Z,
    strategy = [Optimizer.percent_fraction tp1; Optimizer.percent_fraction tp2;
                Optimizer.percent_fraction tp3; Optimizer.percent_fraction tp4;
                Optimizer.percent_fraction tp5; 0] /\
    Forall (fun tp => (0 <= tp <= 100)%Z /\ (step | tp)%Z) [tp1; tp2; tp3; tp4; tp5] /\
    (tp1 + tp2 + tp3 + tp4 + tp5 = 100)%Z.

(** [strategy] is the candidate built from six integer percentages,
    multiples of [step] between 0 and 100 adding up to 100. *)
Definition six_slot_candidate (step : Z) (strategy : list Q) : Prop :=
  exists tp1 tp2 tp3 tp4 tp5 tp6 : Z,
    strategy = [Optimizer.percent_fraction tp1; Optimizer.percent_fraction tp2;
                Optimizer.percent_fraction tp3; Optimizer.percent_fraction tp4;
                Optimizer.percent_fraction tp5; Optimizer.percent_fraction tp6] /\
    Forall (fun tp => (0 <= tp <= 100)%Z /\ (step | tp)%Z)
           [tp1; tp2; tp3; tp4; tp5; tp6] /\
    (tp1 + tp2 + tp3 + tp4 + tp5 + tp6 = 100)%Z.

(** The strategy that closes the whole position at level [k]. *)
Definition all_on_level (k : Z) : list Q :=
  map (fun lvl => if (lvl =? k)%Z then 1 else 0) [1; 2; 3; 4; 5; 6]%Z.

(** Sum of the recorded signal profits, and the numbers of wins and losses
    among them. *)
Definition profit_sum (rs : list Optimizer.signal_result) : Q :=
  fold_left (fun acc r => acc + Optimizer.sr_profit r) rs 0.
Definition count_wins (rs : list Optimizer.signal_result) : Z :=
  Z.of_nat (length (filter (fun r => Optimizer.Qltb 0 (Optimizer.sr_profit r)) rs)).
Definition count_losses (rs : list Optimizer.signal_result) : Z :=
  Z.of_nat (length (filter (fun r => Optimizer.Qltb (Optimizer.sr_profit r) 0) rs)).
(** [r] is the entry [calculate_portfolio_profit] records for signal [s]. *)
Definition result_of (strategy : list Q) (s : Optimizer.signal)
  (r : Optimizer.signal_result) : Prop :=
  Optimizer.calculate_signal_profit s strategy = Ok (Optimizer.sr_profit r) /\
  Optimizer.sr_signal_number r = signal_number (Optimizer.details s) /\
  Optimizer.sr_symbol r = symbol (Optimizer.details s) /\
  Optimizer.sr_highest_tp r = Optimizer.highest_tp s.

(** [a] ranks before [b]: its total P/L is not smaller. *)
Definition descending (a b : Optimizer.result) : Prop :=
  Optimizer.r_total_pl b <= Optimizer.r_total_pl a.

(** [r] carries the portfolio figures of its own strategy. *)
Definition evaluated_on (signals : list Optimizer.signal) (r : Optimizer.result) : Prop :=
  Optimizer.calculate_portfolio_profit signals (Optimizer.r_strategy r) =
  Ok (Optimizer.r_total_pl r, Optimizer.r_stats r).

(** The row records a non-zero price for level [lvl]. *)
Definition priced (row : signal_details) (lvl : Z) : bool :=
  match tp_column row lvl with
  | Some v => Py.truthy v
  | None => false
  end.

(** The levels from 1 to [h] that have a price, in increasing order. *)
Definition priced_levels (row : signal_details) (h : Z) : list Z :=
  filter (priced row) (Py.range 1 (h + 1)).

(** The price move to [tp] in percent of the entry price; zero when the
    entry price is missing or zero. *)
Definition row_move (row : signal_details) (tp : Q) : Q :=
  if Py.truthy (entry_price row) then
    match entry_price row with
    | Some e => Qabs (tp - e) / e * 100
    | None => 0
    end
  else 0.

(** The profit of level [lvl] under the dashboard's allocation, before
    rounding. *)
Definition level_contribution (row : signal_details) (rp : Q) (lvl : Z) : Q :=
  match tp_column row lvl with
  | Some (Some tp) => (row_move row tp * 500 * Dashboard.partial_exit_of row lvl) * (rp / 100)
  | _ => 0
  end.

(** The dashboard's fixed allocation as a strategy of the optimizer. *)
Definition dashboard_strategy (row : signal_details) : list Q :=
  map (Dashboard.partial_exit_of row) [1; 2; 3; 4; 5; 6]%Z.

(** Sum of the [partial_exit_percent] fields of the breakdown rows. *)
Definition exit_percent_total (rows : list Dashboard.breakdown_row) : Z :=
  fold_left (fun acc r => (acc + Dashboard.partial_exit_percent r)%Z) rows 0%Z.

(** Sum of the unrounded level profits over [levels]. *)
Definition contribution_sum (row : signal_details) (rp : Q) (levels : list Z) : Q :=
  fold_left (fun acc lvl => acc + level_contribution row rp lvl) levels 0.

(** The level of a processed signal is 0 to 6, and it counts as a win
    exactly when the level is not 0. *)
Definition well_classified (v : Dashboard.signal_view) : Prop :=
  (0 <= Dashboard.highest_tp v <= 6)%Z /\
  Dashboard.is_win v = negb (Dashboard.highest_tp v =? 0)%Z.

(** [r] is the breakdown row of its level: allocation percentage and
    rounded profit. *)
Definition row_of_level (row : signal_details) (rp : Q) (r : Dashboard.breakdown_row)
  : Prop :=
  (1 <= Dashboard.tp_level r <= 6)%Z /\
  Dashboard.partial_exit_percent r =
    Py.int (Dashboard.partial_exit_of row (Dashboard.tp_level r) * 100) /\
  Dashboard.row_profit_percent r =
    Py.round (level_contribution row rp (Dashboard.tp_level r)) 2.

(** The signal reached at least one TP level. *)
Definition reached_tp (s : Optimizer.signal) : bool :=
  negb (Optimizer.highest_tp s =? 0)%Z.

(** Level [k] is, for signal [s], a reached level with a recorded price that
    is at least as far from the (positive) entry price as every other
    reached level; a signal that reached no level satisfies it for any [k]. *)
Definition farthest_level (s : Optimizer.signal) (k : Z) : Prop :=
  exists e,
    entry_price (Optimizer.details s) = Some e /\ 0 < e /\
    (Optimizer.highest_tp s = 0%Z \/
     ((1 <= k <= Optimizer.highest_tp s)%Z /\
      exists tpk,
        Optimizer.get_tp s k = Some tpk /\ ~ tpk == 0 /\
        forall lvl tp, (1 <= lvl <= Optimizer.highest_tp s)%Z ->
                       Optimizer.get_tp s lvl = Some tp ->
                       Qabs (tp - e) <= Qabs (tpk - e))).

(** The enumerated candidate that puts 100 percent on level [k]; its sixth
    entry is the literal 0 when TP6 is not enumerated. *)
Definition unit_candidate (include_tp6 : bool) (k : Z) : list Q :=
  map (fun lvl => Optimizer.percent_fraction (if (lvl =? k)%Z then 100 else 0))
      [1; 2; 3; 4; 5]%Z
  ++ [if include_tp6 then Optimizer.percent_fraction (if (6 =? k)%Z then 100 else 0)
      else 0].

(** The integer percentages of a strategy, fraction times 100. *)
Definition percentages_of (strategy : list Q) : list Z :=
  map (fun f => Qfloor (f * 100)) strategy.

(** The price a row exits at: the stop loss when no level was reached,
    otherwise the price of the highest level. *)
Definition recorded_exit_price (row : signal_details) (highest_tp : Z) : option Q :=
  if (highest_tp =? 0)%Z then stop_loss row
  else match tp_column row highest_tp with
       | Some v => v
       | None => None
       end.

(** The distance from [entry] to [target] in the direction of the trade:
    BUY gains when the price rises, every other action when it falls. *)
Definition signed_distance (row : signal_details) (target entry : Q) : Q :=
  if String.eqb (action row) "BUY" then target - entry else entry - target.

End Spec.

Import Spec.

(** ** Facts about the Python layer *)

Section PyFacts.

Lemma Qeq_bool_false_neq (a b : Q) : Qeq_bool a b = false -> ~ a == b.
Proof.
  intros H E. apply Qeq_eq_bool in E. congruence.
Qed.

Lemma Qeq_bool_refl_zero (a : Q) : a == 0 -> Qeq_bool a 0 = true.
Proof. apply Qeq_eq_bool. Qed.

Lemma div_ok (a b : Q) : ~ b == 0 -> Py.div a b = Ok (a / b).
Proof.
  intros H. unfold Py.div.
  destruct (Qeq_bool b 0) eqn:E; [|reflexivity].
  apply Qeq_bool_eq in E. contradiction.
Qed.

Lemma truthy_true (v : option Q) :
  Py.truthy v = true -> exists q, v = Some q /\ ~ q == 0.
Proof.
  destruct v as [q|]; simpl; [|discriminate].
  intros H. exists q. split; [reflexivity|].
  apply Qeq_bool_false_neq. now apply negb_true_iff.
Qed.

Lemma truthy_none : Py.truthy None = false.
Proof. reflexivity. Qed.

Lemma truthy_zero (q : Q) : q == 0 -> Py.truthy (Some q) = false.
Proof.
  intros H. simpl. now rewrite (Qeq_bool_refl_zero q H).
Qed.

Lemma truthy_zero_inv (q : Q) : Py.truthy (Some q) = false -> q == 0.
Proof.
  simpl. intros H. apply negb_false_iff in H. now apply Qeq_bool_eq.
Qed.

Lemma starts_with_spec (p s : string) :
  Py.starts_with p s = true <-> exists t, s = (p ++ t)%string.
Proof.
  revert s. induction p as [|a p IH]; intros s; simpl.
  - split; [intros _; now exists s | reflexivity].
  - destruct s as [|b s].
    + split; [discriminate | intros [t Ht]; discriminate].
    + rewrite andb_true_iff, Ascii.eqb_eq, IH. split.
      * intros [-> [t ->]]. now exists t.
      * intros [t Ht]. injection Ht as -> ->. split; [reflexivity | now exists t].
Qed.

Lemma contains_spec (needle s : string) :
  Py.contains needle s = true <-> Substring needle s.
Proof.
  unfold Substring. induction s as [|a s IH].
  - simpl. rewrite orb_false_r, starts_with_spec. split.
    + intros [t Ht]. now exists EmptyString, t.
    + intros [pre [post H]]. destruct pre; [|discriminate].
      now exists post.
  - cbn [Py.contains]. rewrite orb_true_iff, starts_with_spec, IH. split.
    + intros [[t Ht] | [pre [post H]]].
      * now exists EmptyString, t.
      * exists (String a pre), post. simpl. now rewrite H.
    + intros [pre [post H]]. destruct pre as [|b pre].
      * left. now exists post.
      * right. simpl in H. injection H as _ H. now exists pre, post.
Qed.

Lemma contains_false (needle s : string) :
  Py.contains needle s = false <-> ~ Substring needle s.
Proof.
  rewrite <- contains_spec. destruct (Py.contains needle s); split; congruence.
Qed.

End PyFacts.

(** ** Pip sizing *)

Section PipSizing.

Lemma pip_multiplier_positive (symbol : string) : 0 < Dashboard.pip_multiplier symbol.
Proof.
  unfold Dashboard.pip_multiplier.
  repeat match goal with |- context [if ?b then _ else _] => destruct b end;
    reflexivity.
Qed.

Lemma pip_multiplier_nonzero (symbol : string) : ~ Dashboard.pip_multiplier symbol == 0.
Proof.
  pose proof (pip_multiplier_positive symbol). lra.
Qed.

End PipSizing.

(** ** Risk tiers and the stop-loss outcome *)

Section RiskTiers.

Lemma optimizer_risk_percent_default (rl : option string) :
  rl <> Some "LOW"%string -> rl <> Some "HIGH"%string ->
  Optimizer.risk_percent_of rl = 2.
Proof.
  intros HL HH. destruct rl as [s|]; [|reflexivity]. simpl.
  destruct (String.eqb_spec s "LOW"); [subst; congruence|].
  destruct (String.eqb_spec s "MEDIUM"); [reflexivity|].
  destruct (String.eqb_spec s "HIGH"); [subst; congruence|reflexivity].
Qed.

Lemma dashboard_risk_percent_default (row : signal_details) :
  risk_level row <> Some "LOW"%string -> risk_level row <> Some "HIGH"%string ->
  Dashboard.risk_percent_of (Dashboard.risk_level_of row) = 2.0.
Proof.
  intros HL HH. unfold Dashboard.risk_level_of.
  destruct (risk_level row) as [s|]; [|reflexivity].
  assert (E : Dashboard.risk_percent_of s = 2.0).
  { unfold Dashboard.risk_percent_of.
    destruct (String.eqb_spec s "LOW"); [subst; congruence|].
    destruct (String.eqb_spec s "HIGH"); [subst; congruence|reflexivity]. }
  destruct s; [reflexivity | exact E].
Qed.

Lemma pips_and_profit_stop_loss (row : signal_details) (x : option Q) (rp : Q) :
  exists p, Dashboard.pips_and_profit row 0 x rp = Ok (p, - rp).
Proof.
  unfold Dashboard.pips_and_profit. simpl.
  destruct (Py.truthy x) eqn:Hx; simpl; [|eexists; reflexivity].
  destruct (Py.truthy (entry_price row)) eqn:He; simpl; [|eexists; reflexivity].
  apply truthy_true in Hx. destruct Hx as [q [-> _]].
  apply truthy_true in He. destruct He as [e [-> _]]. simpl.
  unfold Dashboard.signed_pips.
  destruct (String.eqb (action row) "BUY");
    rewrite div_ok by apply pip_multiplier_nonzero; simpl; eexists; reflexivity.
Qed.

Lemma evaluate_row_stop_loss (row : signal_details) :
  exists v, Dashboard.evaluate_row row [] = Ok v /\
    Dashboard.highest_tp v = 0%Z /\
    Dashboard.tp_breakdown v = [] /\
    Dashboard.profit_percent v =
      Py.or_zero (fun p => Py.round p 2)
        (- Dashboard.risk_percent_of (Dashboard.risk_level_of row)).
Proof.
  unfold Dashboard.evaluate_row. simpl.
  destruct (pips_and_profit_stop_loss row (stop_loss row)
              (Dashboard.risk_percent_of (Dashboard.risk_level_of row))) as [p Hp].
  rewrite Hp. simpl. eexists. repeat split.
Qed.

(** C2. A signal with no TP hit ([highest_tp = 0]) loses exactly its risk
    percentage, LOW 1, MEDIUM 2, HIGH 3 (an absent tier counts as MEDIUM),
    whatever strategy is supplied. *)
Theorem stop_loss_profit_is_minus_risk (rl : option string) (risk : Q) :
  (rl = Some "LOW"%string /\ risk = 1) \/
  (rl = Some "MEDIUM"%string /\ risk = 2) \/
  (rl = Some "HIGH"%string /\ risk = 3) \/
  (rl = None /\ risk = 2) ->
  (forall (s : Optimizer.signal) (strategy : list Q),
      Optimizer.highest_tp s = 0%Z ->
      risk_level (Optimizer.details s) = rl ->
      Optimizer.calculate_signal_profit s strategy = Ok (- risk)) /\
  (forall row : signal_details,
      risk_level row = rl ->
      exists v, Dashboard.evaluate_row row [] = Ok v /\
                Dashboard.highest_tp v = 0%Z /\
                Dashboard.profit_percent v == - risk).
Proof.
  intros H. split.
  - intros s strategy H0 Hrl. unfold Optimizer.calculate_signal_profit.
    rewrite H0, Hrl. simpl.
    destruct H as [[-> ->] | [[-> ->] | [[-> ->] | [-> ->]]]]; reflexivity.
  - intros row Hrl.
    destruct (evaluate_row_stop_loss row) as [v [Hv [Hh [_ Hp]]]].
    exists v. repeat split; try assumption.
    rewrite Hp. unfold Dashboard.risk_level_of. rewrite Hrl.
    destruct H as [[-> ->] | [[-> ->] | [[-> ->] | [-> ->]]]]; reflexivity.
Qed.

Lemma stop_loss_profit_is_minus_risk_witness :
  Optimizer.calculate_signal_profit
    (Optimizer.mkSignal
       (mkSignalDetails 1 "EURUSD" "SELL" (Some 1.1) None (Some 1.09) None None
          None None None (Some "HIGH"%string)) [] 0)
    [1; 0; 0; 0; 0; 0] = Ok (- 3).
Proof.
  apply (proj1 (stop_loss_profit_is_minus_risk (Some "HIGH"%string) 3
                  (or_intror (or_intror (or_introl (conj eq_refl eq_refl))))));
    reflexivity.
Defined.

End RiskTiers.

Section RiskDefault.

Lemma with_risk_level_pips_and_profit (row : signal_details) (rl : option string) :
  Dashboard.pips_and_profit (with_risk_level row rl) = Dashboard.pips_and_profit row.
Proof. destruct row. reflexivity. Qed.

Lemma with_risk_level_breakdown_step (row : signal_details) (rl : option string) :
  Dashboard.breakdown_step (with_risk_level row rl) = Dashboard.breakdown_step row.
Proof. destruct row. reflexivity. Qed.

Lemma with_risk_level_row_tp (row : signal_details) (rl : option string) (n : Z) :
  Dashboard.row_tp (with_risk_level row rl) n = Dashboard.row_tp row n.
Proof.
  destruct row. unfold Dashboard.row_tp, tp_column. reflexivity.
Qed.

End RiskDefault.

(** ** Loops and rounding *)

Section Loops.

Context {A S : Type}.

(** A loop whose turns all return, and keep an invariant, returns a state
    satisfying the invariant. *)
Lemma for_each_invariant (P : S -> Prop) (body : S -> A -> pyresult S) (xs : list A) :
  (forall acc x, In x xs -> P acc -> exists acc', body acc x = Ok acc' /\ P acc') ->
  forall acc, P acc -> exists r, Py.for_each body xs acc = Ok r /\ P r.
Proof.
  induction xs as [|x xs IH]; intros Hbody acc Hacc; simpl.
  - now exists acc.
  - destruct (Hbody acc x (or_introl eq_refl) Hacc) as [acc' [E Hacc']].
    rewrite E. simpl. apply IH; [|assumption].
    intros a y Hy. apply Hbody. now right.
Qed.

Lemma for_each_returns (body : S -> A -> pyresult S) (xs : list A) :
  (forall acc x, In x xs -> Py.returns (body acc x)) ->
  forall acc, Py.returns (Py.for_each body xs acc).
Proof.
  intros Hbody acc.
  destruct (for_each_invariant (fun _ => True) body xs) with (acc := acc)
    as [r [E _]]; [|exact I|now exists r].
  intros a x Hx _. destruct (Hbody a x Hx) as [a' E]. now exists a'.
Qed.

End Loops.

Section Ranges.

Lemma in_range (lo hi k : Z) : In k (Py.range lo hi) <-> (lo <= k < hi)%Z.
Proof.
  unfold Py.range. rewrite in_map_iff. split.
  - intros [n [<- Hn]]. apply in_seq in Hn. lia.
  - intros H. exists (Z.to_nat (k - lo)). split; [lia|].
    apply in_seq. lia.
Qed.

End Ranges.

Section Rounding.

Lemma round_half_even_comp (q q' : Q) :
  q == q' -> Py.round_half_even q = Py.round_half_even q'.
Proof.
  intros H. unfold Py.round_half_even.
  rewrite (Qfloor_comp _ _ H).
  assert (E : q - inject_Z (Qfloor q') == q' - inject_Z (Qfloor q'))
    by now rewrite H.
  now rewrite (Qcompare_comp _ _ E _ _ (Qeq_refl (1 # 2))).
Qed.

Lemma round_comp (q q' : Q) (n : nat) : q == q' -> Py.round q n == Py.round q' n.
Proof.
  intros H. unfold Py.round.
  set (scale := inject_Z (10 ^ Z.of_nat n)).
  rewrite (round_half_even_comp (q * scale) (q' * scale)); [reflexivity|].
  now rewrite H.
Qed.

Lemma round_half_even_nonneg (q : Q) : 0 <= q -> (0 <= Py.round_half_even q)%Z.
Proof.
  intros H. unfold Py.round_half_even.
  assert (F : (0 <= Qfloor q)%Z) by (apply (Qfloor_resp_le 0 q H)).
  destruct (Qcompare _ _); [destruct (Z.even _)| |]; lia.
Qed.

Lemma round_scale_positive (n : nat) : 0 < inject_Z (10 ^ Z.of_nat n).
Proof.
  change 0 with (inject_Z 0). rewrite <- Zlt_Qlt.
  apply Z.pow_pos_nonneg; lia.
Qed.

Lemma round_nonneg (q : Q) (n : nat) : 0 <= q -> 0 <= Py.round q n.
Proof.
  intros H. unfold Py.round.
  pose proof (round_scale_positive n) as Hs.
  apply Qle_shift_div_l; [assumption|].
  rewrite Qmult_0_l. change 0 with (inject_Z 0). rewrite <- Zle_Qle.
  apply round_half_even_nonneg.
  apply Qmult_le_0_compat; [assumption | now apply Qlt_le_weak].
Qed.

Lemma round_zero (q : Q) (n : nat) : q == 0 -> Py.round q n == 0.
Proof.
  intros H. rewrite (round_comp q 0 n H). unfold Py.round.
  set (scale := inject_Z (10 ^ Z.of_nat n)).
  rewrite (round_half_even_comp (0 * scale) 0) by apply Qmult_0_l.
  change (Py.round_half_even 0) with 0%Z.
  unfold Qdiv. apply Qmult_0_l.
Qed.

Lemma or_zero_round (q : Q) (n : nat) :
  Py.or_zero (fun p => Py.round p n) q == Py.round q n.
Proof.
  unfold Py.or_zero. destruct (Qeq_bool q 0) eqn:E; [|reflexivity].
  apply Qeq_bool_eq in E. symmetry. now apply round_zero.
Qed.

End Rounding.

(** ** The optimizer's evaluator *)

Section SignalProfit.

Lemma tp_column_outside (r : signal_details) (n : Z) :
  ~ (1 <= n <= 6)%Z -> tp_column r n = None.
Proof.
  intros H. unfold tp_column.
  destruct n as [|p|p]; try reflexivity.
  destruct p as [[p|p|]|[p|p|]|]; try reflexivity; try (exfalso; lia);
    destruct p; try reflexivity; exfalso; lia.
Qed.

Lemma tp_column_inside (r : signal_details) (n : Z) :
  (1 <= n <= 6)%Z -> exists v, tp_column r n = Some v.
Proof.
  intros H.
  assert (E : n = 1%Z \/ n = 2%Z \/ n = 3%Z \/ n = 4%Z \/ n = 5%Z \/ n = 6%Z) by lia.
  destruct E as [-> | [-> | [-> | [-> | [-> | ->]]]]]; simpl; eexists; reflexivity.
Qed.

Lemma get_tp_truthy_level (s : Optimizer.signal) (n : Z) :
  Py.truthy (Optimizer.get_tp s n) = true -> (1 <= n <= 6)%Z.
Proof.
  intros H. destruct (Z_le_dec 1 n) as [H1|H1];
    [destruct (Z_le_dec n 6) as [H6|H6]; [lia|] |];
    unfold Optimizer.get_tp in H;
    rewrite tp_column_outside in H by lia; discriminate.
Qed.

Lemma index_inside {A : Type} (xs : list A) (i : Z) :
  (0 <= i < Z.of_nat (length xs))%Z -> exists x, Py.index xs i = Ok x /\ In x xs.
Proof.
  intros H. unfold Py.index.
  destruct (i <? 0)%Z eqn:E; [apply Z.ltb_lt in E; lia|].
  destruct (nth_error xs (Z.to_nat i)) as [x|] eqn:N.
  - exists x. split; [reflexivity | eapply nth_error_In; eassumption].
  - apply nth_error_None in N. lia.
Qed.

Lemma tp_step_cases (s : Optimizer.signal) (strategy : list Q) (e rp acc : Q) (i : Z) :
  length strategy = 6%nat -> ~ e == 0 -> (0 <= i)%Z ->
  Optimizer.tp_step s strategy e rp acc i = Ok acc \/
  exists tp sp, In sp strategy /\
    Optimizer.tp_step s strategy e rp acc i = Ok (acc + level_profit tp e sp rp).
Proof.
  intros Hlen He Hi. unfold Optimizer.tp_step.
  destruct (Py.truthy (Optimizer.get_tp s (i + 1))) eqn:T; simpl; [|now left].
  right. pose proof (get_tp_truthy_level _ _ T) as Hlvl.
  apply truthy_true in T. destruct T as [tp [-> _]]. simpl.
  rewrite div_ok by assumption. simpl.
  destruct (index_inside strategy i) as [sp [-> Hsp]]; [rewrite Hlen; simpl; lia|].
  simpl. exists tp, sp. split; [assumption | reflexivity].
Qed.

Lemma risk_percent_nonneg (rl : option string) : 0 <= Optimizer.risk_percent_of rl.
Proof.
  unfold Optimizer.risk_percent_of. destruct rl as [s|]; [|lra].
  repeat match goal with |- context [if ?b then _ else _] => destruct b end;
    lra.
Qed.

Lemma level_profit_nonneg (tp e sp rp : Q) :
  0 < e -> 0 <= sp -> 0 <= rp -> 0 <= level_profit tp e sp rp.
Proof.
  intros He Hsp Hrp. unfold level_profit.
  assert (H1 : 0 <= Qabs (tp - e) / e).
  { apply Qle_shift_div_l; [assumption|]. rewrite Qmult_0_l. apply Qabs_nonneg. }
  assert (H2 : 0 <= rp / 100).
  { apply Qle_shift_div_l; [reflexivity|]. now rewrite Qmult_0_l. }
  apply Qmult_le_0_compat; [|exact H2].
  apply Qmult_le_0_compat; [|exact Hsp].
  apply Qmult_le_0_compat; [|lra].
  apply Qmult_le_0_compat; [exact H1|lra].
Qed.

(** The loop of [calculate_signal_profit] returns for every six-entry
    strategy, and its total is non-negative when the entry price is positive
    and no fraction is negative. *)
Lemma profit_loop_returns (s : Optimizer.signal) (strategy : list Q) (e rp : Q) :
  length strategy = 6%nat -> ~ e == 0 ->
  Py.returns (Py.for_each (Optimizer.tp_step s strategy e rp)
                (Py.range 0 (Optimizer.highest_tp s)) 0).
Proof.
  intros Hlen He. apply for_each_returns. intros acc i Hi.
  apply in_range in Hi.
  destruct (tp_step_cases s strategy e rp acc i Hlen He) as [E | [tp [sp [_ E]]]];
    [lia | | ]; rewrite E; eexists; reflexivity.
Qed.

Lemma profit_loop_nonneg (s : Optimizer.signal) (strategy : list Q) (e rp : Q) :
  length strategy = 6%nat -> 0 < e -> 0 <= rp ->
  Forall (fun f => 0 <= f) strategy ->
  exists p, Py.for_each (Optimizer.tp_step s strategy e rp)
              (Py.range 0 (Optimizer.highest_tp s)) 0 = Ok p /\ 0 <= p.
Proof.
  intros Hlen He Hrp Hs.
  apply (for_each_invariant (fun acc => 0 <= acc)); [|lra].
  intros acc i Hi Hacc. apply in_range in Hi.
  assert (He0 : ~ e == 0) by lra.
  destruct (tp_step_cases s strategy e rp acc i Hlen He0) as [E | [tp [sp [Hsp E]]]];
    [lia | | ]; rewrite E; eexists; (split; [reflexivity|]); [assumption|].
  rewrite Forall_forall in Hs.
  pose proof (level_profit_nonneg tp e sp rp He (Hs sp Hsp) Hrp). lra.
Qed.

End SignalProfit.

(** ** The dashboard's evaluator *)

Section RowEvaluation.

Lemma row_tp_inside (row : signal_details) (n : Z) :
  (1 <= n <= 6)%Z -> exists v, Dashboard.row_tp row n = Ok v.
Proof.
  intros H. unfold Dashboard.row_tp.
  destruct (tp_column_inside row n H) as [v ->]. now exists v.
Qed.

Lemma signed_pips_returns (row : signal_details) (target e : Q) :
  exists p, Dashboard.signed_pips row target e
              (Dashboard.pip_multiplier (symbol row)) = Ok p.
Proof.
  unfold Dashboard.signed_pips.
  destruct (String.eqb (action row) "BUY");
    rewrite div_ok by apply pip_multiplier_nonzero; eexists; reflexivity.
Qed.

Lemma dashboard_risk_percent_positive (rl : string) : 0 < Dashboard.risk_percent_of rl.
Proof.
  unfold Dashboard.risk_percent_of.
  repeat match goal with |- context [if ?b then _ else _] => destruct b end;
    reflexivity.
Qed.

(** A TP outcome whose exit or entry price is missing or zero is left at
    zero pips and zero profit; otherwise the profit is the leveraged move at
    the exit price times the cumulative exit fraction. *)
Lemma pips_and_profit_take_profit (row : signal_details) (h : Z) (x : option Q) (rp : Q) :
  h <> 0%Z ->
  (Py.truthy x && Py.truthy (entry_price row) = false /\
   Dashboard.pips_and_profit row h x rp = Ok (0, 0)) \/
  (exists xq e p,
      x = Some xq /\ entry_price row = Some e /\ ~ xq == 0 /\ ~ e == 0 /\
      Dashboard.pips_and_profit row h x rp =
      Ok (p, Dashboard.tp_profit_percent row h (Qabs (xq - e) / e * 100 * 500) rp)).
Proof.
  intros Hh. unfold Dashboard.pips_and_profit.
  destruct (Z.eqb_spec h 0); [contradiction|].
  destruct (Py.truthy x) eqn:Tx; simpl; [|now left].
  destruct (Py.truthy (entry_price row)) eqn:Te; simpl; [|now left].
  right. apply truthy_true in Tx. destruct Tx as [xq [-> Hx]].
  apply truthy_true in Te. destruct Te as [e [He0 He]]. rewrite He0. simpl.
  destruct (signed_pips_returns row xq e) as [p ->]. simpl.
  rewrite div_ok by assumption. simpl.
  exists xq, e, p. repeat split; assumption.
Qed.

Lemma breakdown_step_returns (row : signal_details) (x : option Q) (rp : Q)
  (acc : list Dashboard.breakdown_row) (lvl : Z) :
  (1 <= lvl <= 6)%Z -> Py.returns (Dashboard.breakdown_step row x rp acc lvl).
Proof.
  intros H. unfold Dashboard.breakdown_step.
  destruct (row_tp_inside row lvl H) as [v ->]. simpl.
  destruct (Py.truthy v) eqn:Tv; simpl; [|eexists; reflexivity].
  apply truthy_true in Tv. destruct Tv as [tp [-> _]]. simpl.
  destruct (Py.truthy (entry_price row)) eqn:Te.
  - apply truthy_true in Te. destruct Te as [e [-> He]]. simpl.
    rewrite div_ok by assumption. simpl.
    destruct (Py.truthy x); simpl.
    + destruct (signed_pips_returns row tp e) as [p ->]. simpl.
      eexists; reflexivity.
    + eexists; reflexivity.
  - rewrite andb_false_r. simpl. eexists; reflexivity.
Qed.

Lemma breakdown_returns (row : signal_details) (x : option Q) (rp : Q) (h : Z) :
  (h <= 6)%Z ->
  Py.returns (Py.for_each (Dashboard.breakdown_step row x rp) (Py.range 1 (h + 1)) []).
Proof.
  intros H. apply for_each_returns. intros acc lvl Hl.
  apply in_range in Hl. apply breakdown_step_returns. lia.
Qed.

(** The shape of the result for a TP outcome at a level the row has. *)
Lemma evaluate_row_take_profit (row : signal_details) (tp_hits : list Z) :
  (1 <= highest_of tp_hits <= 6)%Z ->
  exists x pp b,
    Dashboard.row_tp row (highest_of tp_hits) = Ok x /\
    Dashboard.pips_and_profit row (highest_of tp_hits) x
      (Dashboard.risk_percent_of (Dashboard.risk_level_of row)) = Ok pp /\
    Py.for_each
      (Dashboard.breakdown_step row x
         (Dashboard.risk_percent_of (Dashboard.risk_level_of row)))
      (Py.range 1 (highest_of tp_hits + 1)) [] = Ok b /\
    Dashboard.evaluate_row row tp_hits =
    Ok (Dashboard.mkSignalView x (Dashboard.risk_level_of row) (highest_of tp_hits)
          (Dashboard.TP_Hit (highest_of tp_hits)) Dashboard.win
          (Py.or_zero (fun p => Py.round p 1) (fst pp))
          (Py.or_zero (fun p => Py.round p 2) (snd pp)) b).
Proof.
  intros H. set (h := highest_of tp_hits) in *.
  set (rp := Dashboard.risk_percent_of (Dashboard.risk_level_of row)).
  destruct (row_tp_inside row h H) as [x Hx].
  assert (Hh : h <> 0%Z) by lia.
  assert (Hpp : exists pp, Dashboard.pips_and_profit row h x rp = Ok pp).
  { destruct (pips_and_profit_take_profit row h x rp Hh)
      as [[_ E] | [xq [e [p [_ [_ [_ [_ E]]]]]]]]; rewrite E; eexists; reflexivity. }
  destruct Hpp as [pp Hpp].
  destruct (breakdown_returns row x rp h) as [b Hb]; [lia|].
  exists x, pp, b. repeat split; try assumption.
  unfold Dashboard.evaluate_row. fold h. fold rp.
  destruct (Z.eqb_spec h 0); [contradiction|].
  rewrite Hx. simpl. rewrite Hpp. simpl. rewrite Hb. reflexivity.
Qed.

Lemma tp_profit_percent_nonneg (row : signal_details) (h : Z) (lm rp : Q) :
  0 <= lm -> 0 <= rp -> 0 <= Dashboard.tp_profit_percent row h lm rp.
Proof.
  intros Hlm Hrp. unfold Dashboard.tp_profit_percent.
  assert (H2 : 0 <= rp / 100).
  { apply Qle_shift_div_l; [reflexivity|]. now rewrite Qmult_0_l. }
  repeat match goal with |- context [if ?b then _ else _] => destruct b end;
    first
      [ lra
      | apply Qmult_le_0_compat;
        [ first [assumption | apply Qmult_le_0_compat; [assumption | lra]]
        | exact H2 ] ].
Qed.

Lemma leveraged_move_nonneg (x e : Q) : 0 < e -> 0 <= Qabs (x - e) / e * 100 * 500.
Proof.
  intros He.
  assert (H1 : 0 <= Qabs (x - e) / e).
  { apply Qle_shift_div_l; [assumption|]. rewrite Qmult_0_l. apply Qabs_nonneg. }
  apply Qmult_le_0_compat; [|lra].
  apply Qmult_le_0_compat; [exact H1|lra].
Qed.

End RowEvaluation.

(** ** Pip sizing in the evaluator *)

Section PipSizingUse.

(** Whenever the evaluator computes a pip distance (exit and entry price
    both recorded and non-zero), it divides the signed price distance by
    [pip_multiplier] of the row's symbol. *)
Lemma pips_use_pip_multiplier (row : signal_details) (tp_hits : list Z)
  (v : Dashboard.signal_view) (x e : Q) :
  Dashboard.evaluate_row row tp_hits = Ok v ->
  Dashboard.exit_price v = Some x -> entry_price row = Some e ->
  ~ x == 0 -> ~ e == 0 ->
  Dashboard.pips v ==
  Py.round ((if String.eqb (action row) "BUY" then x - e else e - x)
            / Dashboard.pip_multiplier (symbol row)) 1.
Proof.
  intros Hv Hx He Hx0 He0. unfold Dashboard.evaluate_row in Hv.
  destruct (if (highest_of tp_hits =? 0)%Z then Ok (stop_loss row)
            else Dashboard.row_tp row (highest_of tp_hits)) as [x'|]; [|discriminate].
  cbn [Py.bind] in Hv.
  destruct (Dashboard.pips_and_profit _ _ _ _) as [pp|] eqn:Hpp; [|discriminate].
  cbn [Py.bind] in Hv.
  destruct (Py.for_each _ _ _) as [b|]; [|discriminate].
  cbn [Py.bind] in Hv. injection Hv as <-. cbn in Hx. subst x'.
  cbn [Dashboard.pips]. rewrite or_zero_round. apply round_comp.
  unfold Dashboard.pips_and_profit in Hpp. rewrite He in Hpp.
  assert (Tx : Py.truthy (Some x) = true).
  { simpl. destruct (Qeq_bool x 0) eqn:E; [apply Qeq_bool_eq in E; contradiction|reflexivity]. }
  assert (Te : Py.truthy (Some e) = true).
  { simpl. destruct (Qeq_bool e 0) eqn:E; [apply Qeq_bool_eq in E; contradiction|reflexivity]. }
  rewrite Tx, Te in Hpp. cbn [andb Py.float Py.bind] in Hpp.
  unfold Dashboard.signed_pips in Hpp.
  destruct (String.eqb (action row) "BUY");
    rewrite div_ok in Hpp by apply pip_multiplier_nonzero;
    cbn [Py.bind] in Hpp;
    destruct (highest_of tp_hits =? 0)%Z;
    try rewrite div_ok in Hpp by assumption;
    cbn [Py.bind] in Hpp; injection Hpp as <-; reflexivity.
Qed.

End PipSizingUse.

(** ** Degenerate and sign properties of a TP outcome *)

Section TakeProfitOutcome.

Lemma falsy_entry (row : signal_details) :
  entry_price row = None \/ (exists e, entry_price row = Some e /\ e == 0) ->
  Py.truthy (entry_price row) = false.
Proof.
  intros [-> | [e [-> He]]]; [reflexivity | now apply truthy_zero].
Qed.

Lemma loaded_signal_has_entry_price (table : list signal_details)
  (announced : Optimizer.announced_tps) (s : Optimizer.signal) :
  In s (Optimizer.load_signals table announced) ->
  exists e, entry_price (Optimizer.details s) = Some e.
Proof.
  unfold Optimizer.load_signals. rewrite in_map_iff.
  intros [row [<- Hrow]]. apply filter_In in Hrow. destruct Hrow as [_ Hnn].
  simpl. destruct (entry_price row) as [e|]; [now exists e | discriminate].
Qed.

(** C9. A TP outcome never yields a negative profit when no fraction of the
    strategy is negative: price moves enter as absolute values, wherever the
    recorded TP prices lie relative to the entry price.  Prices are those of
    the data model: an entry price, when recorded, is not negative. *)
Theorem take_profit_outcome_is_nonnegative :
  (forall (s : Optimizer.signal) (strategy : list Q) (e : Q),
      (1 <= Optimizer.highest_tp s)%Z ->
      entry_price (Optimizer.details s) = Some e -> 0 <= e ->
      length strategy = 6%nat ->
      Forall (fun f => 0 <= f) strategy ->
      exists p, Optimizer.calculate_signal_profit s strategy = Ok p /\ 0 <= p) /\
  (forall (row : signal_details) (tp_hits : list Z),
      (1 <= highest_of tp_hits <= 6)%Z ->
      (forall e, entry_price row = Some e -> 0 <= e) ->
      exists v, Dashboard.evaluate_row row tp_hits = Ok v /\
                0 <= Dashboard.profit_percent v).
Proof.
  split.
  - intros s strategy e Hh He Hpos Hlen Hs.
    unfold Optimizer.calculate_signal_profit.
    destruct (Z.eqb_spec (Optimizer.highest_tp s) 0); [lia|].
    rewrite He. simpl.
    destruct (Qeq_bool e 0) eqn:E; [exists 0; split; [reflexivity|lra]|].
    apply Qeq_bool_false_neq in E.
    apply profit_loop_nonneg; try assumption; [lra|apply risk_percent_nonneg].
  - intros row hits Hh He.
    destruct (evaluate_row_take_profit row hits Hh) as [x [pp [b [_ [Hpp [_ Hv]]]]]].
    eexists. split; [exact Hv|]. simpl.
    rewrite or_zero_round. apply round_nonneg.
    destruct (pips_and_profit_take_profit row (highest_of hits) x
                (Dashboard.risk_percent_of (Dashboard.risk_level_of row)))
      as [[_ E] | [xq [e [p [_ [He' [_ [Hne E]]]]]]]]; [lia | |];
      rewrite E in Hpp; injection Hpp as <-; simpl; [lra|].
    apply tp_profit_percent_nonneg.
    + apply leveraged_move_nonneg. specialize (He e He'). lra.
    + apply Qlt_le_weak, dashboard_risk_percent_positive.
Qed.

Lemma take_profit_outcome_is_nonnegative_witness :
  exists p,
    Optimizer.calculate_signal_profit
      (Optimizer.mkSignal
         (mkSignalDetails 9 "EURUSD" "BUY" (Some 1.10) None (Some 1.09) (Some 1.08)
            None None None None (Some "LOW"%string)) [1; 2]%Z 2)
      [0.5; 0.5; 0; 0; 0; 0] = Ok p /\ 0 <= p.
Proof.
  apply (proj1 take_profit_outcome_is_nonnegative) with (e := 1.10).
  - simpl. lia.
  - reflexivity.
  - unfold Qle. simpl. lia.
  - reflexivity.
  - repeat constructor; unfold Qle; simpl; lia.
Defined.

(** C3. The scenario BUY XAUUSD at 2000.0, TP1 at 2010.0 reached, MEDIUM
    risk: both evaluators give a profit of 2.5 (the optimizer's under the
    default strategy) and the dashboard's gives 100.0 pips; the same figures
    come out of the formula in binary64 arithmetic. *)
Theorem scenario_xauusd_tp1 (n : Z) (sl t2 t3 t4 t5 t6 : option Q) :
  (exists v,
      Dashboard.evaluate_row (scenario_row n sl t2 t3 t4 t5 t6) [1]%Z = Ok v /\
      Dashboard.highest_tp v = 1%Z /\
      Dashboard.profit_percent v == 2.5 /\ Dashboard.pips v == 100.0) /\
  (exists p,
      Optimizer.calculate_signal_profit
        (Optimizer.mkSignal (scenario_row n sl t2 t3 t4 t5 t6) [1]%Z (highest_of [1]%Z))
        Optimizer.default_strategy = Ok p /\
      p == 2.5) /\
  (Binary64.tp_profit 2010 2000 0.5 2 = 2.5 /\
   0 + Binary64.tp_profit 2010 2000 0.5 2 = 2.5 /\
   Binary64.buy_pips 2010 2000 0.10 = 100)%float.
Proof.
  split; [|split].
  - eexists. split; [vm_compute; reflexivity|].
    repeat split; reflexivity.
  - eexists. split; [vm_compute; reflexivity|]. reflexivity.
  - repeat split; vm_compute; reflexivity.
Qed.

End TakeProfitOutcome.

(** ** Strategy validation *)

Section StrategyValidation.

(** C4 fails as stated: a strategy whose fractions sum to 6 is not rejected;
    the two-level signal is evaluated to the number 15. *)
Lemma invalid_strategy_is_evaluated :
  ~ fraction_sum [1; 1; 1; 1; 1; 1] == 1 /\
  exists p,
    Optimizer.calculate_signal_profit
      (Optimizer.mkSignal two_level_row [1; 2]%Z (highest_of [1; 2]%Z))
      [1; 1; 1; 1; 1; 1] = Ok p /\
    p == 15.
Proof.
  split; [vm_compute; discriminate|].
  eexists. split; [vm_compute; reflexivity | reflexivity].
Qed.

(** C4, amended. The evaluator does not validate the strategy: every
    six-entry strategy, whatever its fractions sum to, is evaluated to a
    number for every signal that has an entry price. *)
Theorem strategy_is_not_validated (s : Optimizer.signal) (strategy : list Q) :
  length strategy = 6%nat ->
  entry_price (Optimizer.details s) <> None ->
  Py.returns (Optimizer.calculate_signal_profit s strategy).
Proof.
  intros Hlen He. unfold Optimizer.calculate_signal_profit.
  destruct (Optimizer.highest_tp s =? 0)%Z; [eexists; reflexivity|].
  destruct (entry_price (Optimizer.details s)) as [e|]; [|congruence]. simpl.
  destruct (Qeq_bool e 0) eqn:E; [eexists; reflexivity|].
  apply profit_loop_returns; [assumption | now apply Qeq_bool_false_neq].
Qed.

Lemma strategy_is_not_validated_witness :
  Py.returns
    (Optimizer.calculate_signal_profit
       (Optimizer.mkSignal two_level_row [1; 2]%Z 2) [0.9; 0.9; 0; 0; 0; 0]).
Proof.
  apply strategy_is_not_validated; [reflexivity | discriminate].
Defined.

End StrategyValidation.

(** ** Improvement over the baseline *)

Section Improvement.

Lemma improvement_zero_baseline (pl baseline_pl : Q) :
  baseline_pl == 0 -> Optimizer.improvement pl baseline_pl = Ok 0.
Proof.
  intros H. unfold Optimizer.improvement.
  now rewrite (Qeq_bool_refl_zero _ H).
Qed.

Lemma top_lines_zero_baseline (baseline_pl : Q) (results : list Optimizer.result)
  (lines : list Optimizer.top_line) :
  baseline_pl == 0 ->
  Py.for_each (Optimizer.top_line_step baseline_pl) results lines =
  Ok (lines ++
      map (fun r => Optimizer.mkTopLine (Optimizer.r_strategy r)
                      (Optimizer.r_total_pl r) 0
                      (Optimizer.win_rate (Optimizer.r_stats r))) results).
Proof.
  intros H. revert lines. induction results as [|r rs IH]; intros lines; simpl.
  - now rewrite app_nil_r.
  - unfold Optimizer.top_line_step at 1.
    rewrite (improvement_zero_baseline _ _ H). simpl.
    rewrite IH, <- app_assoc. reflexivity.
Qed.

(** The unguarded figure printed for the recommended strategy divides by
    the baseline. *)
Lemma recommended_improvement_zero_baseline (best_pl baseline_pl : Q) :
  baseline_pl == 0 ->
  Optimizer.recommended_improvement best_pl baseline_pl = Raise ZeroDivisionError.
Proof.
  intros H. unfold Optimizer.recommended_improvement, Py.div.
  assert (E : Qabs baseline_pl == 0) by (rewrite H; reflexivity).
  now rewrite (Qeq_bool_refl_zero _ E).
Qed.

(** C5 fails as stated: with a baseline of exactly zero the listing reports
    the number 0 as the improvement of a candidate whose P/L is 7. *)
Lemma zero_baseline_improvement_is_a_number :
  Optimizer.improvement 7 0 = Ok 0 /\
  Optimizer.top_listing
    [Optimizer.mkResult [1; 0; 0; 0; 0; 0] 7 (Optimizer.mkStats 7 1 0 100 [])] 0 10 =
  Ok [Optimizer.mkTopLine [1; 0; 0; 0; 0; 0] 7 0 100].
Proof. split; reflexivity. Qed.

(** C5, amended. When the baseline P/L is exactly zero, every entry of the
    top-N listing carries the number 0 as its improvement over the baseline;
    no ratio is computed. *)
Theorem zero_baseline_improvement_is_zero (results : list Optimizer.result)
  (baseline_pl : Q) (top_n : Z) :
  baseline_pl == 0 ->
  (forall pl, Optimizer.improvement pl baseline_pl = Ok 0) /\
  Optimizer.top_listing results baseline_pl top_n =
  Ok (map (fun r => Optimizer.mkTopLine (Optimizer.r_strategy r)
                      (Optimizer.r_total_pl r) 0
                      (Optimizer.win_rate (Optimizer.r_stats r)))
          (Optimizer.slice_to results top_n)).
Proof.
  intros H. split.
  - intros pl. now apply improvement_zero_baseline.
  - unfold Optimizer.top_listing. now rewrite top_lines_zero_baseline.
Qed.

Lemma zero_baseline_improvement_is_zero_witness :
  Optimizer.improvement 7 (0 # 5) = Ok 0.
Proof.
  apply (proj1 (zero_baseline_improvement_is_zero [] (0 # 5) 10 eq_refl)).
Defined.

End Improvement.

(** ** The breakdown against the reported profit *)

Section Breakdown.

(** C1 fails as stated: with TP1 and TP2 reached the reported profit is 7.0
    (the move to TP2 at 70 percent) while the breakdown rows add up to 4.5,
    in exact and in binary64 arithmetic alike. *)
Lemma breakdown_differs_at_two_levels :
  (exists v,
      Dashboard.evaluate_row two_level_row [1; 2]%Z = Ok v /\
      (1 <= Dashboard.highest_tp v)%Z /\
      Dashboard.profit_percent v == 7 /\
      Dashboard.breakdown_total (Dashboard.tp_breakdown v) == 4.5 /\
      ~ Qabs (Dashboard.breakdown_total (Dashboard.tp_breakdown v)
              - Dashboard.profit_percent v)
        <= (1 # 1000000000) * Qabs (Dashboard.profit_percent v)) /\
  (Binary64.tp_profit 2020 2000 0.70 2 = 7 /\
   0 + Binary64.tp_profit 2010 2000 0.50 2 + Binary64.tp_profit 2020 2000 0.20 2
   = 4.5)%float.
Proof.
  split.
  - eexists. split; [vm_compute; reflexivity|].
    repeat split; try reflexivity; vm_compute; congruence.
  - split; vm_compute; reflexivity.
Qed.

Lemma breakdown_single (row : signal_details) (x : option Q) (rp : Q) :
  Py.for_each (Dashboard.breakdown_step row x rp) (Py.range 1 (1 + 1)) [] =
  Dashboard.breakdown_step row x rp [] 1%Z.
Proof.
  change (Py.range 1 (1 + 1)) with [1%Z]. simpl.
  destruct (Dashboard.breakdown_step row x rp [] 1); reflexivity.
Qed.

(** C1, amended. When TP1 is the highest level reached, the breakdown (one
    row, or none when TP1 has no price) adds up to the reported profit. *)
Theorem single_level_breakdown_matches (row : signal_details) (tp_hits : list Z) :
  highest_of tp_hits = 1%Z ->
  exists v, Dashboard.evaluate_row row tp_hits = Ok v /\
            Dashboard.highest_tp v = 1%Z /\
            Dashboard.breakdown_total (Dashboard.tp_breakdown v)
            == Dashboard.profit_percent v.
Proof.
  intros H. unfold Dashboard.evaluate_row. rewrite H.
  set (rp := Dashboard.risk_percent_of (Dashboard.risk_level_of row)).
  change (Dashboard.row_tp row 1) with (Ok (A := option Q) (tp1 row)).
  cbn [Z.eqb Py.bind].
  rewrite breakdown_single.
  unfold Dashboard.pips_and_profit, Dashboard.breakdown_step.
  change (Dashboard.row_tp row 1) with (Ok (A := option Q) (tp1 row)).
  cbn [Z.eqb Py.bind].
  destruct (Py.truthy (tp1 row)) eqn:T1; cbn [andb negb Py.bind].
  2:{ eexists. repeat split. }
  apply truthy_true in T1. destruct T1 as [t [-> Ht]]. cbn [Py.float Py.bind].
  destruct (Py.truthy (entry_price row)) eqn:Te; cbn [andb negb Py.bind].
  - apply truthy_true in Te. destruct Te as [e [-> He]]. cbn [Py.float Py.bind].
    destruct (signed_pips_returns row t e) as [p ->]. cbn [Py.bind].
    rewrite div_ok by assumption. cbn [Py.bind].
    eexists. split; [reflexivity|]. split; [reflexivity|].
    cbn [Dashboard.tp_breakdown Dashboard.profit_percent snd app].
    unfold Dashboard.breakdown_total. cbn [fold_left Dashboard.row_profit_percent].
    rewrite or_zero_round, Qplus_0_l.
    apply round_comp.
    unfold Dashboard.tp_profit_percent, Dashboard.partial_exit_of. reflexivity.
  - eexists. split; [reflexivity|]. split; [reflexivity|].
    cbn [Dashboard.tp_breakdown Dashboard.profit_percent snd app].
    unfold Dashboard.breakdown_total. cbn [fold_left Dashboard.row_profit_percent].
    rewrite Qplus_0_l. rewrite round_zero; [reflexivity|].
    unfold Qdiv. ring.
Qed.

Lemma single_level_breakdown_matches_witness :
  exists v,
    Dashboard.evaluate_row (scenario_row 1 None (Some 2020.0) None None None None)
      [1]%Z = Ok v /\
    Dashboard.highest_tp v = 1%Z /\
    Dashboard.breakdown_total (Dashboard.tp_breakdown v) == Dashboard.profit_percent v.
Proof.
  apply single_level_breakdown_matches. reflexivity.
Defined.

End Breakdown.

(** ** Strategy generation *)

Section Generation.

Lemma range_step_members (stop step : Z) (ps : list Z) (tp : Z) :
  Py.range_step stop step = Ok ps -> In tp ps ->
  (0 <= tp < stop)%Z /\ (step | tp)%Z.
Proof.
  unfold Py.range_step.
  destruct (Z.eqb_spec step 0); [discriminate|].
  destruct (Z.ltb_spec step 0); intros [= <-]; [intros []|].
  rewrite in_map_iff. intros [k [<- Hk]]. apply in_seq in Hk.
  split; [|now exists (Z.of_nat k)].
  assert (Hs : (0 < step)%Z) by lia.
  split; [apply Z.mul_nonneg_nonneg; lia|].
  destruct (Z_le_dec ((stop + step - 1) / step) 0) as [Hq|Hq].
  - lia.
  - assert (Hk' : (Z.of_nat k + 1 <= (stop + step - 1) / step)%Z) by lia.
    pose proof (Z.mul_div_le (stop + step - 1) step Hs) as Hm.
    nia.
Qed.

Lemma generated_are_candidates (step : Z) (strategies : list (list Q)) :
  Optimizer.generate_strategies step false = Ok strategies ->
  Forall (five_slot_candidate step) strategies.
Proof.
  unfold Optimizer.generate_strategies.
  destruct (Py.range_step 101 step) as [ps|] eqn:R; [|discriminate].
  simpl. intros [= <-]. apply Forall_forall. intros s Hs.
  apply in_flat_map in Hs. destruct Hs as [a [Ha Hs]].
  apply in_flat_map in Hs. destruct Hs as [b [Hb Hs]].
  apply in_flat_map in Hs. destruct Hs as [c [Hc Hs]].
  apply in_flat_map in Hs. destruct Hs as [d [Hd Hs]].
  apply in_flat_map in Hs. destruct Hs as [e [He Hs]].
  destruct (Z.eqb_spec (a + b + c + d + e) 100); [|destruct Hs].
  destruct Hs as [<- | []].
  assert (M : forall tp, In tp ps -> (0 <= tp <= 100)%Z /\ (step | tp)%Z).
  { intros tp Htp. destruct (range_step_members 101 step ps tp R Htp).
    split; [lia | assumption]. }
  exists a, b, c, d, e. repeat split; try assumption.
  repeat constructor; now apply M.
Qed.

Lemma candidate_sums_to_one (step : Z) (strategy : list Q) :
  five_slot_candidate step strategy ->
  length strategy = 6%nat /\ nth_error strategy 5 = Some 0 /\
  fraction_sum strategy == 1.
Proof.
  intros [a [b [c [d [e [-> [_ Hsum]]]]]]]. repeat split.
  unfold fraction_sum, Optimizer.percent_fraction. simpl.
  unfold Qeq, Qplus. simpl. lia.
Qed.

Lemma strategy_key_from (s t : list Q) (k : Z) :
  same_strategy s t ->
  fold_left (fun acc f => (acc * 101 + Qfloor (f * 100))%Z) s k =
  fold_left (fun acc f => (acc * 101 + Qfloor (f * 100))%Z) t k.
Proof.
  intros H. revert k. induction H as [|x y s t Hxy _ IH]; intros k;
    cbn [fold_left].
  - reflexivity.
  - rewrite (Qfloor_comp (x * 100) (y * 100)) by now rewrite Hxy.
    apply IH.
Qed.

Lemma strategy_key_comp (s t : list Q) :
  same_strategy s t -> strategy_key s = strategy_key t.
Proof. intros H. now apply strategy_key_from. Qed.

Lemma increasing_bounds (a : Z) (ks : list Z) :
  increasing (a :: ks) = true -> Forall (fun k => (a < k)%Z) ks.
Proof.
  revert a. induction ks as [|b ks IH]; intros a H; [constructor|].
  cbn [increasing] in H. apply andb_true_iff in H. destruct H as [Hab Hrest].
  apply Z.ltb_lt in Hab. constructor; [assumption|].
  eapply Forall_impl; [|exact (IH b Hrest)]. intros k Hk. simpl in Hk. lia.
Qed.

Lemma increasing_NoDup (ks : list Z) : increasing ks = true -> NoDup ks.
Proof.
  induction ks as [|a ks IH]; intros H; constructor.
  - intros Hin. pose proof (increasing_bounds a ks H) as Hb.
    rewrite Forall_forall in Hb. specialize (Hb a Hin). lia.
  - apply IH. destruct ks as [|b ks]; [reflexivity|].
    cbn [increasing] in H. apply andb_true_iff in H. tauto.
Qed.

Lemma distinct_keys_distinct_strategies (l : list (list Q)) :
  NoDup (map strategy_key l) -> NoDupA same_strategy l.
Proof.
  induction l as [|s l IH]; intros H; constructor; inversion H; subst.
  - intros Hin. apply InA_alt in Hin. destruct Hin as [t [Hst Ht]].
    match goal with Hn : ~ In _ _ |- _ => apply Hn end.
    rewrite (strategy_key_comp s t Hst). now apply in_map.
  - now apply IH.
Qed.

(** In binary64 the stored fractions of a candidate need not add up to 1.0
    when summed left to right: the candidate 0-0-20-70-10-0 gives the double
    just below 1. *)
Remark binary64_fraction_sum_below_one :
  let f := Binary64.percent_fraction in
  PrimFloat.ltb
    (Binary64.fraction_sum [f 0; f 0; f 20; f 70; f 10; 0]%float) 1%float = true.
Proof. vm_compute. reflexivity. Qed.

End Generation.

(** ** Worked evaluations *)

Section Worked.

Example round_ties_to_even :
  Py.round 0.005 2 == 0 /\ Py.round 0.015 2 == 0.02 /\ Py.round (-2.5) 0 == -2.
Proof. repeat split; reflexivity. Qed.

Example int_truncates : Py.int 20.7 = 20%Z /\ Py.int (-20.7) = (-20)%Z.
Proof. split; reflexivity. Qed.

Example range_levels : Py.range 1 (3 + 1) = [1; 2; 3]%Z /\ Py.range 0 (-2) = [].
Proof. split; reflexivity. Qed.

Example range_step_values :
  Py.range_step 101 50 = Ok [0; 50; 100]%Z /\
  Py.range_step 101 30 = Ok [0; 30; 60; 90]%Z /\
  Py.range_step 101 0 = Raise ValueError.
Proof. repeat split; reflexivity. Qed.

Example contains_is_case_sensitive :
  Py.contains "XAU" "mXAUUSD.r" = true /\ Py.contains "XAU" "xauusd" = false.
Proof. split; reflexivity. Qed.

(** SELL USDJPY at 150.25, TP2 at 149.5 reached: 75 pips, and the move to
    TP2 at 70 percent. *)
Example usdjpy_two_levels :
  exists v,
    Dashboard.evaluate_row
      (mkSignalDetails 8 "USDJPY" "SELL" (Some 150.25) None (Some 150.0)
         (Some 149.5) None None None None None) [2; 1]%Z = Ok v /\
    Dashboard.pips v == 75 /\ Dashboard.profit_percent v == 3.49 /\
    map Dashboard.partial_exit_percent (Dashboard.tp_breakdown v) = [50; 20]%Z.
Proof.
  eexists. split; [vm_compute; reflexivity|]. repeat split.
Qed.

(** A stop-loss outcome without a stop-loss price carries the estimate. *)
Example bitcoin_stop_loss_estimate :
  exists v,
    Dashboard.evaluate_row
      (mkSignalDetails 8 "BTCUSD" "BUY" (Some 60000) None (Some 61000) None None
         None None None (Some "HIGH"%string)) [] = Ok v /\
    Dashboard.pips v == -400 /\ Dashboard.profit_percent v == -3.
Proof.
  eexists. split; [vm_compute; reflexivity|]. split; reflexivity.
Qed.

(** A level the row has no column for is a key error, which the handler
    turns into the error answer. *)
Example level_seven_is_a_key_error :
  Dashboard.evaluate_row two_level_row [7]%Z = Raise IndexError /\
  Dashboard.get_signal_history_fallback
    [(two_level_row, [1; 2]%Z); (two_level_row, [7]%Z)]
  = Dashboard.ServerError IndexError.
Proof. split; reflexivity. Qed.

Example summary_of_two_rows :
  exists signals stats,
    Dashboard.get_signal_history_fallback
      [(two_level_row, [1; 2]%Z); (two_level_row, [])]
    = Dashboard.Success signals stats /\
    Dashboard.summary_win_rate stats == 50 /\
    Dashboard.total_pl_percent stats == 5 /\
    Dashboard.total_pips stats == 100 /\
    Dashboard.tp_distribution stats = [1; 0; 1; 0; 0; 0; 0]%Z.
Proof.
  eexists. eexists. split; [vm_compute; reflexivity|]. repeat split.
Qed.

Example generate_step_50 :
  exists l, Optimizer.generate_strategies 50 false = Ok l /\ length l = 15%nat.
Proof. eexists. split; [vm_compute; reflexivity|]. reflexivity. Qed.

(** A run on one winning and one losing signal: the best of the 15
    candidates puts everything on TP2. *)
Example optimize_small_run :
  exists r,
    Optimizer.optimize
      [two_level_row;
       mkSignalDetails 8 "EURUSD" "SELL" (Some 1.1) None (Some 1.09) None None None
         None None (Some "LOW"%string);
       mkSignalDetails 9 "EURUSD" "SELL" None None (Some 1.09) None None None
         None None (Some "LOW"%string)]
      [(7, 1); (7, 2)]%Z 50 false 2 = Ok (Some r) /\
    Optimizer.baseline_pl_of r == 3.5 /\
    Optimizer.r_total_pl (Optimizer.best_strategy r) == 9 /\
    map (fun f => Qred f) (Optimizer.r_strategy (Optimizer.best_strategy r))
    = [0; 1; 0; 0; 0; 0] /\
    length (Optimizer.top r) = 2%nat.
Proof.
  eexists. split; [vm_compute; reflexivity|]. repeat split.
Qed.

(** With a baseline of zero the run ends in the division of the last
    report line; with no signal it returns nothing. *)
Example optimize_zero_baseline :
  Optimizer.optimize
    [mkSignalDetails 8 "EURUSD" "SELL" (Some 0) None (Some 1.09) None None None
       None None (Some "LOW"%string)]
    [(8, 1)]%Z 50 false 2 = Raise ZeroDivisionError /\
  Optimizer.optimize [] [(8, 1)]%Z 50 false 2 = Ok None.
Proof. split; vm_compute; reflexivity. Qed.

End Worked.

(** ** Strategy generation for every step *)

Section GenerationAnyStep.

Lemma range_step_complete (stop step tp : Z) :
  (0 < step)%Z -> (0 <= tp < stop)%Z -> (step | tp)%Z ->
  exists ps, Py.range_step stop step = Ok ps /\ In tp ps.
Proof.
  intros Hs Ht [k Hk]. unfold Py.range_step.
  destruct (Z.eqb_spec step 0); [lia|].
  destruct (Z.ltb_spec step 0); [lia|].
  eexists. split; [reflexivity|].
  apply in_map_iff. exists (Z.to_nat k).
  assert (Hk0 : (0 <= k)%Z) by nia.
  split; [lia|]. apply in_seq. split; [lia|].
  assert (Hq : (k < (stop + step - 1) / step)%Z).
  { apply Z.div_le_lower_bound with (a := (stop + step - 1)%Z) (q := (k + 1)%Z) in Hs
      as Hd; [lia | nia]. }
  lia.
Qed.

Lemma range_step_positive (stop step : Z) :
  (0 < step)%Z -> exists ps, Py.range_step stop step = Ok ps.
Proof.
  intros Hs. unfold Py.range_step.
  destruct (Z.eqb_spec step 0); [lia|].
  destruct (Z.ltb_spec step 0); [lia|]. eexists; reflexivity.
Qed.

Lemma generated_six_are_candidates (step : Z) (strategies : list (list Q)) :
  Optimizer.generate_strategies step true = Ok strategies ->
  Forall (six_slot_candidate step) strategies.
Proof.
  unfold Optimizer.generate_strategies.
  destruct (Py.range_step 101 step) as [ps|] eqn:R; [|discriminate].
  simpl. intros [= <-]. apply Forall_forall. intros s Hs.
  apply in_flat_map in Hs. destruct Hs as [a [Ha Hs]].
  apply in_flat_map in Hs. destruct Hs as [b [Hb Hs]].
  apply in_flat_map in Hs. destruct Hs as [c [Hc Hs]].
  apply in_flat_map in Hs. destruct Hs as [d [Hd Hs]].
  apply in_flat_map in Hs. destruct Hs as [e [He Hs]].
  apply in_flat_map in Hs. destruct Hs as [f [Hf Hs]].
  destruct (Z.eqb_spec (a + b + c + d + e + f) 100); [|destruct Hs].
  destruct Hs as [<- | []].
  assert (M : forall tp, In tp ps -> (0 <= tp <= 100)%Z /\ (step | tp)%Z).
  { intros tp Htp. destruct (range_step_members 101 step ps tp R Htp).
    split; [lia | assumption]. }
  exists a, b, c, d, e, f. repeat split; try assumption.
  repeat constructor; now apply M.
Qed.

Lemma five_slots_enumeration (step : Z) :
  (0 < step)%Z ->
  exists strategies,
    Optimizer.generate_strategies step false = Ok strategies /\
    forall s, In s strategies <-> five_slot_candidate step s.
Proof.
  intros Hs. destruct (range_step_positive 101 step Hs) as [ps R].
  assert (G : exists l, Optimizer.generate_strategies step false = Ok l).
  { unfold Optimizer.generate_strategies. rewrite R. simpl. eexists; reflexivity. }
  destruct G as [l G]. exists l. split; [assumption|]. intros s. split.
  - pose proof (generated_are_candidates step l G) as F.
    rewrite Forall_forall in F. apply F.
  - intros [a [b [c [d [e [-> [F Hsum]]]]]]].
    assert (M : forall tp, (0 <= tp <= 100)%Z /\ (step | tp)%Z -> In tp ps).
    { intros tp [Hr Hd].
      destruct (range_step_complete 101 step tp Hs) as [ps' [R' Hin]];
        [lia | assumption |]. congruence. }
    inversion F as [|? ? Fa F1]; subst. inversion F1 as [|? ? Fb F2]; subst.
    inversion F2 as [|? ? Fc F3]; subst. inversion F3 as [|? ? Fd F4]; subst.
    inversion F4 as [|? ? Fe _]; subst.
    unfold Optimizer.generate_strategies in G. rewrite R in G. simpl in G.
    injection G as <-.
    apply in_flat_map. exists a. split; [now apply M|].
    apply in_flat_map. exists b. split; [now apply M|].
    apply in_flat_map. exists c. split; [now apply M|].
    apply in_flat_map. exists d. split; [now apply M|].
    apply in_flat_map. exists e. split; [now apply M|].
    rewrite (proj2 (Z.eqb_eq _ _) Hsum). now left.
Qed.

(** With a positive step, the five-slot enumeration is exactly the set of
    candidates: every strategy it returns is built from five multiples of
    the step between 0 and 100 adding up to 100, and every such combination
    is returned. *)
Theorem generate_five_slots_exact (step : Z) :
  (0 < step)%Z ->
  exists strategies,
    Optimizer.generate_strategies step false = Ok strategies /\
    forall s, In s strategies <-> five_slot_candidate step s.
Proof.
  exact (five_slots_enumeration step).
Qed.

Lemma generate_five_slots_exact_witness :
  exists strategies,
    Optimizer.generate_strategies 20 false = Ok strategies /\
    forall s, In s strategies <-> five_slot_candidate 20 s.
Proof.
  apply generate_five_slots_exact. reflexivity.
Defined.

Lemma six_slots_enumeration (step : Z) :
  (0 < step)%Z ->
  exists strategies,
    Optimizer.generate_strategies step true = Ok strategies /\
    forall s, In s strategies <-> six_slot_candidate step s.
Proof.
  intros Hs. destruct (range_step_positive 101 step Hs) as [ps R].
  assert (G : exists l, Optimizer.generate_strategies step true = Ok l).
  { unfold Optimizer.generate_strategies. rewrite R. simpl. eexists; reflexivity. }
  destruct G as [l G]. exists l. split; [assumption|]. intros s. split.
  - pose proof (generated_six_are_candidates step l G) as F.
    rewrite Forall_forall in F. apply F.
  - intros [a [b [c [d [e [f [-> [F Hsum]]]]]]]].
    assert (M : forall tp, (0 <= tp <= 100)%Z /\ (step | tp)%Z -> In tp ps).
    { intros tp [Hr Hd].
      destruct (range_step_complete 101 step tp Hs) as [ps' [R' Hin]];
        [lia | assumption |]. congruence. }
    inversion F as [|? ? Fa F1]; subst. inversion F1 as [|? ? Fb F2]; subst.
    inversion F2 as [|? ? Fc F3]; subst. inversion F3 as [|? ? Fd F4]; subst.
    inversion F4 as [|? ? Fe F5]; subst. inversion F5 as [|? ? Ff _]; subst.
    unfold Optimizer.generate_strategies in G. rewrite R in G. simpl in G.
    injection G as <-.
    apply in_flat_map. exists a. split; [now apply M|].
    apply in_flat_map. exists b. split; [now apply M|].
    apply in_flat_map. exists c. split; [now apply M|].
    apply in_flat_map. exists d. split; [now apply M|].
    apply in_flat_map. exists e. split; [now apply M|].
    apply in_flat_map. exists f. split; [now apply M|].
    rewrite (proj2 (Z.eqb_eq _ _) Hsum). now left.
Qed.

(** The same for the six-slot enumeration. *)
Theorem generate_six_slots_exact (step : Z) :
  (0 < step)%Z ->
  exists strategies,
    Optimizer.generate_strategies step true = Ok strategies /\
    forall s, In s strategies <-> six_slot_candidate step s.
Proof.
  exact (six_slots_enumeration step).
Qed.

Lemma generate_six_slots_exact_witness :
  exists strategies,
    Optimizer.generate_strategies 25 true = Ok strategies /\
    forall s, In s strategies <-> six_slot_candidate 25 s.
Proof.
  apply generate_six_slots_exact. reflexivity.
Defined.

Lemma candidate_step_divides_100 (step : Z) (s : list Q) :
  five_slot_candidate step s \/ six_slot_candidate step s -> (step | 100)%Z.
Proof.
  intros [[a [b [c [d [e [_ [F Hsum]]]]]]] | [a [b [c [d [e [f [_ [F Hsum]]]]]]]]];
    rewrite <- Hsum; rewrite Forall_forall in F;
    repeat apply Z.divide_add_r; apply F; simpl; tauto.
Qed.

Lemma step_edges (step : Z) (include_tp6 : bool) :
  (Optimizer.generate_strategies step include_tp6 = Raise ValueError <-> step = 0%Z) /\
  (Optimizer.generate_strategies step include_tp6 = Ok [] <->
   (step < 0)%Z \/ ((0 < step)%Z /\ ~ (step | 100)%Z)).
Proof.
  destruct (Z.lt_trichotomy step 0) as [Hneg | [-> | Hpos]].
  - assert (E : Optimizer.generate_strategies step include_tp6 = Ok []).
    { unfold Optimizer.generate_strategies, Py.range_step.
      destruct (Z.eqb_spec step 0); [lia|].
      destruct (Z.ltb_spec step 0); [|lia].
      destruct include_tp6; reflexivity. }
    rewrite E. split; split.
    + discriminate.
    + lia.
    + intros _. now left.
    + reflexivity.
  - assert (E : Optimizer.generate_strategies 0 include_tp6 = Raise ValueError)
      by reflexivity.
    rewrite E. split; split.
    + reflexivity.
    + reflexivity.
    + discriminate.
    + intros [H | [H _]]; lia.
  - assert (C : exists l, Optimizer.generate_strategies step include_tp6 = Ok l /\
                  (l = [] <-> ~ (step | 100)%Z)).
    { destruct include_tp6.
      - destruct (six_slots_enumeration step Hpos) as [l [G M]].
        exists l. split; [assumption|]. split.
        + intros -> [k Hk].
          apply (proj2 (M [Optimizer.percent_fraction 100; Optimizer.percent_fraction 0;
                           Optimizer.percent_fraction 0; Optimizer.percent_fraction 0;
                           Optimizer.percent_fraction 0; Optimizer.percent_fraction 0])).
          exists 100%Z, 0%Z, 0%Z, 0%Z, 0%Z, 0%Z. repeat split.
          repeat constructor; try lia; try apply Z.divide_0_r; now exists k.
        + intros Hd. destruct l as [|s l]; [reflexivity|]. exfalso. apply Hd.
          apply (candidate_step_divides_100 step s). right. apply M. now left.
      - destruct (five_slots_enumeration step Hpos) as [l [G M]].
        exists l. split; [assumption|]. split.
        + intros -> [k Hk].
          apply (proj2 (M [Optimizer.percent_fraction 100; Optimizer.percent_fraction 0;
                           Optimizer.percent_fraction 0; Optimizer.percent_fraction 0;
                           Optimizer.percent_fraction 0; 0])).
          exists 100%Z, 0%Z, 0%Z, 0%Z, 0%Z. repeat split.
          repeat constructor; try lia; try apply Z.divide_0_r; now exists k.
        + intros Hd. destruct l as [|s l]; [reflexivity|]. exfalso. apply Hd.
          apply (candidate_step_divides_100 step s). left. apply M. now left. }
    destruct C as [l [G E]]. rewrite G. split; split.
    + discriminate.
    + lia.
    + intros [= ->]. right. split; [assumption | now apply E].
    + intros [H | [_ H]]; [lia|]. f_equal. now apply E.
Qed.

(** Edge values of the step: zero is a [ValueError]; the enumeration is
    empty exactly when the step is negative or does not divide 100. *)
Theorem generate_strategies_step_edges (step : Z) (include_tp6 : bool) :
  (Optimizer.generate_strategies step include_tp6 = Raise ValueError <-> step = 0%Z) /\
  (Optimizer.generate_strategies step include_tp6 = Ok [] <->
   (step < 0)%Z \/ ((0 < step)%Z /\ ~ (step | 100)%Z)).
Proof.
  exact (step_edges step include_tp6).
Qed.

Lemma range_step_NoDup (stop step : Z) (ps : list Z) :
  Py.range_step stop step = Ok ps -> NoDup ps.
Proof.
  unfold Py.range_step.
  destruct (Z.eqb_spec step 0); [discriminate|].
  destruct (Z.ltb_spec step 0); intros [= <-]; [constructor|].
  generalize (Z.to_nat ((stop + step - 1) / step)). intros len.
  assert (G : forall m, NoDup (map (fun k => (Z.of_nat k * step)%Z) (seq m len))).
  { induction len as [|len IH]; intros m; simpl; constructor.
    - rewrite in_map_iff. intros [k [Hk Hin]]. apply in_seq in Hin. nia.
    - apply IH. }
  apply G.
Qed.

Lemma NoDupA_flat_map {A B : Type} (eqB : B -> B -> Prop) (E : Equivalence eqB)
  (f : A -> list B) (l : list A) :
  NoDup l ->
  (forall x, In x l -> NoDupA eqB (f x)) ->
  (forall x y s t, In x l -> In y l -> In s (f x) -> In t (f y) -> eqB s t -> x = y) ->
  NoDupA eqB (flat_map f l).
Proof.
  induction l as [|a l IH]; intros Hl Hf Hd; simpl; [constructor|].
  inversion Hl as [|? ? Ha Hl']; subst.
  apply NoDupA_app; [assumption | apply Hf; now left | |].
  - apply IH; [assumption | intros x Hx; apply Hf; now right |].
    intros x y s t Hx Hy. apply Hd; now right.
  - intros s Hs Ht. apply InA_alt in Hs. destruct Hs as [s1 [E1 Hs1]].
    apply InA_alt in Ht. destruct Ht as [s2 [E2 Hs2]].
    apply in_flat_map in Hs2. destruct Hs2 as [y [Hy Hs2]].
    assert (a = y).
    { apply (Hd a y s1 s2); [now left | now right | assumption | assumption |].
      now rewrite <- E1, <- E2. }
    subst y. contradiction.
Qed.

Lemma percent_fraction_inj (a b : Z) :
  Optimizer.percent_fraction a == Optimizer.percent_fraction b -> a = b.
Proof.
  unfold Optimizer.percent_fraction, Qeq. simpl. lia.
Qed.

Ltac split_members :=
  repeat match goal with
         | H : In _ (flat_map _ _) |- _ =>
             apply in_flat_map in H; destruct H as [? [? H]]
         | H : In _ (if ?b then _ else _) |- _ =>
             destruct b; [destruct H as [<- | []] | destruct H]
         end.

Ltac same_slot :=
  match goal with
  | H : same_strategy _ _ |- _ =>
      unfold same_strategy in H;
      repeat match goal with
             | E : eqlistA _ (_ :: _) (_ :: _) |- _ => inversion E; subst; clear E
             end
  end;
  now apply percent_fraction_inj.

(** For every step and either setting of the sixth slot, no candidate is
    generated twice. *)
Theorem generate_strategies_no_duplicates (step : Z) (include_tp6 : bool)
  (strategies : list (list Q)) :
  Optimizer.generate_strategies step include_tp6 = Ok strategies ->
  NoDupA same_strategy strategies.
Proof.
  unfold Optimizer.generate_strategies.
  destruct (Py.range_step 101 step) as [ps|] eqn:R; [|discriminate].
  pose proof (range_step_NoDup 101 step ps R) as N.
  assert (Eq : Equivalence same_strategy) by (unfold same_strategy; typeclasses eauto).
  simpl. destruct include_tp6; simpl; intros [= <-].
  - do 6 (apply (NoDupA_flat_map _ Eq);
          [exact N | intros ? ? | intros; split_members; same_slot]).
    destruct (_ =? _)%Z; [|constructor].
    constructor; [intros HA; inversion HA | constructor].
  - do 5 (apply (NoDupA_flat_map _ Eq);
          [exact N | intros ? ? | intros; split_members; same_slot]).
    destruct (_ =? _)%Z; [|constructor].
    constructor; [intros HA; inversion HA | constructor].
Qed.

Lemma generate_strategies_no_duplicates_witness :
  exists l, Optimizer.generate_strategies 50 true = Ok l /\ NoDupA same_strategy l.
Proof.
  eexists. split; [vm_compute; reflexivity|].
  apply (generate_strategies_no_duplicates 50 true). vm_compute. reflexivity.
Defined.

End GenerationAnyStep.

(** ** The evaluator as a function of the strategy *)

Section LoopTools.
Context {A S : Type}.

Lemma for_each_ext (body body' : S -> A -> pyresult S) (xs : list A) :
  (forall acc x, In x xs -> body acc x = body' acc x) ->
  forall acc, Py.for_each body xs acc = Py.for_each body' xs acc.
Proof.
  induction xs as [|x xs IH]; intros H acc; simpl; [reflexivity|].
  rewrite (H acc x (or_introl eq_refl)).
  destruct (body' acc x) as [a|e]; simpl; [|reflexivity].
  apply IH. intros a' y Hy. apply H. now right.
Qed.

End LoopTools.

Lemma range_cons (lo hi : Z) :
  (lo < hi)%Z -> Py.range lo hi = lo :: Py.range (lo + 1) hi.
Proof.
  intros H. unfold Py.range.
  replace (Z.to_nat (hi - lo)) with (Datatypes.S (Z.to_nat (hi - (lo + 1)))) by lia.
  cbn [seq map]. f_equal; [lia|].
  rewrite <- seq_shift, map_map. apply map_ext. intros k. lia.
Qed.

Lemma range_empty (lo hi : Z) : (hi <= lo)%Z -> Py.range lo hi = [].
Proof.
  intros H. unfold Py.range.
  replace (Z.to_nat (hi - lo)) with 0%nat by lia. reflexivity.
Qed.

Lemma for_each_range_invariant {S : Type} (P : Z -> S -> Prop)
  (body : S -> Z -> pyresult S) (lo hi : Z) :
  (lo <= hi)%Z ->
  (forall i acc, (lo <= i < hi)%Z -> P i acc ->
                 exists acc', body acc i = Ok acc' /\ P (i + 1)%Z acc') ->
  forall acc, P lo acc ->
  exists r, Py.for_each body (Py.range lo hi) acc = Ok r /\ P hi r.
Proof.
  intros Hle. remember (Z.to_nat (hi - lo)) as n eqn:Hn.
  revert lo Hle Hn. induction n as [|n IH]; intros lo Hle Hn Hbody acc Hacc.
  - assert (lo = hi) by lia. subst lo. rewrite range_empty by lia.
    exists acc. now split.
  - rewrite range_cons by lia. simpl.
    destruct (Hbody lo acc) as [acc' [E Hacc']]; [lia | assumption |].
    rewrite E. simpl. apply IH; try lia; try assumption.
    intros i a Hi. apply Hbody. lia.
Qed.

Lemma nth_error_firstn_lt {A : Type} (l : list A) (n i : nat) :
  (i < n)%nat -> nth_error (firstn n l) i = nth_error l i.
Proof.
  revert n i. induction l as [|x l IH]; intros n i H.
  - now rewrite firstn_nil.
  - destruct n; [lia|]. destruct i; simpl; [reflexivity|]. apply IH. lia.
Qed.

(** The fractions of the strategy beyond the highest level reached play no
    part: two strategies that agree on the first [highest_tp] entries give
    the same result, exception included. *)
Theorem profit_ignores_fractions_beyond_highest (s : Optimizer.signal) (f g : list Q) :
  firstn (Z.to_nat (Optimizer.highest_tp s)) f =
  firstn (Z.to_nat (Optimizer.highest_tp s)) g ->
  Optimizer.calculate_signal_profit s f = Optimizer.calculate_signal_profit s g.
Proof.
  intros H. unfold Optimizer.calculate_signal_profit.
  destruct (Optimizer.highest_tp s =? 0)%Z; [reflexivity|].
  destruct (Py.float (entry_price (Optimizer.details s))) as [e|]; [|reflexivity].
  simpl. destruct (Qeq_bool e 0); [reflexivity|].
  apply for_each_ext. intros acc i Hi. apply in_range in Hi.
  unfold Optimizer.tp_step.
  destruct (Py.truthy _); simpl; [|reflexivity].
  destruct (Py.float _) as [tp|]; simpl; [|reflexivity].
  destruct (Py.div _ _) as [ratio|]; simpl; [|reflexivity].
  assert (E : Py.index f i = Py.index g i).
  { unfold Py.index. destruct (i <? 0)%Z; [reflexivity|].
    rewrite <- (nth_error_firstn_lt f (Z.to_nat (Optimizer.highest_tp s))) by lia.
    rewrite <- (nth_error_firstn_lt g (Z.to_nat (Optimizer.highest_tp s))) by lia.
    now rewrite H. }
  now rewrite E.
Qed.

Section Sums.

Lemma fold_plus_from (l : list Q) (a : Q) :
  fold_left Qplus l a == a + fold_left Qplus l 0.
Proof.
  revert a. induction l as [|x l IH]; intros a; simpl; [ring|].
  rewrite (IH (a + x)), (IH (0 + x)). ring.
Qed.

Lemma fraction_sum_app (l l' : list Q) :
  fraction_sum (l ++ l') == fraction_sum l + fraction_sum l'.
Proof.
  unfold fraction_sum. rewrite fold_left_app. apply fold_plus_from.
Qed.

Lemma fraction_sum_nonneg (l : list Q) :
  Forall (fun f => 0 <= f) l -> 0 <= fraction_sum l.
Proof.
  induction 1 as [|x l Hx _ IH]; [unfold fraction_sum; simpl; lra|].
  change (x :: l) with ([x] ++ l). rewrite fraction_sum_app.
  unfold fraction_sum at 1. simpl. lra.
Qed.

Lemma firstn_succ {A : Type} (l : list A) (n : nat) (x : A) :
  nth_error l n = Some x -> firstn (Datatypes.S n) l = firstn n l ++ [x].
Proof.
  revert n. induction l as [|y l IH]; intros n H; [destruct n; discriminate|].
  destruct n; simpl in *; [now injection H as -> | now rewrite (IH n H)].
Qed.

Lemma prefix_sum_le_total (l : list Q) (n : nat) :
  Forall (fun f => 0 <= f) l -> fraction_sum (firstn n l) <= fraction_sum l.
Proof.
  intros H. rewrite <- (firstn_skipn n l) at 2. rewrite fraction_sum_app.
  assert (0 <= fraction_sum (skipn n l)).
  { apply fraction_sum_nonneg. rewrite <- (firstn_skipn n l) in H.
    apply Forall_app in H. tauto. }
  lra.
Qed.

End Sums.

Lemma tp_step_skipped (s : Optimizer.signal) (strategy : list Q) (e rp acc : Q) (i : Z) :
  Py.truthy (Optimizer.get_tp s (i + 1)) = false ->
  Optimizer.tp_step s strategy e rp acc i = Ok acc.
Proof. intros H. unfold Optimizer.tp_step. now rewrite H. Qed.

Lemma tp_step_counted (s : Optimizer.signal) (strategy : list Q) (e rp acc : Q) (i : Z) :
  Py.truthy (Optimizer.get_tp s (i + 1)) = true ->
  length strategy = 6%nat -> ~ e == 0 -> (0 <= i)%Z ->
  exists tp sp,
    Optimizer.get_tp s (i + 1) = Some tp /\
    nth_error strategy (Z.to_nat i) = Some sp /\
    Optimizer.tp_step s strategy e rp acc i = Ok (acc + level_profit tp e sp rp).
Proof.
  intros T Hlen He Hi. unfold Optimizer.tp_step. rewrite T.
  pose proof (get_tp_truthy_level _ _ T) as Hlvl.
  apply truthy_true in T. destruct T as [tp [Etp _]]. rewrite Etp. simpl.
  rewrite div_ok by assumption. simpl.
  unfold Py.index. destruct (Z.ltb_spec i 0); [lia|].
  destruct (nth_error strategy (Z.to_nat i)) as [sp|] eqn:N.
  - simpl. exists tp, sp. repeat split.
  - apply nth_error_None in N. lia.
Qed.

Lemma level_profit_bound (tp e sp rp D : Q) :
  0 < e -> 0 <= sp -> 0 <= rp -> Qabs (tp - e) <= D ->
  level_profit tp e sp rp <= (D / e * 100 * 500) * (rp / 100) * sp.
Proof.
  intros He Hsp Hrp HD. unfold level_profit.
  set (x := Qabs (tp - e) / e). set (y := D / e). set (k := rp / 100).
  assert (Hxy : x <= y).
  { unfold x, y, Qdiv. apply Qmult_le_compat_r; [assumption|].
    apply Qlt_le_weak. now apply Qinv_lt_0_compat. }
  assert (Hk : 0 <= k).
  { unfold k. apply Qle_shift_div_l; [reflexivity|]. now rewrite Qmult_0_l. }
  assert (H : 0 <= (y - x) * (sp * k)).
  { apply Qmult_le_0_compat; [lra|]. now apply Qmult_le_0_compat. }
  nra.
Qed.

(** No strategy of non-negative fractions adding up to at most 1 earns more
    on a signal than the whole position closed at distance [D], when no
    reached level lies farther than [D] from the entry price. *)
Theorem profit_bounded_by_farthest_level (s : Optimizer.signal) (strategy : list Q)
  (e D : Q) :
  (1 <= Optimizer.highest_tp s)%Z ->
  entry_price (Optimizer.details s) = Some e -> 0 < e ->
  length strategy = 6%nat ->
  Forall (fun f => 0 <= f) strategy -> fraction_sum strategy <= 1 ->
  0 <= D ->
  (forall lvl tp, (1 <= lvl <= Optimizer.highest_tp s)%Z ->
                  Optimizer.get_tp s lvl = Some tp -> Qabs (tp - e) <= D) ->
  exists p,
    Optimizer.calculate_signal_profit s strategy = Ok p /\
    p <= (D / e * 100 * 500)
         * (Optimizer.risk_percent_of (risk_level (Optimizer.details s)) / 100).
Proof.
  intros Hh He Hpos Hlen Hs Hsum HD Hfar.
  unfold Optimizer.calculate_signal_profit.
  destruct (Z.eqb_spec (Optimizer.highest_tp s) 0); [lia|].
  rewrite He. simpl.
  set (rp := Optimizer.risk_percent_of (risk_level (Optimizer.details s))).
  set (B := (D / e * 100 * 500) * (rp / 100)).
  assert (Hrp : 0 <= rp) by apply risk_percent_nonneg.
  assert (HB : 0 <= B).
  { unfold B.
    assert (0 <= D / e).
    { apply Qle_shift_div_l; [assumption|]. now rewrite Qmult_0_l. }
    assert (0 <= rp / 100).
    { apply Qle_shift_div_l; [reflexivity|]. now rewrite Qmult_0_l. }
    apply Qmult_le_0_compat; [|assumption].
    apply Qmult_le_0_compat; [|lra]. apply Qmult_le_0_compat; [assumption|lra]. }
  destruct (Qeq_bool e 0) eqn:E0; [apply Qeq_bool_eq in E0; lra|].
  apply Qeq_bool_false_neq in E0.
  destruct (for_each_range_invariant
              (fun i acc => acc <= B * fraction_sum (firstn (Z.to_nat i) strategy))
              (Optimizer.tp_step s strategy e rp) 0 (Optimizer.highest_tp s))
    with (acc := 0) as [p [Ep Hp]].
  - lia.
  - intros i acc Hi Hacc.
    assert (Hmono : fraction_sum (firstn (Z.to_nat i) strategy)
                    <= fraction_sum (firstn (Z.to_nat (i + 1)) strategy)).
    { replace (Z.to_nat (i + 1)) with (Datatypes.S (Z.to_nat i)) by lia.
      destruct (nth_error strategy (Z.to_nat i)) as [sp|] eqn:N.
      - rewrite (firstn_succ _ _ _ N), fraction_sum_app.
        assert (0 <= sp).
        { rewrite Forall_forall in Hs. apply Hs. eapply nth_error_In; eassumption. }
        unfold fraction_sum at 3. simpl. lra.
      - apply nth_error_None in N.
        rewrite !firstn_all2 by lia. lra. }
    destruct (Py.truthy (Optimizer.get_tp s (i + 1))) eqn:T.
    + destruct (tp_step_counted s strategy e rp acc i T Hlen E0) as [tp [sp [Etp [N ->]]]];
        [lia|].
      eexists. split; [reflexivity|].
      replace (Z.to_nat (i + 1)) with (Datatypes.S (Z.to_nat i)) by lia.
      rewrite (firstn_succ _ _ _ N), fraction_sum_app.
      assert (Hsp : 0 <= sp).
      { rewrite Forall_forall in Hs. apply Hs. eapply nth_error_In; eassumption. }
      pose proof (level_profit_bound tp e sp rp D Hpos Hsp Hrp) as L.
      assert (Qabs (tp - e) <= D) by (apply (Hfar (i + 1)%Z); [lia | assumption]).
      specialize (L H). fold B in L.
      unfold fraction_sum at 2. simpl. lra.
    + rewrite (tp_step_skipped _ _ _ _ _ _ T). eexists. split; [reflexivity|].
      nra.
  - simpl. unfold fraction_sum. simpl. lra.
  - exists p. split; [assumption|].
    pose proof (prefix_sum_le_total strategy (Z.to_nat (Optimizer.highest_tp s)) Hs).
    nra.
Qed.

Lemma all_on_level_nth (k i : Z) (sp : Q) :
  (0 <= i)%Z -> nth_error (all_on_level k) (Z.to_nat i) = Some sp ->
  sp = if (i + 1 =? k)%Z then 1 else 0.
Proof.
  intros Hi H.
  assert (C : (i = 0 \/ i = 1 \/ i = 2 \/ i = 3 \/ i = 4 \/ i = 5 \/ 6 <= i)%Z) by lia.
  destruct C as [-> | [-> | [-> | [-> | [-> | [-> | C]]]]]];
    try (simpl in H; now injection H as <-).
  assert (N : nth_error (all_on_level k) (Z.to_nat i) = None).
  { apply nth_error_None. simpl. lia. }
  congruence.
Qed.

Lemma level_profit_zero_fraction (tp e rp : Q) : level_profit tp e 0 rp == 0.
Proof. unfold level_profit. ring. Qed.

Lemma all_on_level_profit (s : Optimizer.signal) (k : Z) (e tpk : Q) :
  (1 <= k <= Optimizer.highest_tp s)%Z ->
  entry_price (Optimizer.details s) = Some e -> ~ e == 0 ->
  Optimizer.get_tp s k = Some tpk -> ~ tpk == 0 ->
  exists q,
    Optimizer.calculate_signal_profit s (all_on_level k) = Ok q /\
    q == level_profit tpk e 1
           (Optimizer.risk_percent_of (risk_level (Optimizer.details s))).
Proof.
  intros Hk He He0 Hpk Hpk0.
  unfold Optimizer.calculate_signal_profit.
  destruct (Z.eqb_spec (Optimizer.highest_tp s) 0); [lia|].
  rewrite He. simpl.
  destruct (Qeq_bool e 0) eqn:E0; [apply Qeq_bool_eq in E0; contradiction|].
  set (rp := Optimizer.risk_percent_of (risk_level (Optimizer.details s))).
  set (L := level_profit tpk e 1 rp).
  destruct (for_each_range_invariant
              (fun i acc => acc == if (k <=? i)%Z then L else 0)
              (Optimizer.tp_step s (all_on_level k) e rp) 0 (Optimizer.highest_tp s))
    with (acc := 0) as [p [Ep Hp]].
  - lia.
  - intros i acc Hi Hacc.
    destruct (Py.truthy (Optimizer.get_tp s (i + 1))) eqn:T.
    + destruct (tp_step_counted s (all_on_level k) e rp acc i T eq_refl He0)
        as [tp [sp [Etp [N ->]]]]; [lia|].
      eexists. split; [reflexivity|].
      apply all_on_level_nth in N; [|lia]. subst sp.
      destruct (Z.eqb_spec (i + 1) k) as [Eq | Ne].
      * subst k. rewrite Hpk in Etp. injection Etp as <-.
        destruct (Z.leb_spec (i + 1) i); [lia|].
        destruct (Z.leb_spec (i + 1) (i + 1)); [|lia].
        rewrite Hacc. fold L. ring.
      * rewrite level_profit_zero_fraction, Hacc.
        destruct (Z.leb_spec k i), (Z.leb_spec k (i + 1)); try lia; ring.
    + rewrite (tp_step_skipped _ _ _ _ _ _ T). eexists. split; [reflexivity|].
      assert (Ne : (i + 1)%Z <> k).
      { intros <-. rewrite Hpk in T. simpl in T.
        destruct (Qeq_bool tpk 0) eqn:Z0; [apply Qeq_bool_eq in Z0; contradiction|].
        discriminate. }
      rewrite Hacc.
      destruct (Z.leb_spec k i), (Z.leb_spec k (i + 1)); try lia; reflexivity.
  - destruct (Z.leb_spec k 0); [lia | reflexivity].
  - exists p. split; [assumption|].
    rewrite Hp. destruct (Z.leb_spec k (Optimizer.highest_tp s)); [reflexivity | lia].
Qed.

(** For a single signal the best strategy closes everything at the
    farthest level reached: no strategy of non-negative fractions adding up
    to at most 1 earns more. *)
Theorem all_on_farthest_level_is_optimal (s : Optimizer.signal) (k : Z) (e tpk : Q)
  (strategy : list Q) :
  (1 <= k <= Optimizer.highest_tp s)%Z ->
  entry_price (Optimizer.details s) = Some e -> 0 < e ->
  Optimizer.get_tp s k = Some tpk -> ~ tpk == 0 ->
  (forall lvl tp, (1 <= lvl <= Optimizer.highest_tp s)%Z ->
                  Optimizer.get_tp s lvl = Some tp ->
                  Qabs (tp - e) <= Qabs (tpk - e)) ->
  length strategy = 6%nat ->
  Forall (fun f => 0 <= f) strategy -> fraction_sum strategy <= 1 ->
  exists p q,
    Optimizer.calculate_signal_profit s strategy = Ok p /\
    Optimizer.calculate_signal_profit s (all_on_level k) = Ok q /\
    p <= q.
Proof.
  intros Hk He Hpos Hpk Hpk0 Hfar Hlen Hs Hsum.
  destruct (profit_bounded_by_farthest_level s strategy e (Qabs (tpk - e)))
    as [p [Ep Hp]]; try assumption; [lia | apply Qabs_nonneg |].
  destruct (all_on_level_profit s k e tpk Hk He) as [q [Eq Hq]];
    try assumption; [lra|].
  exists p, q. repeat split; try assumption.
  rewrite Hq. unfold level_profit. lra.
Qed.

Lemma profit_ignores_fractions_beyond_highest_witness :
  Optimizer.calculate_signal_profit
    (Optimizer.mkSignal two_level_row [1; 2]%Z 2) [0.5; 0.2; 0.1; 0.1; 0.1; 0]
  = Optimizer.calculate_signal_profit
      (Optimizer.mkSignal two_level_row [1; 2]%Z 2) [0.5; 0.2; 0.3].
Proof.
  apply profit_ignores_fractions_beyond_highest. reflexivity.
Defined.

Lemma two_level_row_levels (lvl : Z) (tp : Q) :
  (1 <= lvl <= 2)%Z ->
  Optimizer.get_tp (Optimizer.mkSignal two_level_row [1; 2]%Z 2) lvl = Some tp ->
  Qabs (tp - 2000.0) <= Qabs (2020.0 - 2000.0).
Proof.
  intros H. assert (C : lvl = 1%Z \/ lvl = 2%Z) by lia.
  destruct C as [-> | ->]; simpl; intros [= <-]; vm_compute; discriminate.
Defined.

Lemma profit_bounded_by_farthest_level_witness :
  exists p,
    Optimizer.calculate_signal_profit
      (Optimizer.mkSignal two_level_row [1; 2]%Z 2) Optimizer.default_strategy = Ok p /\
    p <= (Qabs (2020.0 - 2000.0) / 2000.0 * 100 * 500)
         * (Optimizer.risk_percent_of (Some "MEDIUM"%string) / 100).
Proof.
  apply (profit_bounded_by_farthest_level
           (Optimizer.mkSignal two_level_row [1; 2]%Z 2) Optimizer.default_strategy
           2000.0 (Qabs (2020.0 - 2000.0))).
  - simpl. lia.
  - reflexivity.
  - reflexivity.
  - reflexivity.
  - repeat constructor; vm_compute; discriminate.
  - vm_compute. discriminate.
  - vm_compute. discriminate.
  - exact two_level_row_levels.
Defined.

Lemma all_on_farthest_level_is_optimal_witness :
  exists p q,
    Optimizer.calculate_signal_profit
      (Optimizer.mkSignal two_level_row [1; 2]%Z 2) Optimizer.default_strategy = Ok p /\
    Optimizer.calculate_signal_profit
      (Optimizer.mkSignal two_level_row [1; 2]%Z 2) (all_on_level 2) = Ok q /\
    p <= q.
Proof.
  apply (all_on_farthest_level_is_optimal
           (Optimizer.mkSignal two_level_row [1; 2]%Z 2) 2 2000.0 2020.0).
  - simpl. lia.
  - reflexivity.
  - reflexivity.
  - reflexivity.
  - vm_compute. discriminate.
  - exact two_level_row_levels.
  - reflexivity.
  - repeat constructor; vm_compute; discriminate.
  - vm_compute. discriminate.
Defined.

(** ** The portfolio and the ranking *)

Section Portfolio.

Lemma signal_profit_returns (s : Optimizer.signal) (strategy : list Q) :
  length strategy = 6%nat -> entry_price (Optimizer.details s) <> None ->
  exists p, Optimizer.calculate_signal_profit s strategy = Ok p.
Proof.
  intros Hlen He. unfold Optimizer.calculate_signal_profit.
  destruct (Optimizer.highest_tp s =? 0)%Z; [eexists; reflexivity|].
  destruct (entry_price (Optimizer.details s)) as [e|]; [|congruence]. simpl.
  destruct (Qeq_bool e 0) eqn:E; [eexists; reflexivity|].
  apply profit_loop_returns; [assumption | now apply Qeq_bool_false_neq].
Qed.

Lemma Qltb_lt (a b : Q) : Optimizer.Qltb a b = true <-> a < b.
Proof.
  unfold Optimizer.Qltb. rewrite Qlt_alt. destruct (a ?= b); split; congruence.
Qed.

Lemma tally_loop (strategy : list Q) (signals : list Optimizer.signal) :
  length strategy = 6%nat ->
  (forall s, In s signals -> entry_price (Optimizer.details s) <> None) ->
  forall t, exists rs,
    Py.for_each (Optimizer.tally_step strategy) signals t =
    Ok (Optimizer.mkTally
          (fold_left (fun acc r => acc + Optimizer.sr_profit r) rs (Optimizer.t_total_pl t))
          (Optimizer.t_wins t + count_wins rs)
          (Optimizer.t_losses t + count_losses rs)
          (Optimizer.t_results t ++ rs)) /\
    Forall2 (result_of strategy) signals rs.
Proof.
  intros Hlen. induction signals as [|s signals IH]; intros He t.
  - exists []. split; [|constructor]. simpl.
    unfold count_wins, count_losses. simpl.
    rewrite !Z.add_0_r, app_nil_r. now destruct t.
  - destruct (signal_profit_returns s strategy Hlen) as [p Hp];
      [apply He; now left|].
    simpl. unfold Optimizer.tally_step at 1. rewrite Hp. simpl.
    match goal with |- context [Py.for_each _ signals ?t'] =>
      destruct (IH (fun x Hx => He x (or_intror Hx)) t') as [rs [E F]] end.
    rewrite E. cbn [Optimizer.t_total_pl Optimizer.t_wins Optimizer.t_losses
                    Optimizer.t_results].
    set (r := Optimizer.mkSignalResult (signal_number (Optimizer.details s))
                (symbol (Optimizer.details s)) (Optimizer.highest_tp s) p).
    exists (r :: rs). split.
    + f_equal. f_equal.
      * unfold count_wins. cbn [filter Optimizer.sr_profit r].
        destruct (Optimizer.Qltb 0 p); cbn [length]; lia.
      * unfold count_losses. cbn [filter Optimizer.sr_profit r].
        destruct (Optimizer.Qltb 0 p) eqn:W.
        -- apply Qltb_lt in W.
           destruct (Optimizer.Qltb p 0) eqn:L; [apply Qltb_lt in L; lra|]. lia.
        -- destruct (Optimizer.Qltb p 0); cbn [length]; lia.
      * now rewrite <- app_assoc.
    + constructor; [|assumption]. repeat split; assumption.
Qed.

Lemma wins_and_losses_bounded (rs : list Optimizer.signal_result) :
  (0 <= count_wins rs)%Z /\ (0 <= count_losses rs)%Z /\
  (count_wins rs + count_losses rs <= Z.of_nat (length rs))%Z.
Proof.
  unfold count_wins, count_losses. repeat split; try lia.
  induction rs as [|r rs IH]; cbn [filter length]; [lia|].
  destruct (Optimizer.Qltb 0 (Optimizer.sr_profit r)) eqn:W;
    destruct (Optimizer.Qltb (Optimizer.sr_profit r) 0) eqn:L;
    cbn [length]; try lia.
  apply Qltb_lt in W. apply Qltb_lt in L. lra.
Qed.

Lemma portfolio_figures (signals : list Optimizer.signal) (strategy : list Q) :
  length strategy = 6%nat ->
  (forall s, In s signals -> entry_price (Optimizer.details s) <> None) ->
  exists total st,
    Optimizer.calculate_portfolio_profit signals strategy = Ok (total, st) /\
    Optimizer.total_pl_percent st = total /\
    Forall2 (result_of strategy) signals (Optimizer.signal_results st) /\
    total == profit_sum (Optimizer.signal_results st) /\
    Optimizer.wins st = count_wins (Optimizer.signal_results st) /\
    Optimizer.losses st = count_losses (Optimizer.signal_results st) /\
    (Optimizer.wins st + Optimizer.losses st <= Z.of_nat (length signals))%Z /\
    0 <= Optimizer.win_rate st <= 100.
Proof.
  intros Hlen He. unfold Optimizer.calculate_portfolio_profit.
  destruct (tally_loop strategy signals Hlen He (Optimizer.mkTally 0 0 0 []))
    as [rs [E F]].
  rewrite E. simpl. eexists. eexists. split; [reflexivity|].
  cbn [Optimizer.total_pl_percent Optimizer.signal_results Optimizer.wins
       Optimizer.losses Optimizer.win_rate].
  pose proof (wins_and_losses_bounded rs) as [Hw [Hl Hwl]].
  pose proof (Forall2_length F) as Hn.
  repeat split; try assumption; try reflexivity; try lia.
  - destruct signals; [lra|].
    assert (Hpos : 0 < inject_Z (Z.of_nat (length (s :: signals)))).
    { change 0 with (inject_Z 0). rewrite <- Zlt_Qlt. simpl. lia. }
    apply Qmult_le_0_compat; [|lra].
    apply Qle_shift_div_l; [assumption|]. rewrite Qmult_0_l.
    change 0 with (inject_Z 0). rewrite <- Zle_Qle. lia.
  - destruct signals; [lra|].
    assert (Hpos : 0 < inject_Z (Z.of_nat (length (s :: signals)))).
    { change 0 with (inject_Z 0). rewrite <- Zlt_Qlt. simpl. lia. }
    assert (Hq : inject_Z (count_wins rs) / inject_Z (Z.of_nat (length (s :: signals))) <= 1).
    { apply Qle_shift_div_r; [assumption|]. rewrite Qmult_1_l.
      rewrite <- Zle_Qle. lia. }
    simpl. simpl in Hq. lra.
Qed.

(** For signals that all have an entry price and a six-entry strategy,
    [calculate_portfolio_profit] returns: one recorded result per signal, in
    order, each the signal's own profit; the total is their sum; wins and
    losses count the positive and negative ones, so together they never
    exceed the number of signals; the win rate lies between 0 and 100. *)
Theorem portfolio_tally (signals : list Optimizer.signal) (strategy : list Q) :
  length strategy = 6%nat ->
  (forall s, In s signals -> entry_price (Optimizer.details s) <> None) ->
  exists total st,
    Optimizer.calculate_portfolio_profit signals strategy = Ok (total, st) /\
    Optimizer.total_pl_percent st = total /\
    Forall2 (result_of strategy) signals (Optimizer.signal_results st) /\
    total == profit_sum (Optimizer.signal_results st) /\
    Optimizer.wins st = count_wins (Optimizer.signal_results st) /\
    Optimizer.losses st = count_losses (Optimizer.signal_results st) /\
    (Optimizer.wins st + Optimizer.losses st <= Z.of_nat (length signals))%Z /\
    0 <= Optimizer.win_rate st <= 100.
Proof.
  exact (portfolio_figures signals strategy).
Qed.

End Portfolio.

Section Ranking.

Lemma Qltb_false_le (a b : Q) : Optimizer.Qltb a b = false -> b <= a.
Proof.
  intros H. destruct (Qlt_le_dec a b) as [L|L]; [|assumption].
  apply Qltb_lt in L. congruence.
Qed.

Lemma insert_permutation (x : Optimizer.result) (l : list Optimizer.result) :
  Permutation (Optimizer.insert_by_total_pl x l) (x :: l).
Proof.
  induction l as [|y l IH]; simpl; [reflexivity|].
  destruct (Optimizer.Qltb _ _); [|reflexivity].
  rewrite IH. apply perm_swap.
Qed.

Lemma sort_permutation (l : list Optimizer.result) :
  Permutation (Optimizer.sort_by_total_pl l) l.
Proof.
  induction l as [|x l IH]; simpl; [reflexivity|].
  rewrite insert_permutation. now constructor.
Qed.

Lemma insert_descending (x : Optimizer.result) (l : list Optimizer.result) :
  Sorted descending l -> Sorted descending (Optimizer.insert_by_total_pl x l).
Proof.
  induction l as [|y l IH]; intros H; simpl; [repeat constructor|].
  destruct (Optimizer.Qltb (Optimizer.r_total_pl x) (Optimizer.r_total_pl y)) eqn:C.
  - inversion H as [|? ? Hs Hh]; subst. constructor; [now apply IH|].
    destruct l as [|z l]; simpl.
    + constructor. apply Qltb_lt in C. unfold descending. lra.
    + destruct (Optimizer.Qltb (Optimizer.r_total_pl x) (Optimizer.r_total_pl z));
        constructor.
      * now inversion Hh.
      * apply Qltb_lt in C. unfold descending. lra.
  - constructor; [assumption|]. constructor. now apply Qltb_false_le.
Qed.

Lemma sort_descending (l : list Optimizer.result) :
  StronglySorted descending (Optimizer.sort_by_total_pl l).
Proof.
  apply Sorted_StronglySorted.
  - intros a b c Hab Hbc. unfold descending in *. lra.
  - induction l as [|x l IH]; simpl; [constructor | now apply insert_descending].
Qed.

Lemma head_is_best (l : list Optimizer.result) (best : Optimizer.result) :
  StronglySorted descending l -> Py.index l 0 = Ok best ->
  In best l /\ forall x, In x l -> Optimizer.r_total_pl x <= Optimizer.r_total_pl best.
Proof.
  intros H E. destruct l as [|y l]; [discriminate|].
  cbn in E. injection E as ->. split; [now left|].
  intros x [<- | Hx]; [lra|].
  inversion H as [|? ? _ F]; subst. rewrite Forall_forall in F. now apply F.
Qed.

Lemma best_by_win_rate_is_best (l : list Optimizer.result) :
  l <> [] ->
  exists best,
    Optimizer.best_by_win_rate l = Ok best /\ In best l /\
    forall x, In x l ->
      Optimizer.win_rate (Optimizer.r_stats x)
      <= Optimizer.win_rate (Optimizer.r_stats best).
Proof.
  intros Hne. destruct l as [|r rest]; [contradiction|]. cbn [Optimizer.best_by_win_rate].
  set (f := fun best x : Optimizer.result =>
              if Optimizer.Qltb (Optimizer.win_rate (Optimizer.r_stats best))
                                (Optimizer.win_rate (Optimizer.r_stats x))
              then x else best).
  assert (G : forall rest b,
             (fold_left f rest b = b \/ In (fold_left f rest b) rest) /\
             Optimizer.win_rate (Optimizer.r_stats b)
             <= Optimizer.win_rate (Optimizer.r_stats (fold_left f rest b)) /\
             forall x, In x rest ->
               Optimizer.win_rate (Optimizer.r_stats x)
               <= Optimizer.win_rate (Optimizer.r_stats (fold_left f rest b))).
  { clear. induction rest as [|y rest IH]; intros b; simpl.
    - repeat split; [now left | lra | intros x []].
    - destruct (IH (f b y)) as [Hin [Hle Hall]].
      assert (Hb : Optimizer.win_rate (Optimizer.r_stats b)
                   <= Optimizer.win_rate (Optimizer.r_stats (f b y)) /\
                   Optimizer.win_rate (Optimizer.r_stats y)
                   <= Optimizer.win_rate (Optimizer.r_stats (f b y)) /\
                   (f b y = b \/ f b y = y)).
      { unfold f. destruct (Optimizer.Qltb _ _) eqn:C.
        - apply Qltb_lt in C. repeat split; [lra | lra | now right].
        - apply Qltb_false_le in C. repeat split; [lra | assumption | now left]. }
      destruct Hb as [Hb1 [Hb2 Hb3]]. repeat split.
      + destruct Hin as [E | Hin]; [|right; now right].
        rewrite E. destruct Hb3 as [-> | ->]; [now left | right; now left].
      + lra.
      + intros x [<- | Hx]; [lra | now apply Hall]. }
  destruct (G rest r) as [Hin [Hle Hall]].
  eexists. split; [reflexivity|]. split.
  - destruct Hin as [-> | Hin]; [now left | now right].
  - intros x [<- | Hx]; [assumption | now apply Hall].
Qed.

Lemma evaluate_all (signals : list Optimizer.signal) (strategies : list (list Q)) :
  (forall s, In s signals -> entry_price (Optimizer.details s) <> None) ->
  (forall st, In st strategies -> length st = 6%nat) ->
  forall acc, exists rs,
    Py.for_each (Optimizer.evaluate_strategy signals) strategies acc = Ok (acc ++ rs) /\
    map Optimizer.r_strategy rs = strategies /\
    Forall (evaluated_on signals) rs.
Proof.
  intros He. induction strategies as [|st strategies IH]; intros Hlen acc.
  - exists []. simpl. rewrite app_nil_r. repeat split. constructor.
  - destruct (portfolio_figures signals st (Hlen st (or_introl eq_refl)) He)
      as [total [stats [E _]]].
    simpl. unfold Optimizer.evaluate_strategy at 1. rewrite E. simpl.
    destruct (IH (fun x Hx => Hlen x (or_intror Hx))
                 (acc ++ [Optimizer.mkResult st total stats])) as [rs [E' [M F]]].
    rewrite E'. exists (Optimizer.mkResult st total stats :: rs).
    rewrite <- app_assoc. repeat split; [simpl; now rewrite M|].
    constructor; [exact E | assumption].
Qed.

Lemma candidates_have_six_entries (step : Z) (include_tp6 : bool)
  (strategies : list (list Q)) :
  Optimizer.generate_strategies step include_tp6 = Ok strategies ->
  forall st, In st strategies -> length st = 6%nat.
Proof.
  intros G st Hst. destruct include_tp6.
  - pose proof (generated_six_are_candidates step strategies G) as F.
    rewrite Forall_forall in F. destruct (F st Hst) as [a [b [c [d [e [f [-> _]]]]]]].
    reflexivity.
  - pose proof (generated_are_candidates step strategies G) as F.
    rewrite Forall_forall in F. destruct (F st Hst) as [a [b [c [d [e [-> _]]]]]].
    reflexivity.
Qed.

Lemma top_lines (baseline_pl : Q) (results : list Optimizer.result)
  (lines : list Optimizer.top_line) :
  ~ baseline_pl == 0 ->
  Py.for_each (Optimizer.top_line_step baseline_pl) results lines =
  Ok (lines ++
      map (fun r => Optimizer.mkTopLine (Optimizer.r_strategy r)
                      (Optimizer.r_total_pl r)
                      ((Optimizer.r_total_pl r - baseline_pl) / Qabs baseline_pl * 100)
                      (Optimizer.win_rate (Optimizer.r_stats r))) results).
Proof.
  intros H. revert lines. induction results as [|r rs IH]; intros lines; simpl.
  - now rewrite app_nil_r.
  - unfold Optimizer.top_line_step at 1. unfold Optimizer.improvement.
    destruct (Qeq_bool baseline_pl 0) eqn:E; [apply Qeq_bool_eq in E; contradiction|].
    cbn [negb]. rewrite div_ok.
    + simpl. rewrite IH, <- app_assoc. reflexivity.
    + intros A. apply H.
      pose proof (Qle_Qabs baseline_pl) as H1.
      pose proof (Qle_Qabs (- baseline_pl)) as H2.
      rewrite Qabs_opp in H2. lra.
Qed.

End Ranking.

Section OptimizeOutcomes.

Variables (table : list signal_details) (announced : Optimizer.announced_tps).

Lemma load_signals_empty_iff :
  Optimizer.load_signals table announced = [] <->
  forall row, In row table -> entry_price row = None.
Proof.
  unfold Optimizer.load_signals. split.
  - intros H row Hrow. apply map_eq_nil in H.
    destruct (entry_price row) as [e|] eqn:E; [|reflexivity].
    assert (Hin : In row (filter (fun r => Optimizer.is_not_null (entry_price r)) table)).
    { apply filter_In. split; [assumption|]. now rewrite E. }
    rewrite H in Hin. destruct Hin.
  - intros H.
    assert (F : filter (fun r => Optimizer.is_not_null (entry_price r)) table = []).
    { destruct (filter _ table) as [|r l] eqn:F; [reflexivity|].
      assert (Hin : In r (filter (fun r => Optimizer.is_not_null (entry_price r)) table))
        by (rewrite F; now left).
      apply filter_In in Hin. destruct Hin as [Hr Hn].
      rewrite (H r Hr) in Hn. discriminate. }
    now rewrite F.
Qed.

Lemma loaded_signals_have_entry_price :
  forall s, In s (Optimizer.load_signals table announced) ->
            entry_price (Optimizer.details s) <> None.
Proof.
  intros s Hs. destruct (loaded_signal_has_entry_price _ _ _ Hs) as [e ->].
  discriminate.
Qed.

Lemma baseline_returns :
  exists b st,
    Optimizer.calculate_portfolio_profit (Optimizer.load_signals table announced)
      Optimizer.default_strategy = Ok (b, st).
Proof.
  destruct (portfolio_figures (Optimizer.load_signals table announced)
              Optimizer.default_strategy eq_refl loaded_signals_have_entry_price)
    as [b [st [E _]]].
  now exists b, st.
Qed.

(** The body of [optimize] once signals are known to exist. *)
Lemma optimize_with_signals (step : Z) (include_tp6 : bool) (top_n : Z) :
  Optimizer.load_signals table announced <> [] ->
  Optimizer.optimize table announced step include_tp6 top_n =
  (let signals := Optimizer.load_signals table announced in
   baseline <- Optimizer.calculate_portfolio_profit signals Optimizer.default_strategy ;;
   let baseline_pl := fst baseline in
   strategies <- Optimizer.generate_strategies step include_tp6 ;;
   results <- Py.for_each (Optimizer.evaluate_strategy signals) strategies [] ;;
   let results := Optimizer.sort_by_total_pl results in
   lines <- Optimizer.top_listing results baseline_pl top_n ;;
   best_wr <- Optimizer.best_by_win_rate results ;;
   best <- Py.index results 0 ;;
   imp <- Optimizer.recommended_improvement (Optimizer.r_total_pl best) baseline_pl ;;
   Ok (Some (Optimizer.mkReport baseline_pl (snd baseline) lines best_wr best imp results))).
Proof.
  intros H. unfold Optimizer.optimize.
  destruct (Optimizer.load_signals table announced); [contradiction | reflexivity].
Qed.

(** [optimize] returns [None] exactly when no row of the table has an entry
    price, whatever the step is. *)
Theorem optimize_without_signals (step : Z) (include_tp6 : bool) (top_n : Z) :
  Optimizer.optimize table announced step include_tp6 top_n = Ok None <->
  forall row, In row table -> entry_price row = None.
Proof.
  rewrite <- load_signals_empty_iff. split.
  - intros H. destruct (Optimizer.load_signals table announced) as [|s l] eqn:L;
      [reflexivity|]. exfalso.
    rewrite optimize_with_signals in H by (rewrite L; discriminate).
    cbv zeta in H.
    repeat match type of H with
           | Py.bind ?m _ = _ => destruct m; cbn [Py.bind] in H; [|discriminate]
           end.
    discriminate.
  - intros H. unfold Optimizer.optimize. now rewrite H.
Qed.

(** With signals loaded, a step that is zero, negative or not a divisor of
    100 ends [optimize] in a [ValueError]. *)
Theorem optimize_rejects_bad_step (step : Z) (include_tp6 : bool) (top_n : Z) :
  Optimizer.load_signals table announced <> [] ->
  ~ ((0 < step)%Z /\ (step | 100)%Z) ->
  Optimizer.optimize table announced step include_tp6 top_n = Raise ValueError.
Proof.
  intros Hs Hbad. rewrite optimize_with_signals by assumption. cbv zeta.
  destruct baseline_returns as [b [st ->]]. cbn [Py.bind fst snd].
  destruct (Z.eq_dec step 0) as [-> | Hnz].
  - reflexivity.
  - assert (E : Optimizer.generate_strategies step include_tp6 = Ok []).
    { apply step_edges.
      destruct (Z_lt_dec step 0); [now left|]. right. split; [lia|].
      intros D. apply Hbad. split; [lia | assumption]. }
    rewrite E. cbn [Py.bind Py.for_each Optimizer.sort_by_total_pl fold_right].
    unfold Optimizer.top_listing, Optimizer.slice_to.
    destruct (top_n <? 0)%Z; rewrite firstn_nil; reflexivity.
Qed.

Lemma candidates_exist (step : Z) (include_tp6 : bool) :
  (0 < step)%Z -> (step | 100)%Z ->
  exists cands, Optimizer.generate_strategies step include_tp6 = Ok cands /\ cands <> [].
Proof.
  intros Hp Hd.
  destruct (Optimizer.generate_strategies step include_tp6) as [l|e] eqn:G.
  - exists l. split; [reflexivity|]. intros ->.
    apply step_edges in G. destruct G as [G | [_ G]]; [lia | tauto].
  - exfalso. destruct include_tp6.
    + destruct (six_slots_enumeration step Hp) as [l [G' _]]. congruence.
    + destruct (five_slots_enumeration step Hp) as [l [G' _]]. congruence.
Qed.

(** The run up to the sorted results, for a step that divides 100. *)
Lemma optimize_results (step : Z) (include_tp6 : bool) :
  (0 < step)%Z -> (step | 100)%Z ->
  exists cands rs,
    Optimizer.generate_strategies step include_tp6 = Ok cands /\
    Py.for_each (Optimizer.evaluate_strategy (Optimizer.load_signals table announced))
      cands [] = Ok rs /\
    map Optimizer.r_strategy rs = cands /\
    Forall (evaluated_on (Optimizer.load_signals table announced)) rs /\
    Optimizer.sort_by_total_pl rs <> [].
Proof.
  intros Hp Hd. destruct (candidates_exist step include_tp6 Hp Hd) as [cands [G Hne]].
  destruct (evaluate_all (Optimizer.load_signals table announced) cands
              loaded_signals_have_entry_price
              (candidates_have_six_entries step include_tp6 cands G) [])
    as [rs [E [M F]]].
  exists cands, rs. repeat split; try assumption.
  intros S. pose proof (sort_permutation rs) as P. rewrite S in P.
  apply Permutation_nil in P. subst rs. simpl in M. congruence.
Qed.

(** With signals loaded and a step dividing 100, a baseline P/L of exactly
    zero ends [optimize] in a [ZeroDivisionError]. *)
Theorem optimize_fails_on_zero_baseline (step : Z) (include_tp6 : bool) (top_n : Z)
  (baseline_pl : Q) (baseline_stats : Optimizer.stats) :
  Optimizer.load_signals table announced <> [] ->
  (0 < step)%Z -> (step | 100)%Z ->
  Optimizer.calculate_portfolio_profit (Optimizer.load_signals table announced)
    Optimizer.default_strategy = Ok (baseline_pl, baseline_stats) ->
  baseline_pl == 0 ->
  Optimizer.optimize table announced step include_tp6 top_n = Raise ZeroDivisionError.
Proof.
  intros Hs Hp Hd Hb Hz. rewrite optimize_with_signals by assumption. cbv zeta.
  rewrite Hb. cbn [Py.bind fst snd].
  destruct (optimize_results step include_tp6 Hp Hd) as [cands [rs [G [E [_ [_ Hne]]]]]].
  rewrite G. cbn [Py.bind]. rewrite E. cbn [Py.bind].
  unfold Optimizer.top_listing. rewrite top_lines_zero_baseline by assumption.
  cbn [Py.bind].
  destruct (best_by_win_rate_is_best _ Hne) as [bw [-> _]]. cbn [Py.bind].
  destruct (Optimizer.sort_by_total_pl rs) as [|best rest]; [contradiction|].
  cbn [Py.index Z.ltb Z.compare Z.to_nat nth_error Py.bind].
  now rewrite recommended_improvement_zero_baseline.
Qed.

Lemma optimize_ranking (step : Z) (include_tp6 : bool) (top_n : Z)
  (baseline_pl : Q) (baseline_stats : Optimizer.stats) :
  Optimizer.load_signals table announced <> [] ->
  (0 < step)%Z -> (step | 100)%Z ->
  Optimizer.calculate_portfolio_profit (Optimizer.load_signals table announced)
    Optimizer.default_strategy = Ok (baseline_pl, baseline_stats) ->
  ~ baseline_pl == 0 ->
  exists r cands,
    Optimizer.optimize table announced step include_tp6 top_n = Ok (Some r) /\
    Optimizer.generate_strategies step include_tp6 = Ok cands /\
    Permutation (map Optimizer.r_strategy (Optimizer.results_of r)) cands /\
    Forall (evaluated_on (Optimizer.load_signals table announced))
           (Optimizer.results_of r) /\
    StronglySorted descending (Optimizer.results_of r) /\
    (In (Optimizer.best_strategy r) (Optimizer.results_of r) /\
     forall x, In x (Optimizer.results_of r) ->
       Optimizer.r_total_pl x <= Optimizer.r_total_pl (Optimizer.best_strategy r)) /\
    (In (Optimizer.best_winrate r) (Optimizer.results_of r) /\
     forall x, In x (Optimizer.results_of r) ->
       Optimizer.win_rate (Optimizer.r_stats x)
       <= Optimizer.win_rate (Optimizer.r_stats (Optimizer.best_winrate r))) /\
    Optimizer.top r =
      map (fun x => Optimizer.mkTopLine (Optimizer.r_strategy x) (Optimizer.r_total_pl x)
                      ((Optimizer.r_total_pl x - baseline_pl) / Qabs baseline_pl * 100)
                      (Optimizer.win_rate (Optimizer.r_stats x)))
          (Optimizer.slice_to (Optimizer.results_of r) top_n) /\
    Optimizer.best_improvement r =
      (Optimizer.r_total_pl (Optimizer.best_strategy r) - baseline_pl)
      / Qabs baseline_pl * 100.
Proof.
  intros Hs Hp Hd Hb Hnz. rewrite optimize_with_signals by assumption. cbv zeta.
  rewrite Hb. cbn [Py.bind fst snd].
  destruct (optimize_results step include_tp6 Hp Hd) as [cands [rs [G [E [M [F Hne]]]]]].
  rewrite G. cbn [Py.bind]. rewrite E. cbn [Py.bind].
  unfold Optimizer.top_listing. rewrite top_lines by assumption.
  cbn [Py.bind app].
  destruct (best_by_win_rate_is_best _ Hne) as [bw [Ebw [Hbw1 Hbw2]]].
  rewrite Ebw. cbn [Py.bind].
  pose proof (sort_descending rs) as Hsorted.
  pose proof (sort_permutation rs) as Hperm.
  destruct (Optimizer.sort_by_total_pl rs) as [|best rest] eqn:S; [contradiction|].
  destruct (head_is_best (best :: rest) best Hsorted eq_refl) as [Hb1 Hb2].
  cbn [Py.index Z.ltb Z.compare Z.to_nat nth_error Py.bind].
  unfold Optimizer.recommended_improvement. rewrite div_ok.
  2:{ intros A. apply Hnz.
      pose proof (Qle_Qabs baseline_pl) as H1.
      pose proof (Qle_Qabs (- baseline_pl)) as H2.
      rewrite Qabs_opp in H2. lra. }
  cbn [Py.bind]. eexists. exists cands. split; [reflexivity|].
  cbn [Optimizer.results_of Optimizer.best_strategy Optimizer.best_winrate
       Optimizer.top Optimizer.best_improvement].
  split; [reflexivity|].
  split; [rewrite <- M; now apply Permutation_map|].
  split.
  { rewrite Forall_forall in *. intros x Hx. apply F.
    eapply Permutation_in; eassumption. }
  repeat split; assumption.
Qed.

(** With signals loaded, a step dividing 100 and a non-zero baseline,
    [optimize] returns a report: its results are the generated candidates,
    each with its own portfolio figures, in descending order of total P/L;
    the recommended strategy has the highest total P/L and the reported
    best-by-win-rate entry the highest win rate; the listing carries the
    improvement of the first [top_n] results over the baseline. *)
Theorem optimize_ranks_candidates (step : Z) (include_tp6 : bool) (top_n : Z)
  (baseline_pl : Q) (baseline_stats : Optimizer.stats) :
  Optimizer.load_signals table announced <> [] ->
  (0 < step)%Z -> (step | 100)%Z ->
  Optimizer.calculate_portfolio_profit (Optimizer.load_signals table announced)
    Optimizer.default_strategy = Ok (baseline_pl, baseline_stats) ->
  ~ baseline_pl == 0 ->
  exists r cands,
    Optimizer.optimize table announced step include_tp6 top_n = Ok (Some r) /\
    Optimizer.generate_strategies step include_tp6 = Ok cands /\
    Permutation (map Optimizer.r_strategy (Optimizer.results_of r)) cands /\
    Forall (evaluated_on (Optimizer.load_signals table announced))
           (Optimizer.results_of r) /\
    StronglySorted descending (Optimizer.results_of r) /\
    (In (Optimizer.best_strategy r) (Optimizer.results_of r) /\
     forall x, In x (Optimizer.results_of r) ->
       Optimizer.r_total_pl x <= Optimizer.r_total_pl (Optimizer.best_strategy r)) /\
    (In (Optimizer.best_winrate r) (Optimizer.results_of r) /\
     forall x, In x (Optimizer.results_of r) ->
       Optimizer.win_rate (Optimizer.r_stats x)
       <= Optimizer.win_rate (Optimizer.r_stats (Optimizer.best_winrate r))) /\
    Optimizer.top r =
      map (fun x => Optimizer.mkTopLine (Optimizer.r_strategy x) (Optimizer.r_total_pl x)
                      ((Optimizer.r_total_pl x - baseline_pl) / Qabs baseline_pl * 100)
                      (Optimizer.win_rate (Optimizer.r_stats x)))
          (Optimizer.slice_to (Optimizer.results_of r) top_n) /\
    Optimizer.best_improvement r =
      (Optimizer.r_total_pl (Optimizer.best_strategy r) - baseline_pl)
      / Qabs baseline_pl * 100.
Proof.
  exact (optimize_ranking step include_tp6 top_n baseline_pl baseline_stats).
Qed.

End OptimizeOutcomes.

Section OptimizeWitnesses.

Lemma portfolio_tally_witness :
  exists total st,
    Optimizer.calculate_portfolio_profit
      [Optimizer.mkSignal two_level_row [1; 2]%Z 2] Optimizer.default_strategy
    = Ok (total, st).
Proof.
  destruct (portfolio_tally [Optimizer.mkSignal two_level_row [1; 2]%Z 2]
              Optimizer.default_strategy eq_refl) as [total [st [E _]]].
  - intros s [<- | []]. discriminate.
  - exists total, st. exact E.
Defined.

Lemma optimize_rejects_bad_step_witness :
  Optimizer.optimize [two_level_row] [(7, 1); (7, 2)]%Z 3 false 10 = Raise ValueError.
Proof.
  apply optimize_rejects_bad_step.
  - discriminate.
  - intros [_ [k Hk]]. lia.
Defined.

Lemma optimize_fails_on_zero_baseline_witness :
  Optimizer.optimize
    [mkSignalDetails 8 "EURUSD" "SELL" (Some 0) None (Some 1.09) None None None
       None None (Some "LOW"%string)]
    [(8, 1)]%Z 50 false 2 = Raise ZeroDivisionError.
Proof.
  eapply optimize_fails_on_zero_baseline.
  - discriminate.
  - reflexivity.
  - exists 2%Z. reflexivity.
  - vm_compute. reflexivity.
  - reflexivity.
Defined.

Lemma optimize_ranks_candidates_witness :
  exists r, Optimizer.optimize [two_level_row] [(7, 1); (7, 2)]%Z 50 false 3 = Ok (Some r).
Proof.
  edestruct (optimize_ranks_candidates [two_level_row] [(7, 1); (7, 2)]%Z 50 false 3)
    as [r [cands [E _]]].
  - discriminate.
  - reflexivity.
  - exists 2%Z. reflexivity.
  - vm_compute. reflexivity.
  - vm_compute. discriminate.
  - exists r. exact E.
Defined.

End OptimizeWitnesses.

(** ** The dashboard's answers *)

Section RowOutcome.

Lemma evaluate_row_level_zero (row : signal_details) (tp_hits : list Z) :
  highest_of tp_hits = 0%Z ->
  exists p,
    Dashboard.evaluate_row row tp_hits =
    Ok (Dashboard.mkSignalView (stop_loss row) (Dashboard.risk_level_of row) 0
          Dashboard.SL_Hit Dashboard.loss
          (Py.or_zero (fun q => Py.round q 1) p)
          (Py.or_zero (fun q => Py.round q 2)
             (- Dashboard.risk_percent_of (Dashboard.risk_level_of row)))
          []).
Proof.
  intros H. unfold Dashboard.evaluate_row. rewrite H. cbn [Z.eqb Py.bind].
  destruct (pips_and_profit_stop_loss row (stop_loss row)
              (Dashboard.risk_percent_of (Dashboard.risk_level_of row))) as [p ->].
  exists p. reflexivity.
Qed.

Lemma evaluate_row_cases (row : signal_details) (tp_hits : list Z) :
  ((0 <= highest_of tp_hits <= 6)%Z ->
   exists v,
     Dashboard.evaluate_row row tp_hits = Ok v /\
     Dashboard.highest_tp v = highest_of tp_hits /\
     (highest_of tp_hits = 0%Z ->
      Dashboard.view_outcome v = Dashboard.SL_Hit /\
      Dashboard.view_outcome_class v = Dashboard.loss /\
      Dashboard.exit_price v = stop_loss row /\
      Dashboard.tp_breakdown v = []) /\
     (highest_of tp_hits <> 0%Z ->
      Dashboard.view_outcome v = Dashboard.TP_Hit (highest_of tp_hits) /\
      Dashboard.view_outcome_class v = Dashboard.win /\
      tp_column row (highest_of tp_hits) = Some (Dashboard.exit_price v))) /\
  (~ (0 <= highest_of tp_hits <= 6)%Z ->
   Dashboard.evaluate_row row tp_hits = Raise IndexError).
Proof.
  split.
  - intros H. destruct (Z.eq_dec (highest_of tp_hits) 0) as [E0 | Hne].
    + destruct (evaluate_row_level_zero row tp_hits E0) as [p ->].
      eexists. split; [reflexivity|]. cbn. rewrite E0.
      repeat split; congruence.
    + destruct (evaluate_row_take_profit row tp_hits) as [x [pp [b [Hx [_ [_ ->]]]]]];
        [lia|].
      eexists. split; [reflexivity|]. cbn.
      repeat split; try congruence.
      unfold Dashboard.row_tp in Hx.
      destruct (tp_column row (highest_of tp_hits)); [now injection Hx as -> | discriminate].
  - intros H. unfold Dashboard.evaluate_row.
    destruct (Z.eqb_spec (highest_of tp_hits) 0); [lia|].
    unfold Dashboard.row_tp. rewrite tp_column_outside by lia. reflexivity.
Qed.

(** A row whose highest level is 0 to 6 is always processed: level 0 is a
    stop-loss outcome (a loss, exit at the stop-loss price, no breakdown),
    any other level a TP outcome (a win, exit at that level's price).  A
    level outside 0..6 names a column the row does not have: an
    [IndexError], the only exception the body raises. *)
Theorem evaluate_row_outcome (row : signal_details) (tp_hits : list Z) :
  ((0 <= highest_of tp_hits <= 6)%Z ->
   exists v,
     Dashboard.evaluate_row row tp_hits = Ok v /\
     Dashboard.highest_tp v = highest_of tp_hits /\
     (highest_of tp_hits = 0%Z ->
      Dashboard.view_outcome v = Dashboard.SL_Hit /\
      Dashboard.view_outcome_class v = Dashboard.loss /\
      Dashboard.exit_price v = stop_loss row /\
      Dashboard.tp_breakdown v = []) /\
     (highest_of tp_hits <> 0%Z ->
      Dashboard.view_outcome v = Dashboard.TP_Hit (highest_of tp_hits) /\
      Dashboard.view_outcome_class v = Dashboard.win /\
      tp_column row (highest_of tp_hits) = Some (Dashboard.exit_price v))) /\
  (~ (0 <= highest_of tp_hits <= 6)%Z ->
   Dashboard.evaluate_row row tp_hits = Raise IndexError).
Proof.
  exact (evaluate_row_cases row tp_hits).
Qed.

End RowOutcome.

Section Fallback.

Lemma history_loop (rows : list (signal_details * list Z)) :
  (forall r, In r rows -> (0 <= highest_of (snd r) <= 6)%Z) ->
  forall acc, exists vs,
    Py.for_each
      (fun signals r => v <- Dashboard.evaluate_row (fst r) (snd r) ;; Ok (signals ++ [v]))
      rows acc = Ok (acc ++ vs) /\
    Forall2 (fun r v => Dashboard.evaluate_row (fst r) (snd r) = Ok v) rows vs.
Proof.
  induction rows as [|r rows IH]; intros H acc.
  - exists []. simpl. rewrite app_nil_r. split; [reflexivity | constructor].
  - destruct (proj1 (evaluate_row_cases (fst r) (snd r)) (H r (or_introl eq_refl)))
      as [v [E _]].
    simpl. rewrite E. simpl.
    destruct (IH (fun x Hx => H x (or_intror Hx)) (acc ++ [v])) as [vs [E' F]].
    rewrite E'. exists (v :: vs). rewrite <- app_assoc. split; [reflexivity|].
    now constructor.
Qed.

Lemma history_loop_fails (rows : list (signal_details * list Z)) :
  (exists r, In r rows /\ ~ (0 <= highest_of (snd r) <= 6)%Z) ->
  forall acc,
    Py.for_each
      (fun signals r => v <- Dashboard.evaluate_row (fst r) (snd r) ;; Ok (signals ++ [v]))
      rows acc = Raise IndexError.
Proof.
  induction rows as [|r rows IH]; intros [bad [Hin Hbad]] acc; [destruct Hin|].
  simpl.
  destruct (Z_le_dec 0 (highest_of (snd r))) as [H0|H0];
    [destruct (Z_le_dec (highest_of (snd r)) 6) as [H6|H6] |].
  - destruct (proj1 (evaluate_row_cases (fst r) (snd r))) as [v [E _]]; [lia|].
    rewrite E. simpl. apply IH. destruct Hin as [-> | Hin]; [lia|].
    now exists bad.
  - rewrite (proj2 (evaluate_row_cases (fst r) (snd r))) by lia. reflexivity.
  - rewrite (proj2 (evaluate_row_cases (fst r) (snd r))) by lia. reflexivity.
Qed.

End Fallback.

Section RoundingBounds.

Lemma round_half_even_close (q : Q) :
  inject_Z (Py.round_half_even q) - q <= 1 # 2 /\
  q - inject_Z (Py.round_half_even q) <= 1 # 2.
Proof.
  unfold Py.round_half_even.
  pose proof (Qfloor_le q) as Hlo. pose proof (Qlt_floor q) as Hhi.
  set (f := Qfloor q) in *.
  assert (Hf1 : inject_Z (f + 1) == inject_Z f + 1) by (rewrite inject_Z_plus; reflexivity).
  rewrite Hf1 in Hhi.
  destruct (Qcompare (q - inject_Z f) (1 # 2)) eqn:C.
  - apply Qeq_alt in C. destruct (Z.even f); rewrite ?Hf1; lra.
  - apply Qlt_alt in C. lra.
  - apply Qgt_alt in C. rewrite Hf1. lra.
Qed.

Lemma round_close (q : Q) (n : nat) :
  Qabs (Py.round q n - q) <= 1 / (2 * inject_Z (10 ^ Z.of_nat n)).
Proof.
  unfold Py.round. pose proof (round_scale_positive n) as Hs.
  set (sc := inject_Z (10 ^ Z.of_nat n)) in *.
  destruct (round_half_even_close (q * sc)) as [H1 H2].
  set (r := inject_Z (Py.round_half_even (q * sc))) in *.
  assert (E : r / sc - q == (r - q * sc) / sc) by (field; lra).
  rewrite E. apply Qabs_Qle_condition.
  assert (Hd : (1 # 2) / sc == 1 / (2 * sc)) by (field; lra).
  rewrite <- Hd. split.
  - apply Qle_shift_div_l; [assumption|].
    assert (- ((1 # 2) / sc) * sc == - (1 # 2)) by (field; lra). lra.
  - apply Qle_shift_div_r; [assumption|].
    assert ((1 # 2) / sc * sc == 1 # 2) by (field; lra). lra.
Qed.

Lemma round_half_even_le_int (q : Q) (N : Z) :
  q <= inject_Z N -> (Py.round_half_even q <= N)%Z.
Proof.
  intros H. unfold Py.round_half_even.
  assert (F : (Qfloor q <= N)%Z).
  { rewrite <- (Qfloor_Z N). now apply Qfloor_resp_le. }
  destruct (Z.eq_dec (Qfloor q) N) as [E | NE].
  - assert (L : q - inject_Z (Qfloor q) < 1 # 2) by (rewrite E; lra).
    destruct (Qcompare (q - inject_Z (Qfloor q)) (1 # 2)) eqn:C.
    + apply Qeq_alt in C. lra.
    + lia.
    + apply Qgt_alt in C. lra.
  - destruct (Qcompare _ _); [destruct (Z.even _)| |]; lia.
Qed.

Lemma round_le_int (q : Q) (n : nat) (N : Z) :
  q <= inject_Z N -> Py.round q n <= inject_Z N.
Proof.
  intros H. unfold Py.round. pose proof (round_scale_positive n) as Hs.
  apply Qle_shift_div_r; [assumption|].
  rewrite <- inject_Z_mult, <- Zle_Qle.
  apply round_half_even_le_int. rewrite inject_Z_mult.
  apply Qmult_le_compat_r; [assumption | now apply Qlt_le_weak].
Qed.

End RoundingBounds.

Section Summary.

Lemma count_where_cons (p : Dashboard.signal_view -> bool) (v : Dashboard.signal_view)
  (l : list Dashboard.signal_view) :
  Dashboard.count_where p (v :: l) =
  ((if p v then 1 else 0) + Dashboard.count_where p l)%Z.
Proof.
  unfold Dashboard.count_where. cbn [filter].
  destruct (p v); cbn [length]; lia.
Qed.

Lemma count_where_bounds (p : Dashboard.signal_view -> bool)
  (l : list Dashboard.signal_view) :
  (0 <= Dashboard.count_where p l <= Z.of_nat (length l))%Z.
Proof.
  induction l as [|v l IH]; [unfold Dashboard.count_where; simpl; lia|].
  rewrite count_where_cons. cbn [length]. destruct (p v); lia.
Qed.

Lemma evaluated_view_well_classified (row : signal_details) (tp_hits : list Z)
  (v : Dashboard.signal_view) :
  Dashboard.evaluate_row row tp_hits = Ok v -> well_classified v.
Proof.
  intros E.
  destruct (Z_le_dec 0 (highest_of tp_hits)) as [H0|H0];
    [destruct (Z_le_dec (highest_of tp_hits) 6) as [H6|H6] |];
    try (rewrite (proj2 (evaluate_row_cases row tp_hits)) in E by lia; discriminate).
  destruct (proj1 (evaluate_row_cases row tp_hits)) as [v' [E' [Hh [Hsl Htp]]]]; [lia|].
  rewrite E in E'. injection E' as <-. unfold well_classified, Dashboard.is_win.
  split; [lia|]. rewrite Hh.
  destruct (Z.eqb_spec (highest_of tp_hits) 0) as [Z0 | NZ].
  - destruct (Hsl Z0) as [_ [-> _]]. reflexivity.
  - destruct (Htp NZ) as [_ [-> _]]. reflexivity.
Qed.

Lemma distribution_total (signals : list Dashboard.signal_view) :
  Forall well_classified signals ->
  fold_left Z.add (Dashboard.tp_distribution (Dashboard.summarize signals)) 0%Z
  = Z.of_nat (length signals) /\
  (Dashboard.winning_signals (Dashboard.summarize signals)
   + Dashboard.losing_signals (Dashboard.summarize signals)
   = Z.of_nat (length signals))%Z.
Proof.
  unfold Dashboard.summarize.
  cbn [Dashboard.tp_distribution Dashboard.winning_signals Dashboard.losing_signals
       map fold_left].
  induction 1 as [|v l [Hr Hw] _ [IH1 IH2]].
  - split; reflexivity.
  - rewrite !count_where_cons.
    cbn [length]. rewrite Hw.
    assert (C : (Dashboard.highest_tp v = 0 \/ Dashboard.highest_tp v = 1 \/
                 Dashboard.highest_tp v = 2 \/ Dashboard.highest_tp v = 3 \/
                 Dashboard.highest_tp v = 4 \/ Dashboard.highest_tp v = 5 \/
                 Dashboard.highest_tp v = 6)%Z) by lia.
    destruct C as [-> | [-> | [-> | [-> | [-> | [-> | ->]]]]]];
      cbn [Z.eqb Pos.eqb negb]; lia.
Qed.

End Summary.

Section FallbackAnswers.

Lemma win_rate_in_range (signals : list Dashboard.signal_view) :
  0 <= Dashboard.summary_win_rate (Dashboard.summarize signals) <= 100.
Proof.
  unfold Dashboard.summarize. cbn [Dashboard.summary_win_rate].
  pose proof (count_where_bounds Dashboard.is_win signals) as [Hlo Hhi].
  set (w := Dashboard.count_where Dashboard.is_win signals) in *.
  set (n := Z.of_nat (length signals)) in *.
  assert (R : 0 <= (if (0 <? n)%Z then inject_Z w / inject_Z n * 100 else 0) <= 100).
  { destruct (Z.ltb_spec 0 n); [|lra].
    assert (Hn : 0 < inject_Z n) by (change 0 with (inject_Z 0); now rewrite <- Zlt_Qlt).
    assert (H0 : 0 <= inject_Z w / inject_Z n).
    { apply Qle_shift_div_l; [assumption|]. rewrite Qmult_0_l.
      change 0 with (inject_Z 0). now rewrite <- Zle_Qle. }
    assert (H1 : inject_Z w / inject_Z n <= 1).
    { apply Qle_shift_div_r; [assumption|]. rewrite Qmult_1_l. now rewrite <- Zle_Qle. }
    lra. }
  split; [apply round_nonneg; tauto|].
  apply (round_le_int _ 2 100). apply R.
Qed.

(** When every row has its highest level within 0..6, the fallback answers
    with one processed signal per row, in order, and a summary in which wins
    and losses add up to the number of signals, the SL and TP1..TP6 counts
    add up to it as well, and the win rate lies between 0 and 100. *)
Theorem fallback_success (rows : list (signal_details * list Z)) :
  (forall r, In r rows -> (0 <= highest_of (snd r) <= 6)%Z) ->
  exists signals stats,
    Dashboard.get_signal_history_fallback rows = Dashboard.Success signals stats /\
    Forall2 (fun r v => Dashboard.evaluate_row (fst r) (snd r) = Ok v) rows signals /\
    Dashboard.total_signals stats = Z.of_nat (length rows) /\
    (Dashboard.winning_signals stats + Dashboard.losing_signals stats
     = Dashboard.total_signals stats)%Z /\
    fold_left Z.add (Dashboard.tp_distribution stats) 0%Z = Dashboard.total_signals stats /\
    0 <= Dashboard.summary_win_rate stats <= 100.
Proof.
  intros H. unfold Dashboard.get_signal_history_fallback.
  destruct (history_loop rows H []) as [vs [E F]]. rewrite E. cbn [app].
  exists vs, (Dashboard.summarize vs). split; [reflexivity|]. split; [assumption|].
  assert (W : Forall well_classified vs).
  { clear E. induction F as [|r v rows vs Hv _ IH]; constructor.
    - eapply evaluated_view_well_classified; eassumption.
    - apply IH. intros x Hx. apply H. now right. }
  destruct (distribution_total vs W) as [D1 D2].
  pose proof (Forall2_length F) as L.
  assert (T : Dashboard.total_signals (Dashboard.summarize vs) = Z.of_nat (length rows))
    by (unfold Dashboard.summarize; cbn [Dashboard.total_signals]; now rewrite L).
  repeat split.
  - assumption.
  - rewrite T, L. assumption.
  - rewrite T, L. assumption.
  - apply win_rate_in_range.
  - apply win_rate_in_range.
Qed.

(** One row with a level outside 0..6 turns the whole answer into the error
    answer: no signal of the other rows is returned. *)
Theorem fallback_failure (rows : list (signal_details * list Z)) :
  (exists r, In r rows /\ ~ (0 <= highest_of (snd r) <= 6)%Z) ->
  Dashboard.get_signal_history_fallback rows = Dashboard.ServerError IndexError.
Proof.
  intros H. unfold Dashboard.get_signal_history_fallback.
  now rewrite history_loop_fails.
Qed.

End FallbackAnswers.

Section BreakdownShape.

Lemma range_snoc (lo i : Z) :
  (lo <= i)%Z -> Py.range lo (i + 1) = Py.range lo i ++ [i].
Proof.
  intros H. unfold Py.range.
  replace (Z.to_nat (i + 1 - lo)) with (Z.to_nat (i - lo) + 1)%nat by lia.
  rewrite seq_app, map_app. cbn [seq map]. f_equal. f_equal. lia.
Qed.

Lemma breakdown_step_cases (row : signal_details) (x : option Q) (rp : Q)
  (acc : list Dashboard.breakdown_row) (lvl : Z) :
  (1 <= lvl <= 6)%Z ->
  (priced row lvl = false /\ Dashboard.breakdown_step row x rp acc lvl = Ok acc) \/
  (priced row lvl = true /\
   exists r, Dashboard.tp_level r = lvl /\ row_of_level row rp r /\
             Dashboard.breakdown_step row x rp acc lvl = Ok (acc ++ [r])).
Proof.
  intros H. unfold Dashboard.breakdown_step, Dashboard.row_tp, priced.
  destruct (tp_column_inside row lvl H) as [v Hv]. rewrite Hv. cbn [Py.bind].
  destruct (Py.truthy v) eqn:Tv; cbn [negb]; [right | now left].
  split; [reflexivity|].
  apply truthy_true in Tv. destruct Tv as [tp [-> _]]. cbn [Py.float Py.bind].
  assert (M : exists m,
             (if Py.truthy (entry_price row)
              then e <- Py.float (entry_price row) ;;
                   ratio <- Py.div (Qabs (tp - e)) e ;; Ok (ratio * 100)
              else Ok 0) = Ok m /\ m = row_move row tp).
  { unfold row_move. destruct (Py.truthy (entry_price row)) eqn:Te.
    - apply truthy_true in Te. destruct Te as [e [-> He]]. cbn [Py.float Py.bind].
      rewrite div_ok by assumption. cbn [Py.bind]. eexists. split; reflexivity.
    - eexists. split; reflexivity. }
  destruct M as [m [Em Hm]].
  assert (P : exists p,
             (if Py.truthy x && Py.truthy (entry_price row)
              then e <- Py.float (entry_price row) ;;
                   Dashboard.signed_pips row tp e (Dashboard.pip_multiplier (symbol row))
              else Ok 0) = Ok p).
  { destruct (Py.truthy x && Py.truthy (entry_price row)) eqn:C; [|eexists; reflexivity].
    apply andb_true_iff in C. destruct C as [_ Te].
    apply truthy_true in Te. destruct Te as [e [-> He]]. cbn [Py.float Py.bind].
    apply signed_pips_returns. }
  destruct P as [p Ep]. rewrite Ep, Em. cbn [Py.bind].
  eexists. split; [|split; [|reflexivity]]; [reflexivity|].
  unfold row_of_level. cbn [Dashboard.tp_level Dashboard.partial_exit_percent
                            Dashboard.row_profit_percent].
  repeat split; try lia.
  unfold level_contribution. rewrite Hv, Hm. reflexivity.
Qed.

Lemma breakdown_loop (row : signal_details) (x : option Q) (rp : Q) (h : Z) :
  (0 <= h <= 6)%Z ->
  exists rows,
    Py.for_each (Dashboard.breakdown_step row x rp) (Py.range 1 (h + 1)) [] = Ok rows /\
    map Dashboard.tp_level rows = priced_levels row h /\
    Forall (row_of_level row rp) rows.
Proof.
  intros H.
  destruct (for_each_range_invariant
              (fun i acc => map Dashboard.tp_level acc = filter (priced row) (Py.range 1 i) /\
                            Forall (row_of_level row rp) acc)
              (Dashboard.breakdown_step row x rp) 1 (h + 1))
    with (acc := @nil Dashboard.breakdown_row) as [rows [E [M F]]].
  - lia.
  - intros i acc Hi [M F]. rewrite range_snoc, filter_app by lia. cbn [filter].
    destruct (breakdown_step_cases row x rp acc i) as [[Hp ->] | [Hp [r [Hl [Hr ->]]]]];
      [lia | |]; rewrite Hp; eexists; (split; [reflexivity|]).
    + rewrite app_nil_r. now split.
    + rewrite map_app, M. cbn [map]. rewrite Hl. split; [reflexivity|].
      apply Forall_app. split; [assumption | now constructor].
  - rewrite range_empty by lia. split; [reflexivity | constructor].
  - exists rows. repeat split; assumption.
Qed.

End BreakdownShape.

Section BreakdownFacts.

Lemma exit_percent_total_levels (row : signal_details) (rp : Q)
  (rows : list Dashboard.breakdown_row) :
  Forall (row_of_level row rp) rows ->
  exit_percent_total rows =
  fold_left Z.add
    (map (fun lvl => Py.int (Dashboard.partial_exit_of row lvl * 100))
         (map Dashboard.tp_level rows)) 0%Z.
Proof.
  unfold exit_percent_total. generalize 0%Z.
  induction rows as [|r rows IH]; intros a F; [reflexivity|].
  inversion F as [|? ? [_ [Hp _]] F']; subst. cbn [fold_left map].
  rewrite Hp. now apply IH.
Qed.

Lemma exit_percent_sum_bounded (row : signal_details) (h : Z) :
  (0 <= h <= 6)%Z ->
  (fold_left Z.add
     (map (fun lvl => Py.int (Dashboard.partial_exit_of row lvl * 100))
          (priced_levels row h)) 0 <= 100)%Z.
Proof.
  intros H.
  assert (C : (h = 0 \/ h = 1 \/ h = 2 \/ h = 3 \/ h = 4 \/ h = 5 \/ h = 6)%Z) by lia.
  destruct row as [n sy ac en sl t1 t2 t3 t4 t5 t6 rl].
  unfold priced_levels, priced, Dashboard.partial_exit_of, Dashboard.has_tp6.
  destruct C as [-> | [-> | [-> | [-> | [-> | [-> | ->]]]]]];
    match goal with
    | |- context [Py.range ?a ?b] =>
        let L := eval vm_compute in (Py.range a b) in change (Py.range a b) with L
    end;
    cbn [filter tp_column tp1 tp2 tp3 tp4 tp5 tp6];
    destruct t6 as [q6|]; cbn [Py.truthy];
    repeat match goal with
           | |- context [Py.truthy ?v] => destruct (Py.truthy v); cbn [filter]
           | |- context [Qeq_bool ?a ?b] => destruct (Qeq_bool a b); cbn [filter negb]
           end;
    vm_compute; discriminate.
Qed.

(** The breakdown lists exactly the levels up to the highest one that have a
    non-zero price, in increasing order, each with the allocation
    50/20/10/10/(5 or 10)/5; the allocations listed never add up to more
    than 100. *)
Theorem breakdown_shape (row : signal_details) (tp_hits : list Z) :
  (0 <= highest_of tp_hits <= 6)%Z ->
  exists v,
    Dashboard.evaluate_row row tp_hits = Ok v /\
    map Dashboard.tp_level (Dashboard.tp_breakdown v)
    = priced_levels row (highest_of tp_hits) /\
    map Dashboard.partial_exit_percent (Dashboard.tp_breakdown v)
    = map (fun lvl => Py.int (Dashboard.partial_exit_of row lvl * 100))
          (priced_levels row (highest_of tp_hits)) /\
    (exit_percent_total (Dashboard.tp_breakdown v) <= 100)%Z.
Proof.
  intros H. set (rp := Dashboard.risk_percent_of (Dashboard.risk_level_of row)).
  assert (G : exists v rows,
             Dashboard.evaluate_row row tp_hits = Ok v /\
             Dashboard.tp_breakdown v = rows /\
             map Dashboard.tp_level rows = priced_levels row (highest_of tp_hits) /\
             Forall (row_of_level row rp) rows).
  { destruct (Z.eq_dec (highest_of tp_hits) 0) as [E0 | Hne].
    - destruct (evaluate_row_level_zero row tp_hits E0) as [p ->].
      eexists. exists []. split; [reflexivity|]. rewrite E0.
      repeat split. constructor.
    - destruct (evaluate_row_take_profit row tp_hits) as [x [pp [b [_ [_ [Hb ->]]]]]];
        [lia|].
      destruct (breakdown_loop row x rp (highest_of tp_hits) H) as [rows [E [M F]]].
      fold rp in Hb. rewrite Hb in E. injection E as ->.
      eexists. exists rows. repeat split; assumption. }
  destruct G as [v [rows [E [Eb [M F]]]]]. exists v. rewrite Eb.
  split; [assumption|].
  split; [assumption|]. split.
  - rewrite <- M, map_map. apply map_ext_in. intros r Hr.
    rewrite Forall_forall in F. now destruct (F r Hr) as [_ [-> _]].
  - rewrite (exit_percent_total_levels row rp rows F), M.
    now apply exit_percent_sum_bounded.
Qed.

End BreakdownFacts.

Section Agreement.

Lemma risk_percent_agree (row : signal_details) :
  Dashboard.risk_percent_of (Dashboard.risk_level_of row)
  == Optimizer.risk_percent_of (risk_level row).
Proof.
  unfold Dashboard.risk_level_of, Dashboard.risk_percent_of, Optimizer.risk_percent_of.
  destruct (risk_level row) as [s|]; [|reflexivity].
  destruct (String.eqb_spec s "LOW") as [-> | NL]; [reflexivity|].
  destruct (String.eqb_spec s "MEDIUM") as [-> | NM]; [reflexivity|].
  destruct (String.eqb_spec s "HIGH") as [-> | NH]; [reflexivity|].
  destruct s as [|c s]; [reflexivity|].
  destruct (String.eqb_spec (String c s) "LOW"); [contradiction|].
  destruct (String.eqb_spec (String c s) "HIGH"); [contradiction|]. reflexivity.
Qed.

Lemma level_contribution_comp (row : signal_details) (rp rp' : Q) (lvl : Z) :
  rp == rp' -> level_contribution row rp lvl == level_contribution row rp' lvl.
Proof.
  intros H. unfold level_contribution.
  destruct (tp_column row lvl) as [[tp|]|]; try reflexivity. now rewrite H.
Qed.

Lemma fold_add_from {A : Type} (f : A -> Q) (l : list A) (a : Q) :
  fold_left (fun acc x => acc + f x) l a == a + fold_left (fun acc x => acc + f x) l 0.
Proof.
  revert a. induction l as [|x l IH]; intros a; cbn [fold_left]; [ring|].
  rewrite (IH (a + f x)), (IH (0 + f x)). ring.
Qed.

Lemma contribution_sum_snoc (row : signal_details) (rp : Q) (levels : list Z) (lvl : Z) :
  contribution_sum row rp (levels ++ [lvl])
  == contribution_sum row rp levels + level_contribution row rp lvl.
Proof.
  unfold contribution_sum. rewrite fold_left_app. reflexivity.
Qed.

Lemma dashboard_strategy_nth (row : signal_details) (i : Z) (sp : Q) :
  (0 <= i)%Z -> nth_error (dashboard_strategy row) (Z.to_nat i) = Some sp ->
  sp = Dashboard.partial_exit_of row (i + 1).
Proof.
  intros Hi H.
  assert (C : (i = 0 \/ i = 1 \/ i = 2 \/ i = 3 \/ i = 4 \/ i = 5 \/ 6 <= i)%Z) by lia.
  destruct C as [-> | [-> | [-> | [-> | [-> | [-> | C]]]]]];
    try (cbn in H; now injection H as <-).
  assert (N : nth_error (dashboard_strategy row) (Z.to_nat i) = None).
  { apply nth_error_None. simpl. lia. }
  congruence.
Qed.

Lemma optimizer_closed_form (row : signal_details) (tp_hits : list Z) (h : Z) (e rp : Q) :
  entry_price row = Some e -> ~ e == 0 -> (0 <= h)%Z ->
  exists p,
    Py.for_each
      (Optimizer.tp_step (Optimizer.mkSignal row tp_hits h) (dashboard_strategy row) e rp)
      (Py.range 0 h) 0 = Ok p /\
    p == contribution_sum row rp (priced_levels row h).
Proof.
  intros He He0 Hh. set (s := Optimizer.mkSignal row tp_hits h).
  assert (Te : Py.truthy (entry_price row) = true).
  { rewrite He. simpl. destruct (Qeq_bool e 0) eqn:E; [|reflexivity].
    apply Qeq_bool_eq in E. contradiction. }
  apply (for_each_range_invariant
           (fun i acc => acc == contribution_sum row rp (priced_levels row i))).
  - assumption.
  - intros i acc Hi Hacc. unfold priced_levels.
    rewrite range_snoc, filter_app by lia. cbn [filter].
    assert (Hp : Py.truthy (Optimizer.get_tp s (i + 1)) = priced row (i + 1)).
    { unfold Optimizer.get_tp, priced. cbn [Optimizer.details s].
      destruct (tp_column row (i + 1)); reflexivity. }
    destruct (Py.truthy (Optimizer.get_tp s (i + 1))) eqn:T.
    + destruct (tp_step_counted s (dashboard_strategy row) e rp acc i T eq_refl He0)
        as [tp [sp [Etp [N ->]]]]; [lia|].
      eexists. split; [reflexivity|]. rewrite <- Hp.
      fold (priced_levels row i). rewrite contribution_sum_snoc, Hacc.
      apply dashboard_strategy_nth in N; [|lia]. subst sp.
      assert (Ec : level_contribution row rp (i + 1)
                   == level_profit tp e (Dashboard.partial_exit_of row (i + 1)) rp).
      { unfold level_contribution, level_profit, row_move.
        unfold Optimizer.get_tp in Etp. cbn [Optimizer.details s] in Etp.
        destruct (tp_column row (i + 1)) as [v|]; [|discriminate]. subst v.
        rewrite Te, He. reflexivity. }
      rewrite Ec. reflexivity.
    + rewrite (tp_step_skipped _ _ _ _ _ _ T). eexists. split; [reflexivity|].
      rewrite <- Hp, app_nil_r. exact Hacc.
  - unfold priced_levels, contribution_sum. rewrite range_empty by lia. reflexivity.
Qed.

Lemma breakdown_total_close (row : signal_details) (rp : Q)
  (rows : list Dashboard.breakdown_row) :
  Forall (row_of_level row rp) rows ->
  Qabs (Dashboard.breakdown_total rows
        - contribution_sum row rp (map Dashboard.tp_level rows))
  <= (1 # 200) * inject_Z (Z.of_nat (length rows)).
Proof.
  unfold Dashboard.breakdown_total, contribution_sum.
  induction 1 as [|r rows [_ [_ Hr]] _ IH].
  - vm_compute. discriminate.
  - cbn [fold_left map length].
    rewrite (fold_add_from Dashboard.row_profit_percent),
            (fold_add_from (level_contribution row rp)).
    rewrite Hr.
    pose proof (round_close (level_contribution row rp (Dashboard.tp_level r)) 2) as Hc.
    change (1 / (2 * inject_Z (10 ^ Z.of_nat 2))) with (1 / (2 * 100)) in Hc.
    set (x := level_contribution row rp (Dashboard.tp_level r)) in *.
    set (T := fold_left (fun acc y => acc + Dashboard.row_profit_percent y) rows 0) in *.
    set (S0 := fold_left (fun acc l => acc + level_contribution row rp l)
                 (map Dashboard.tp_level rows) 0) in *.
    rewrite Nat2Z.inj_succ, <- Z.add_1_r, inject_Z_plus.
    apply Qabs_Qle_condition in Hc. apply Qabs_Qle_condition in IH.
    apply Qabs_Qle_condition.
    assert (E1 : 1 / (2 * 100) == 1 # 200) by reflexivity.
    rewrite E1 in Hc. change (inject_Z 1) with 1.
    split; lra.
Qed.

End Agreement.

Section AgreementTheorems.

Lemma breakdown_rows (row : signal_details) (tp_hits : list Z) :
  (0 <= highest_of tp_hits <= 6)%Z ->
  exists v,
    Dashboard.evaluate_row row tp_hits = Ok v /\
    map Dashboard.tp_level (Dashboard.tp_breakdown v)
    = priced_levels row (highest_of tp_hits) /\
    Forall (row_of_level row (Dashboard.risk_percent_of (Dashboard.risk_level_of row)))
           (Dashboard.tp_breakdown v).
Proof.
  intros H. set (rp := Dashboard.risk_percent_of (Dashboard.risk_level_of row)).
  destruct (Z.eq_dec (highest_of tp_hits) 0) as [E0 | Hne].
  - destruct (evaluate_row_level_zero row tp_hits E0) as [p ->].
    eexists. split; [reflexivity|]. rewrite E0. split; [reflexivity | constructor].
  - destruct (evaluate_row_take_profit row tp_hits) as [x [pp [b [_ [_ [Hb ->]]]]]];
      [lia|].
    destruct (breakdown_loop row x rp (highest_of tp_hits) H) as [rows [E [M F]]].
    fold rp in Hb. rewrite Hb in E. injection E as ->.
    eexists. split; [reflexivity|]. split; assumption.
Qed.

Lemma contribution_sum_comp (row : signal_details) (rp rp' : Q) (levels : list Z) :
  rp == rp' -> contribution_sum row rp levels == contribution_sum row rp' levels.
Proof.
  intros H. unfold contribution_sum.
  assert (G : forall a a', a == a' ->
             fold_left (fun acc lvl => acc + level_contribution row rp lvl) levels a ==
             fold_left (fun acc lvl => acc + level_contribution row rp' lvl) levels a').
  { induction levels as [|l levels IH]; intros a a' Ha; cbn [fold_left]; [exact Ha|].
    apply IH. now rewrite Ha, (level_contribution_comp row rp rp' l H). }
  now apply G.
Qed.

Lemma contribution_sum_without_entry (row : signal_details) (rp : Q) (levels : list Z) :
  Py.truthy (entry_price row) = false -> contribution_sum row rp levels == 0.
Proof.
  intros T. unfold contribution_sum.
  induction levels as [|l levels IH]; cbn [fold_left]; [reflexivity|].
  rewrite fold_add_from, IH.
  unfold level_contribution, row_move. rewrite T.
  destruct (tp_column row l) as [[tp|]|]; ring.
Qed.

(** The dashboard's breakdown and the optimizer agree: for a signal with an
    entry price, the breakdown rows add up to the optimizer's profit under
    the dashboard's own allocation, within half a hundredth per row (the
    rounding of each row to two decimals). *)
Theorem breakdown_agrees_with_optimizer (row : signal_details) (tp_hits : list Z) (e : Q) :
  (1 <= highest_of tp_hits <= 6)%Z ->
  entry_price row = Some e ->
  exists v p,
    Dashboard.evaluate_row row tp_hits = Ok v /\
    Optimizer.calculate_signal_profit
      (Optimizer.mkSignal row tp_hits (highest_of tp_hits)) (dashboard_strategy row)
    = Ok p /\
    Qabs (Dashboard.breakdown_total (Dashboard.tp_breakdown v) - p)
    <= (1 # 200) * inject_Z (Z.of_nat (length (Dashboard.tp_breakdown v))).
Proof.
  intros H He.
  destruct (breakdown_rows row tp_hits) as [v [Ev [M F]]]; [lia|].
  pose proof (breakdown_total_close row _ _ F) as C. rewrite M in C.
  exists v. unfold Optimizer.calculate_signal_profit.
  cbn [Optimizer.highest_tp Optimizer.details].
  destruct (Z.eqb_spec (highest_of tp_hits) 0); [lia|].
  rewrite He. cbn [Py.float Py.bind].
  destruct (Qeq_bool e 0) eqn:E0.
  - exists 0. repeat split; try assumption.
    rewrite contribution_sum_without_entry in C; [exact C|].
    rewrite He. simpl. now rewrite E0.
  - apply Qeq_bool_false_neq in E0.
    destruct (optimizer_closed_form row tp_hits (highest_of tp_hits) e
                (Optimizer.risk_percent_of (risk_level row)) He E0) as [p [Ep Hp]];
      [lia|].
    exists p. repeat split; try assumption.
    rewrite Hp.
    rewrite <- (contribution_sum_comp row _ _ _ (risk_percent_agree row)).
    exact C.
Qed.

Lemma round_nonpos (q : Q) (n : nat) : q <= 0 -> Py.round q n <= 0.
Proof. intros H. apply (round_le_int q n 0). exact H. Qed.

(** The pips carry the sign of the move in the trade's direction: for a BUY
    they are non-negative when the exit price is at or above the entry price
    and non-positive when it is at or below; any other action is read as a
    SELL, with the signs exchanged. *)
Theorem pips_follow_direction (row : signal_details) (tp_hits : list Z)
  (v : Dashboard.signal_view) (x e : Q) :
  Dashboard.evaluate_row row tp_hits = Ok v ->
  Dashboard.exit_price v = Some x -> entry_price row = Some e ->
  ~ x == 0 -> ~ e == 0 ->
  (action row = "BUY"%string ->
   (e <= x -> 0 <= Dashboard.pips v) /\ (x <= e -> Dashboard.pips v <= 0)) /\
  (action row <> "BUY"%string ->
   (x <= e -> 0 <= Dashboard.pips v) /\ (e <= x -> Dashboard.pips v <= 0)).
Proof.
  intros Ev Hx He Hx0 He0.
  pose proof (pips_use_pip_multiplier row tp_hits v x e Ev Hx He Hx0 He0) as P.
  pose proof (pip_multiplier_positive (symbol row)) as Hm.
  assert (Up : forall d, 0 <= d -> 0 <= d / Dashboard.pip_multiplier (symbol row)).
  { intros d Hd. apply Qle_shift_div_l; [assumption|]. now rewrite Qmult_0_l. }
  assert (Dn : forall d, d <= 0 -> d / Dashboard.pip_multiplier (symbol row) <= 0).
  { intros d Hd. apply Qle_shift_div_r; [assumption|]. now rewrite Qmult_0_l. }
  split; intros Ha.
  - rewrite Ha in P. cbn [String.eqb Ascii.eqb Bool.eqb andb] in P.
    replace (String.eqb "BUY" "BUY") with true in P by reflexivity.
    split; intros Hd; rewrite P.
    + apply round_nonneg, Up. lra.
    + apply round_nonpos, Dn. lra.
  - destruct (String.eqb_spec (action row) "BUY"); [contradiction|].
    split; intros Hd; rewrite P.
    + apply round_nonneg, Up. lra.
    + apply round_nonpos, Dn. lra.
Qed.

(** When every level up to the highest has a price, the cumulative factor
    of the reported profit (50, 70, 80, 90, 95 or 100 percent) is the sum of
    the allocations of the breakdown rows. *)
Theorem headline_factor_matches_breakdown (row : signal_details) (h : Z) (lm rp : Q) :
  (1 <= h <= 6)%Z ->
  priced_levels row h = Py.range 1 (h + 1) ->
  Dashboard.tp_profit_percent row h lm rp ==
  (lm * (inject_Z (fold_left Z.add
                     (map (fun lvl => Py.int (Dashboard.partial_exit_of row lvl * 100))
                          (Py.range 1 (h + 1))) 0%Z) / 100)) * (rp / 100).
Proof.
  intros H Hall.
  assert (C : (h = 1 \/ h = 2 \/ h = 3 \/ h = 4 \/ h = 5 \/ h = 6)%Z) by lia.
  assert (P6 : h = 6%Z -> Dashboard.has_tp6 row = true).
  { intros ->. assert (In 6%Z (priced_levels row 6)) by (rewrite Hall; vm_compute; tauto).
    unfold priced_levels in H0. apply filter_In in H0. destruct H0 as [_ Hp].
    unfold priced in Hp. cbn [tp_column] in Hp. unfold Dashboard.has_tp6.
    destruct (tp6 row); [reflexivity | discriminate]. }
  unfold Dashboard.tp_profit_percent, Dashboard.partial_exit_of.
  destruct C as [-> | [-> | [-> | [-> | [-> | ->]]]]];
    try rewrite (P6 eq_refl);
    match goal with
    | |- context [Py.range ?a ?b] =>
        let L := eval vm_compute in (Py.range a b) in change (Py.range a b) with L
    end;
    cbn [map Z.eqb Pos.eqb Z.geb Z.compare Pos.compare Pos.compare_cont];
    try destruct (Dashboard.has_tp6 row);
    match goal with
    | |- context [inject_Z ?z] =>
        let k := eval vm_compute in z in change z with k
    end;
    unfold Qdiv; ring_simplify; try reflexivity; field.
Qed.

End AgreementTheorems.

Section ImprovementSign.

(** With a non-zero baseline the improvement is the difference to the
    baseline over its absolute value, in percent: positive exactly when the
    candidate beats the baseline, also for a negative baseline. *)
Theorem improvement_sign (pl baseline_pl : Q) :
  ~ baseline_pl == 0 ->
  exists v,
    Optimizer.improvement pl baseline_pl = Ok v /\
    v == (pl - baseline_pl) / Qabs baseline_pl * 100 /\
    (0 < v <-> baseline_pl < pl) /\
    (v == 0 <-> pl == baseline_pl) /\
    (v < 0 <-> pl < baseline_pl).
Proof.
  intros H. unfold Optimizer.improvement.
  destruct (Qeq_bool baseline_pl 0) eqn:E; [apply Qeq_bool_eq in E; contradiction|].
  cbn [negb].
  assert (Ha : 0 < Qabs baseline_pl).
  { pose proof (Qabs_nonneg baseline_pl) as N.
    pose proof (Qle_Qabs baseline_pl) as H1.
    pose proof (Qle_Qabs (- baseline_pl)) as H2. rewrite Qabs_opp in H2.
    destruct (Qeq_dec (Qabs baseline_pl) 0) as [Z0|NZ]; [exfalso; apply H; lra|].
    lra. }
  rewrite div_ok by lra. cbn [Py.bind]. eexists. split; [reflexivity|].
  split; [reflexivity|].
  set (a := Qabs baseline_pl) in *. set (d := pl - baseline_pl).
  assert (Ev : d / a * 100 * a == d * 100) by (field; lra).
  assert (P : forall t, 0 < t -> 0 < t * a) by (intros t Ht; nra).
  assert (N : forall t, t < 0 -> t * a < 0) by (intros t Ht; nra).
  repeat split; intros Hs.
  - destruct (Qlt_le_dec baseline_pl pl) as [L|L]; [assumption|]. exfalso.
    pose proof (P _ Hs). unfold d in *. lra.
  - destruct (Qlt_le_dec 0 (d / a * 100)) as [L|L]; [assumption|]. exfalso.
    destruct (Qeq_dec (d / a * 100) 0) as [Z0|NZ].
    + rewrite Z0 in Ev. unfold d in *. lra.
    + assert (d / a * 100 < 0) by lra. pose proof (N _ H0). unfold d in *. lra.
  - rewrite Hs in Ev. unfold d in *. lra.
  - destruct (Qeq_dec (d / a * 100) 0) as [Z0|NZ]; [assumption|]. exfalso.
    destruct (Qlt_le_dec 0 (d / a * 100)) as [L|L].
    + pose proof (P _ L). unfold d in *. lra.
    + assert (d / a * 100 < 0) by lra. pose proof (N _ H0). unfold d in *. lra.
  - destruct (Qlt_le_dec pl baseline_pl) as [L|L]; [assumption|]. exfalso.
    pose proof (N _ Hs). unfold d in *. lra.
  - destruct (Qlt_le_dec (d / a * 100) 0) as [L|L]; [assumption|]. exfalso.
    destruct (Qeq_dec (d / a * 100) 0) as [Z0|NZ].
    + rewrite Z0 in Ev. unfold d in *. lra.
    + assert (0 < d / a * 100) by lra. pose proof (P _ H0). unfold d in *. lra.
Qed.

End ImprovementSign.

Section DashboardWitnesses.

Lemma evaluate_row_outcome_witness :
  Dashboard.evaluate_row two_level_row [9]%Z = Raise IndexError.
Proof.
  apply (proj2 (evaluate_row_outcome two_level_row [9]%Z)). simpl. lia.
Defined.

Lemma two_rows_in_range (r : signal_details * list Z) :
  In r [(two_level_row, [1; 2]%Z); (two_level_row, [])] ->
  (0 <= highest_of (snd r) <= 6)%Z.
Proof.
  intros [<- | [<- | []]]; simpl; lia.
Defined.

Lemma fallback_success_witness :
  exists signals stats,
    Dashboard.get_signal_history_fallback
      [(two_level_row, [1; 2]%Z); (two_level_row, [])]
    = Dashboard.Success signals stats.
Proof.
  destruct (fallback_success [(two_level_row, [1; 2]%Z); (two_level_row, [])]
              two_rows_in_range) as [signals [stats [E _]]].
  exists signals, stats. exact E.
Defined.

Lemma fallback_failure_witness :
  Dashboard.get_signal_history_fallback
    [(two_level_row, [1; 2]%Z); (two_level_row, [7]%Z)]
  = Dashboard.ServerError IndexError.
Proof.
  apply fallback_failure. exists (two_level_row, [7]%Z). split.
  - right. left. reflexivity.
  - simpl. lia.
Defined.

Lemma breakdown_shape_witness :
  exists v,
    Dashboard.evaluate_row two_level_row [1; 2]%Z = Ok v /\
    map Dashboard.tp_level (Dashboard.tp_breakdown v) = [1; 2]%Z.
Proof.
  destruct (breakdown_shape two_level_row [1; 2]%Z) as [v [E [M _]]].
  - simpl. lia.
  - exists v. split; [exact E | exact M].
Defined.

Lemma breakdown_agrees_with_optimizer_witness :
  exists v p,
    Dashboard.evaluate_row two_level_row [1; 2]%Z = Ok v /\
    Optimizer.calculate_signal_profit
      (Optimizer.mkSignal two_level_row [1; 2]%Z 2) (dashboard_strategy two_level_row)
    = Ok p /\
    Qabs (Dashboard.breakdown_total (Dashboard.tp_breakdown v) - p)
    <= (1 # 200) * inject_Z (Z.of_nat (length (Dashboard.tp_breakdown v))).
Proof.
  apply (breakdown_agrees_with_optimizer two_level_row [1; 2]%Z 2000.0).
  - simpl. lia.
  - reflexivity.
Defined.

Lemma headline_factor_matches_breakdown_witness :
  Dashboard.tp_profit_percent two_level_row 2 500 2 ==
  (500 * (inject_Z (fold_left Z.add
                      (map (fun lvl => Py.int (Dashboard.partial_exit_of two_level_row lvl * 100))
                           (Py.range 1 (2 + 1))) 0%Z) / 100)) * (2 / 100).
Proof.
  apply headline_factor_matches_breakdown.
  - lia.
  - reflexivity.
Defined.

Lemma improvement_sign_witness :
  exists v,
    Optimizer.improvement 1 (-2) = Ok v /\
    v == (1 - -2) / Qabs (-2) * 100 /\
    (0 < v <-> -2 < 1) /\ (v == 0 <-> 1 == -2) /\ (v < 0 <-> 1 < -2).
Proof.
  apply improvement_sign. discriminate.
Defined.

Lemma pips_follow_direction_witness :
  exists v,
    Dashboard.evaluate_row two_level_row [1; 2]%Z = Ok v /\ 0 <= Dashboard.pips v.
Proof.
  eexists. split; [vm_compute; reflexivity|].
  refine (proj1 (proj1 (pips_follow_direction two_level_row [1; 2]%Z _ 2020.0 2000.0
                          _ _ _ _ _) eq_refl) _).
  - vm_compute. reflexivity.
  - reflexivity.
  - reflexivity.
  - discriminate.
  - discriminate.
  - vm_compute. discriminate.
Defined.

End DashboardWitnesses.

(** ** Loading, stop-loss signals and the best total *)

Section Loading.

Lemma fold_max_bounds (xs : list Z) (x : Z) :
  (fold_left Z.max xs x = x \/ In (fold_left Z.max xs x) xs) /\
  (x <= fold_left Z.max xs x)%Z /\
  forall y, In y xs -> (y <= fold_left Z.max xs x)%Z.
Proof.
  revert x. induction xs as [|a xs IH]; intros x; simpl.
  - repeat split; [now left | lia | intros y []].
  - destruct (IH (Z.max x a)) as [Hin [Hle Hall]]. repeat split.
    + destruct Hin as [E | Hin]; [|right; now right].
      rewrite E. destruct (Z.max_spec x a) as [[_ ->] | [_ ->]];
        [right; now left | now left].
    + lia.
    + intros y [<- | Hy]; [lia | now apply Hall].
Qed.

Lemma highest_of_is_maximum (tps : list Z) :
  (tps = [] -> highest_of tps = 0%Z) /\
  (tps <> [] -> In (highest_of tps) tps /\ forall l, In l tps -> (l <= highest_of tps)%Z).
Proof.
  split; [intros ->; reflexivity|]. intros H.
  destruct tps as [|x xs]; [contradiction|]. cbn [highest_of].
  destruct (fold_max_bounds xs x) as [Hin [Hle Hall]]. split.
  - destruct Hin as [-> | Hin]; [now left | now right].
  - intros l [<- | Hl]; [assumption | now apply Hall].
Qed.

(** [load_signals] keeps exactly the rows of the table that have an entry
    price.  For each of them [tps_hit] holds exactly the levels announced
    for its signal number, and [highest_tp] is 0 when there are none and
    otherwise the largest announced level. *)
Theorem load_signals_contents (table : list signal_details)
  (announced : Optimizer.announced_tps) :
  (forall row, In row (map Optimizer.details (Optimizer.load_signals table announced))
               <-> In row table /\ entry_price row <> None) /\
  forall s, In s (Optimizer.load_signals table announced) ->
    (forall lvl, In lvl (Optimizer.tps_hit s) <->
                 In (signal_number (Optimizer.details s), lvl) announced) /\
    (Optimizer.tps_hit s = [] -> Optimizer.highest_tp s = 0%Z) /\
    (Optimizer.tps_hit s <> [] ->
     In (Optimizer.highest_tp s) (Optimizer.tps_hit s) /\
     forall lvl, In lvl (Optimizer.tps_hit s) -> (lvl <= Optimizer.highest_tp s)%Z).
Proof.
  unfold Optimizer.load_signals. split.
  - intros row. rewrite map_map. cbn [Optimizer.details]. rewrite map_id, filter_In.
    destruct (entry_price row); cbn; split; intros [H1 H2];
      (split; [assumption | congruence]).
  - intros s Hs. apply in_map_iff in Hs. destruct Hs as [row [<- _]].
    cbn [Optimizer.tps_hit Optimizer.highest_tp Optimizer.details].
    split; [|apply highest_of_is_maximum].
    intros lvl. unfold Optimizer.tps_hit_of. rewrite in_map_iff. split.
    + intros [[n l] [E Hin]]. apply filter_In in Hin. destruct Hin as [Hin Hn].
      cbn in E, Hn. subst l. apply Z.eqb_eq in Hn. now subst n.
    + intros Hin. exists (signal_number row, lvl). split; [reflexivity|].
      apply filter_In. split; [assumption|]. cbn. apply Z.eqb_refl.
Qed.

End Loading.

Section StopLossNeverWins.

Lemma stop_loss_profit_negative (s : Optimizer.signal) (strategy : list Q) (p : Q) :
  Optimizer.highest_tp s = 0%Z ->
  Optimizer.calculate_signal_profit s strategy = Ok p -> p < 0.
Proof.
  intros H. unfold Optimizer.calculate_signal_profit. rewrite H. cbn [Z.eqb].
  intros [= <-]. unfold Optimizer.risk_percent_of.
  destruct (risk_level (Optimizer.details s)) as [r|]; [|reflexivity].
  repeat match goal with |- context [if ?b then _ else _] => destruct b end;
    reflexivity.
Qed.

Lemma wins_bounded_by_reached (strategy : list Q) (signals : list Optimizer.signal)
  (rs : list Optimizer.signal_result) :
  Forall2 (result_of strategy) signals rs ->
  (count_wins rs <= Z.of_nat (length (filter reached_tp signals)))%Z /\
  (Z.of_nat (length (filter (fun s => negb (reached_tp s)) signals)) <= count_losses rs)%Z.
Proof.
  unfold count_wins, count_losses.
  induction 1 as [|s r signals rs [Hp _] _ [IH1 IH2]]; [split; reflexivity|].
  cbn [filter].
  destruct (reached_tp s) eqn:R; cbn [negb].
  - destruct (Optimizer.Qltb 0 (Optimizer.sr_profit r));
      destruct (Optimizer.Qltb (Optimizer.sr_profit r) 0); cbn [length]; split; lia.
  - assert (E : Optimizer.highest_tp s = 0%Z).
    { unfold reached_tp in R. apply negb_false_iff in R. now apply Z.eqb_eq. }
    pose proof (stop_loss_profit_negative s strategy _ E Hp) as N.
    destruct (Optimizer.Qltb 0 (Optimizer.sr_profit r)) eqn:W;
      [apply Qltb_lt in W; lra|].
    destruct (Optimizer.Qltb (Optimizer.sr_profit r) 0) eqn:L.
    + cbn [length]. split; lia.
    + apply Qltb_lt in N. congruence.
Qed.

(** Whatever the six-entry strategy, a signal that reached no TP level is
    never counted as a win and is always counted as a loss: the wins of a
    portfolio are at most the number of signals that reached a level, and
    the losses at least the number of those that did not. *)
Theorem stop_loss_signals_never_win (signals : list Optimizer.signal)
  (strategy : list Q) :
  length strategy = 6%nat ->
  (forall s, In s signals -> entry_price (Optimizer.details s) <> None) ->
  exists total st,
    Optimizer.calculate_portfolio_profit signals strategy = Ok (total, st) /\
    (Optimizer.wins st <= Z.of_nat (length (filter reached_tp signals)))%Z /\
    (Z.of_nat (length (filter (fun s => negb (reached_tp s)) signals))
     <= Optimizer.losses st)%Z.
Proof.
  intros Hlen He.
  destruct (portfolio_figures signals strategy Hlen He)
    as [total [st [E [_ [F [_ [Hw [Hl _]]]]]]]].
  exists total, st. split; [assumption|]. rewrite Hw, Hl.
  now apply (wins_bounded_by_reached strategy).
Qed.

End StopLossNeverWins.

Section PortfolioOptimum.

Lemma single_level_nth (u : list Q) (k i : Z) (sp : Q) :
  same_strategy u (all_on_level k) ->
  (0 <= i)%Z -> nth_error u (Z.to_nat i) = Some sp ->
  sp == if (i + 1 =? k)%Z then 1 else 0.
Proof.
  intros Hu Hi H. unfold same_strategy, all_on_level in Hu. cbn [map] in Hu.
  repeat match goal with
         | E : eqlistA _ _ (_ :: _) |- _ => inversion E; subst; clear E
         | E : eqlistA _ _ [] |- _ => inversion E; subst; clear E
         end.
  assert (C : (i = 0 \/ i = 1 \/ i = 2 \/ i = 3 \/ i = 4 \/ i = 5 \/ 6 <= i)%Z) by lia.
  destruct C as [-> | [-> | [-> | [-> | [-> | [-> | C]]]]]];
    try (cbn in H; injection H as <-; assumption).
  exfalso.
  assert (N : (6 <= Z.to_nat i)%nat) by lia.
  apply (nth_error_None [x; x0; x1; x2; x3; x4]) in N. congruence.
Qed.

Lemma same_strategy_length (u : list Q) (k : Z) :
  same_strategy u (all_on_level k) -> length u = 6%nat.
Proof.
  intros H. apply eqlistA_length in H. exact H.
Qed.

Lemma level_profit_comp (tp e sp sp' rp : Q) :
  sp == sp' -> level_profit tp e sp rp == level_profit tp e sp' rp.
Proof. intros H. unfold level_profit. now rewrite H. Qed.

Lemma single_level_profit (s : Optimizer.signal) (u : list Q) (k : Z) (e tpk : Q) :
  same_strategy u (all_on_level k) ->
  (1 <= k <= Optimizer.highest_tp s)%Z ->
  entry_price (Optimizer.details s) = Some e -> ~ e == 0 ->
  Optimizer.get_tp s k = Some tpk -> ~ tpk == 0 ->
  exists q,
    Optimizer.calculate_signal_profit s u = Ok q /\
    q == level_profit tpk e 1
           (Optimizer.risk_percent_of (risk_level (Optimizer.details s))).
Proof.
  intros Hu Hk He He0 Hpk Hpk0.
  pose proof (same_strategy_length u k Hu) as Hlen.
  unfold Optimizer.calculate_signal_profit.
  destruct (Z.eqb_spec (Optimizer.highest_tp s) 0); [lia|].
  rewrite He. simpl.
  destruct (Qeq_bool e 0) eqn:E0; [apply Qeq_bool_eq in E0; contradiction|].
  set (rp := Optimizer.risk_percent_of (risk_level (Optimizer.details s))).
  set (L := level_profit tpk e 1 rp).
  destruct (for_each_range_invariant
              (fun i acc => acc == if (k <=? i)%Z then L else 0)
              (Optimizer.tp_step s u e rp) 0 (Optimizer.highest_tp s))
    with (acc := 0) as [p [Ep Hp]].
  - lia.
  - intros i acc Hi Hacc.
    destruct (Py.truthy (Optimizer.get_tp s (i + 1))) eqn:T.
    + destruct (tp_step_counted s u e rp acc i T Hlen He0)
        as [tp [sp [Etp [N ->]]]]; [lia|].
      eexists. split; [reflexivity|].
      apply (single_level_nth u k i sp Hu) in N; [|lia].
      rewrite (level_profit_comp tp e sp _ rp N).
      destruct (Z.eqb_spec (i + 1) k) as [Eq | Ne].
      * subst k. rewrite Hpk in Etp. injection Etp as <-.
        destruct (Z.leb_spec (i + 1) i); [lia|].
        destruct (Z.leb_spec (i + 1) (i + 1)); [|lia].
        rewrite Hacc. fold L. ring.
      * rewrite level_profit_zero_fraction, Hacc.
        destruct (Z.leb_spec k i), (Z.leb_spec k (i + 1)); try lia; ring.
    + rewrite (tp_step_skipped _ _ _ _ _ _ T). eexists. split; [reflexivity|].
      assert (Ne : (i + 1)%Z <> k).
      { intros <-. rewrite Hpk in T. simpl in T.
        destruct (Qeq_bool tpk 0) eqn:Z0; [apply Qeq_bool_eq in Z0; contradiction|].
        discriminate. }
      rewrite Hacc.
      destruct (Z.leb_spec k i), (Z.leb_spec k (i + 1)); try lia; reflexivity.
  - destruct (Z.leb_spec k 0); [lia | reflexivity].
  - exists p. split; [assumption|].
    rewrite Hp. destruct (Z.leb_spec k (Optimizer.highest_tp s)); [reflexivity | lia].
Qed.

Lemma single_level_beats (s : Optimizer.signal) (k : Z) (u strategy : list Q) (p q : Q) :
  farthest_level s k -> same_strategy u (all_on_level k) ->
  length strategy = 6%nat ->
  Forall (fun f => 0 <= f) strategy -> fraction_sum strategy <= 1 ->
  Optimizer.calculate_signal_profit s strategy = Ok p ->
  Optimizer.calculate_signal_profit s u = Ok q ->
  p <= q.
Proof.
  intros [e [He [Hpos [H0 | [Hk [tpk [Hpk [Hpk0 Hfar]]]]]]]] Hu Hlen Hs Hsum Ep Eq.
  - unfold Optimizer.calculate_signal_profit in Ep, Eq. rewrite H0 in Ep, Eq.
    cbn [Z.eqb] in Ep, Eq. injection Ep as <-. injection Eq as <-. lra.
  - destruct (profit_bounded_by_farthest_level s strategy e (Qabs (tpk - e)))
      as [p' [Ep' Hp']]; try assumption; [lia | apply Qabs_nonneg |].
    destruct (single_level_profit s u k e tpk Hu Hk He) as [q' [Eq' Hq']];
      try assumption; [lra|].
    rewrite Ep in Ep'. injection Ep' as <-. rewrite Eq in Eq'. injection Eq' as <-.
    rewrite Hq'. unfold level_profit. lra.
Qed.

Lemma profit_sum_cons (r : Optimizer.signal_result) (rs : list Optimizer.signal_result) :
  profit_sum (r :: rs) == Optimizer.sr_profit r + profit_sum rs.
Proof.
  unfold profit_sum. cbn [fold_left].
  rewrite (fold_add_from Optimizer.sr_profit). ring.
Qed.

Lemma single_level_dominates (signals : list Optimizer.signal) (k : Z)
  (u strategy : list Q) :
  (forall s, In s signals -> farthest_level s k) ->
  same_strategy u (all_on_level k) ->
  length strategy = 6%nat ->
  Forall (fun f => 0 <= f) strategy -> fraction_sum strategy <= 1 ->
  exists t st t' st',
    Optimizer.calculate_portfolio_profit signals strategy = Ok (t, st) /\
    Optimizer.calculate_portfolio_profit signals u = Ok (t', st') /\
    t <= t'.
Proof.
  intros Hfar Hu Hlen Hs Hsum.
  assert (He : forall s, In s signals -> entry_price (Optimizer.details s) <> None).
  { intros s Hin. destruct (Hfar s Hin) as [e [-> _]]. discriminate. }
  destruct (portfolio_figures signals strategy Hlen He) as [t [st [E [_ [F [Ht _]]]]]].
  destruct (portfolio_figures signals u (same_strategy_length u k Hu) He)
    as [t' [st' [E' [_ [F' [Ht' _]]]]]].
  exists t, st, t', st'. repeat split; try assumption.
  rewrite Ht, Ht'.
  revert F F'. generalize (Optimizer.signal_results st) (Optimizer.signal_results st').
  clear E E' Ht Ht' He. induction signals as [|s signals IH]; intros rs rs' F F'.
  - inversion F; inversion F'; subst. lra.
  - inversion F as [|? r ? rs0 [Hp _] F0]; subst.
    inversion F' as [|? r' ? rs0' [Hq _] F0']; subst.
    rewrite !profit_sum_cons.
    pose proof (single_level_beats s k u strategy _ _ (Hfar s (or_introl eq_refl))
                  Hu Hlen Hs Hsum Hp Hq).
    pose proof (IH (fun x Hx => Hfar x (or_intror Hx)) rs0 rs0' F0 F0'). lra.
Qed.

(** When level [k] is, for every signal that reached a level, a reached
    level whose price is the farthest from the entry price, no strategy of
    six non-negative fractions adding up to at most 1 has a higher total
    P/L than the one that puts everything on level [k]. *)
Theorem portfolio_best_is_single_level (signals : list Optimizer.signal) (k : Z)
  (u strategy : list Q) :
  (forall s, In s signals -> farthest_level s k) ->
  same_strategy u (all_on_level k) ->
  length strategy = 6%nat ->
  Forall (fun f => 0 <= f) strategy -> fraction_sum strategy <= 1 ->
  exists t st t' st',
    Optimizer.calculate_portfolio_profit signals strategy = Ok (t, st) /\
    Optimizer.calculate_portfolio_profit signals u = Ok (t', st') /\
    t <= t'.
Proof.
  exact (single_level_dominates signals k u strategy).
Qed.

End PortfolioOptimum.

Section RecommendedTotal.

Lemma unit_candidate_is_generated (step : Z) (include_tp6 : bool) (k : Z)
  (cands : list (list Q)) :
  (0 < step)%Z -> (step | 100)%Z ->
  (1 <= k <= if include_tp6 then 6 else 5)%Z ->
  Optimizer.generate_strategies step include_tp6 = Ok cands ->
  In (unit_candidate include_tp6 k) cands.
Proof.
  intros Hp Hd Hk G.
  assert (D0 : (step | 0)%Z) by apply Z.divide_0_r.
  destruct include_tp6.
  - destruct (six_slots_enumeration step Hp) as [l [G' M]].
    rewrite G in G'. injection G' as <-. apply M.
    assert (C : (k = 1 \/ k = 2 \/ k = 3 \/ k = 4 \/ k = 5 \/ k = 6)%Z) by lia.
    destruct C as [-> | [-> | [-> | [-> | [-> | ->]]]]]; cbn;
      eexists _, _, _, _, _, _; (split; [reflexivity|]);
      (split; [repeat constructor; (lia || assumption) | reflexivity]).
  - destruct (five_slots_enumeration step Hp) as [l [G' M]].
    rewrite G in G'. injection G' as <-. apply M.
    assert (C : (k = 1 \/ k = 2 \/ k = 3 \/ k = 4 \/ k = 5)%Z) by lia.
    destruct C as [-> | [-> | [-> | [-> | ->]]]]; cbn;
      eexists _, _, _, _, _; (split; [reflexivity|]);
      (split; [repeat constructor; (lia || assumption) | reflexivity]).
Qed.

Lemma unit_candidate_single_level (include_tp6 : bool) (k : Z) :
  (1 <= k <= if include_tp6 then 6 else 5)%Z ->
  same_strategy (unit_candidate include_tp6 k) (all_on_level k).
Proof.
  intros Hk. unfold same_strategy, unit_candidate, all_on_level. cbn [map app].
  destruct include_tp6;
    repeat (constructor;
            [match goal with
             | |- context [(?a =? k)%Z] => destruct (a =? k)%Z eqn:?; try reflexivity
             end|]);
    try constructor.
  apply Z.eqb_eq in Heqb. lia.
Qed.

Lemma candidate_is_valid (step : Z) (include_tp6 : bool) (cands : list (list Q))
  (s : list Q) :
  Optimizer.generate_strategies step include_tp6 = Ok cands -> In s cands ->
  length s = 6%nat /\ Forall (fun f => 0 <= f) s /\ fraction_sum s <= 1.
Proof.
  intros G Hs.
  assert (N : forall tp, (0 <= tp <= 100)%Z /\ (step | tp)%Z ->
                         0 <= Optimizer.percent_fraction tp).
  { intros tp [[H0 _] _]. unfold Optimizer.percent_fraction, Qle. simpl. lia. }
  destruct include_tp6.
  - pose proof (generated_six_are_candidates step cands G) as F.
    rewrite Forall_forall in F.
    destruct (F s Hs) as [a [b [c [d [e [f [-> [Fa Hsum]]]]]]]].
    inversion Fa as [|? ? Ha F1]; subst. inversion F1 as [|? ? Hb F2]; subst.
    inversion F2 as [|? ? Hc F3]; subst. inversion F3 as [|? ? Hd F4]; subst.
    inversion F4 as [|? ? He F5]; subst. inversion F5 as [|? ? Hf _]; subst.
    split; [reflexivity|]. split; [repeat constructor; now apply N|].
    unfold fraction_sum, Optimizer.percent_fraction. cbn [fold_left].
    unfold Qle, Qplus. simpl. lia.
  - pose proof (generated_are_candidates step cands G) as F.
    rewrite Forall_forall in F.
    destruct (F s Hs) as [a [b [c [d [e [-> [Fa Hsum]]]]]]].
    inversion Fa as [|? ? Ha F1]; subst. inversion F1 as [|? ? Hb F2]; subst.
    inversion F2 as [|? ? Hc F3]; subst. inversion F3 as [|? ? Hd F4]; subst.
    inversion F4 as [|? ? He _]; subst.
    split; [reflexivity|]. split; [repeat constructor; first [now apply N | apply Qle_refl]|].
    unfold fraction_sum, Optimizer.percent_fraction. cbn [fold_left].
    unfold Qle, Qplus. simpl. lia.
Qed.

Lemma all_on_level_is_valid (k : Z) :
  (1 <= k <= 6)%Z -> fraction_sum (all_on_level k) <= 1.
Proof.
  intros Hk.
  assert (C : (k = 1 \/ k = 2 \/ k = 3 \/ k = 4 \/ k = 5 \/ k = 6)%Z) by lia.
  destruct C as [-> | [-> | [-> | [-> | [-> | ->]]]]]; vm_compute; discriminate.
Qed.

(** Under the same condition on the loaded signals (with [k] among the
    levels the enumeration uses), the total P/L of the strategy that
    [optimize] recommends is the total P/L of putting everything on level
    [k]: the search cannot do better than a single level. *)
Theorem optimize_recommends_single_level (table : list signal_details)
  (announced : Optimizer.announced_tps) (step : Z) (include_tp6 : bool) (top_n k : Z)
  (baseline_pl : Q) (baseline_stats : Optimizer.stats) :
  Optimizer.load_signals table announced <> [] ->
  (0 < step)%Z -> (step | 100)%Z ->
  Optimizer.calculate_portfolio_profit (Optimizer.load_signals table announced)
    Optimizer.default_strategy = Ok (baseline_pl, baseline_stats) ->
  ~ baseline_pl == 0 ->
  (1 <= k <= if include_tp6 then 6 else 5)%Z ->
  (forall s, In s (Optimizer.load_signals table announced) -> farthest_level s k) ->
  exists r t st,
    Optimizer.optimize table announced step include_tp6 top_n = Ok (Some r) /\
    Optimizer.calculate_portfolio_profit (Optimizer.load_signals table announced)
      (all_on_level k) = Ok (t, st) /\
    Optimizer.r_total_pl (Optimizer.best_strategy r) == t.
Proof.
  intros Hne Hp Hd Hb Hnz Hk Hfar.
  set (signals := Optimizer.load_signals table announced) in *.
  destruct (optimize_ranking table announced step include_tp6 top_n
              baseline_pl baseline_stats Hne Hp Hd Hb Hnz)
    as [r [cands [Er [G [Perm [Fev [_ [[Hbin Hbmax] _]]]]]]]].
  fold signals in Fev. rewrite Forall_forall in Fev.
  pose proof (unit_candidate_is_generated step include_tp6 k cands Hp Hd Hk G) as Hu.
  pose proof (unit_candidate_single_level include_tp6 k Hk) as Su.
  assert (Hx : exists x, In x (Optimizer.results_of r) /\
                         Optimizer.r_strategy x = unit_candidate include_tp6 k).
  { apply Permutation_sym in Perm. apply (Permutation_in _ Perm) in Hu.
    apply in_map_iff in Hu. destruct Hu as [x [E Hin]]. now exists x. }
  destruct Hx as [x [Hxin Hxs]].
  pose proof (Fev x Hxin) as Ex. unfold evaluated_on in Ex. rewrite Hxs in Ex.
  pose proof (Fev _ Hbin) as Ebest. unfold evaluated_on in Ebest.
  assert (Vb : length (Optimizer.r_strategy (Optimizer.best_strategy r)) = 6%nat /\
               Forall (fun f => 0 <= f) (Optimizer.r_strategy (Optimizer.best_strategy r)) /\
               fraction_sum (Optimizer.r_strategy (Optimizer.best_strategy r)) <= 1).
  { apply (candidate_is_valid step include_tp6 cands); [assumption|].
    apply (Permutation_in _ Perm). now apply in_map. }
  destruct Vb as [Vb1 [Vb2 Vb3]].
  assert (Kk : (1 <= k <= 6)%Z) by (destruct include_tp6; lia).
  (* best <= unit *)
  destruct (single_level_dominates signals k (unit_candidate include_tp6 k)
              (Optimizer.r_strategy (Optimizer.best_strategy r)) Hfar Su Vb1 Vb2 Vb3)
    as [t1 [st1 [t1' [st1' [E1 [E1' L1]]]]]].
  rewrite Ebest in E1. injection E1 as <- _. rewrite Ex in E1'. injection E1' as <- _.
  (* unit = all_on_level in total *)
  destruct (candidate_is_valid step include_tp6 cands _ G Hu) as [Vu1 [Vu2 Vu3]].
  assert (Sa : same_strategy (all_on_level k) (all_on_level k))
    by (unfold same_strategy; reflexivity).
  destruct (single_level_dominates signals k (all_on_level k)
              (unit_candidate include_tp6 k) Hfar Sa Vu1 Vu2 Vu3)
    as [t2 [st2 [t2' [st2' [E2 [E2' L2]]]]]].
  rewrite Ex in E2. injection E2 as <- _.
  assert (Va : Forall (fun f => 0 <= f) (all_on_level k)).
  { unfold all_on_level. cbn [map].
    repeat constructor; destruct (_ =? k)%Z; lra. }
  destruct (single_level_dominates signals k (unit_candidate include_tp6 k)
              (all_on_level k) Hfar Su eq_refl Va)
    as [t3 [st3 [t3' [st3' [E3 [E3' L3]]]]]].
  { apply all_on_level_is_valid. lia. }
  rewrite E2' in E3. injection E3 as <- _. rewrite Ex in E3'. injection E3' as <- _.
  exists r, t2', st2'. repeat split; try assumption.
  pose proof (Hbmax x Hxin). lra.
Qed.

End RecommendedTotal.

Section PortfolioWitnesses.

Lemma two_level_row_farthest :
  farthest_level (Optimizer.mkSignal two_level_row [1; 2]%Z 2) 2.
Proof.
  exists 2000.0. split; [reflexivity|]. split; [reflexivity|]. right.
  split; [simpl; lia|]. exists 2020.0. split; [reflexivity|].
  split; [vm_compute; discriminate|]. exact two_level_row_levels.
Defined.

Lemma stop_loss_signals_never_win_witness :
  exists total st,
    Optimizer.calculate_portfolio_profit
      [Optimizer.mkSignal two_level_row [] 0;
       Optimizer.mkSignal two_level_row [1; 2]%Z 2] Optimizer.default_strategy
    = Ok (total, st) /\
    (Optimizer.wins st <= 1)%Z /\ (1 <= Optimizer.losses st)%Z.
Proof.
  apply (stop_loss_signals_never_win
           [Optimizer.mkSignal two_level_row [] 0;
            Optimizer.mkSignal two_level_row [1; 2]%Z 2] Optimizer.default_strategy).
  - reflexivity.
  - intros s [<- | [<- | []]]; discriminate.
Defined.

Lemma portfolio_best_is_single_level_witness :
  exists t st t' st',
    Optimizer.calculate_portfolio_profit
      [Optimizer.mkSignal two_level_row [1; 2]%Z 2] Optimizer.default_strategy
    = Ok (t, st) /\
    Optimizer.calculate_portfolio_profit
      [Optimizer.mkSignal two_level_row [1; 2]%Z 2] (all_on_level 2) = Ok (t', st') /\
    t <= t'.
Proof.
  apply (portfolio_best_is_single_level
           [Optimizer.mkSignal two_level_row [1; 2]%Z 2] 2).
  - intros s [<- | []]. exact two_level_row_farthest.
  - reflexivity.
  - reflexivity.
  - repeat constructor; vm_compute; discriminate.
  - vm_compute. discriminate.
Defined.

Lemma optimize_recommends_single_level_witness :
  exists r t st,
    Optimizer.optimize [two_level_row] [(7, 1); (7, 2)]%Z 50 false 3 = Ok (Some r) /\
    Optimizer.calculate_portfolio_profit
      (Optimizer.load_signals [two_level_row] [(7, 1); (7, 2)]%Z) (all_on_level 2)
    = Ok (t, st) /\
    Optimizer.r_total_pl (Optimizer.best_strategy r) == t.
Proof.
  eapply (optimize_recommends_single_level [two_level_row] [(7, 1); (7, 2)]%Z
            50 false 3 2).
  - discriminate.
  - reflexivity.
  - exists 2%Z. reflexivity.
  - vm_compute. reflexivity.
  - vm_compute. discriminate.
  - simpl. lia.
  - intros s [<- | []]. exact two_level_row_farthest.
Defined.

End PortfolioWitnesses.

(** ** The claims on generation, missing entry prices, the default risk
    tier and pip sizing *)

Section StoredFractions.

Ltac pick_member := cbn [In]; repeat (first [left; reflexivity | right]).

(** C6. With step 5 and the sixth slot off, [generate_strategies] returns
    10626 candidates, no two of them the same strategy; each is built from
    five integer percentages (multiples of 5 in 0..100) adding up to exactly
    100, held as percentage over 100, and has 0 as its sixth fraction.  The
    lists of doubles the code builds are these candidates, each percentage
    stored as the double [tp / 100]. *)
Theorem generate_strategies_step_5 :
  exists strategies,
    Optimizer.generate_strategies 5 false = Ok strategies /\
    Z.of_nat (length strategies) = 10626%Z /\
    NoDupA same_strategy strategies /\
    Forall (fun s => five_slot_candidate 5 s /\
                     length s = 6%nat /\ nth_error s 5 = Some 0) strategies /\
    Binary64.generate_strategies 5 false
    = Ok (map (fun s => map Binary64.stored_fraction (percentages_of s)) strategies).
Proof.
  assert (C : match Optimizer.generate_strategies 5 false with
              | Ok l => (Z.of_nat (length l) =? 10626)%Z && increasing (map strategy_key l)
              | Raise _ => false
              end = true) by (vm_compute; reflexivity).
  assert (B : match Optimizer.generate_strategies 5 false with
              | Ok l => Binary64.generate_strategies 5 false
                        = Ok (map (fun s => map Binary64.stored_fraction (percentages_of s)) l)
              | Raise _ => True
              end) by (vm_compute; reflexivity).
  destruct (Optimizer.generate_strategies 5 false) as [l|] eqn:E; [|discriminate].
  apply andb_true_iff in C. destruct C as [Hlen Hinc].
  exists l. split; [reflexivity|]. split; [now apply Z.eqb_eq|].
  split; [now apply distinct_keys_distinct_strategies, increasing_NoDup|].
  split; [|exact B].
  pose proof (generated_are_candidates 5 l E) as Hc.
  eapply Forall_impl; [|exact Hc]. intros s Hs.
  split; [assumption|]. destruct Hs as [a [b [c [d [e [-> _]]]]]]. split; reflexivity.
Qed.

(** Summed left to right, as [sum] does, the doubles of 9821 of the 10626
    candidates give exactly 1.0; 555 give less and 250 give more.  The
    candidate 0-0-20-70-10-0 is one of those that give less. *)
Lemma stored_fractions_do_not_sum_to_one :
  exists strategies,
    Binary64.generate_strategies 5 false = Ok strategies /\
    Z.of_nat (length strategies) = 10626%Z /\
    Z.of_nat (length (filter (fun s => PrimFloat.ltb (Binary64.fraction_sum s) 1)
                             strategies)) = 555%Z /\
    Z.of_nat (length (filter (fun s => PrimFloat.ltb 1 (Binary64.fraction_sum s))
                             strategies)) = 250%Z /\
    In (map Binary64.stored_fraction [0; 0; 20; 70; 10; 0]%Z) strategies /\
    PrimFloat.ltb
      (Binary64.fraction_sum (map Binary64.stored_fraction [0; 0; 20; 70; 10; 0]%Z)) 1
    = true.
Proof.
  assert (C : match Binary64.generate_strategies 5 false with
              | Ok l =>
                  (Z.of_nat (length l) =? 10626)%Z &&
                  ((Z.of_nat (length (filter (fun s => PrimFloat.ltb (Binary64.fraction_sum s) 1) l))
                    =? 555)%Z &&
                   (Z.of_nat (length (filter (fun s => PrimFloat.ltb 1 (Binary64.fraction_sum s)) l))
                    =? 250)%Z)
              | Raise _ => false
              end = true) by (vm_compute; reflexivity).
  assert (M : match Binary64.generate_strategies 5 false with
              | Ok l => In (map Binary64.stored_fraction [0; 0; 20; 70; 10; 0]%Z) l
              | Raise _ => False
              end).
  { unfold Binary64.generate_strategies.
    let r := eval vm_compute in (Py.range_step 101 5) in
      change (Py.range_step 101 5) with r.
    cbn [Py.bind negb].
    apply in_flat_map. exists 0%Z. split; [pick_member|].
    apply in_flat_map. exists 0%Z. split; [pick_member|].
    apply in_flat_map. exists 20%Z. split; [pick_member|].
    apply in_flat_map. exists 70%Z. split; [pick_member|].
    apply in_flat_map. exists 10%Z. split; [pick_member|].
    left. vm_compute. reflexivity. }
  destruct (Binary64.generate_strategies 5 false) as [l|] eqn:E; [|discriminate].
  apply andb_true_iff in C. destruct C as [H1 C].
  apply andb_true_iff in C. destruct C as [H2 H3].
  exists l. split; [reflexivity|]. split; [now apply Z.eqb_eq|].
  split; [now apply Z.eqb_eq|]. split; [now apply Z.eqb_eq|].
  split; [exact M | vm_compute; reflexivity].
Qed.

End StoredFractions.

Section MissingEntryPrice.

(** The optimizer's evaluator applies [float] to the entry price before its
    zero guard: a signal with a TP hit and no entry price ends in a
    [TypeError]. *)
Lemma absent_entry_price_raises_in_optimizer :
  Optimizer.calculate_signal_profit
    (Optimizer.mkSignal
       (mkSignalDetails 3 "EURUSD" "BUY" None (Some 1.05) (Some 1.11) (Some 1.12)
          None None None None None) [1; 2]%Z 2)
    Optimizer.default_strategy = Raise TypeError.
Proof. reflexivity. Qed.

(** C8. A signal with [highest_tp >= 1] whose entry price is zero is
    evaluated to the zero result by both evaluators, and so is one whose
    entry price is absent by the dashboard's evaluator (at a level the row
    has, 1 to 6): the evaluation returns profit 0 and pips 0, so no
    exception and no division by zero occurs.  The optimizer's evaluator is
    never given an absent entry price: its loader keeps only the rows that
    have one. *)
Theorem missing_entry_price_gives_zero_result :
  (forall (row : signal_details) (tp_hits : list Z),
      (1 <= highest_of tp_hits <= 6)%Z ->
      entry_price row = None \/ (exists e, entry_price row = Some e /\ e == 0) ->
      exists v, Dashboard.evaluate_row row tp_hits = Ok v /\
                Dashboard.profit_percent v == 0 /\ Dashboard.pips v == 0) /\
  (forall (s : Optimizer.signal) (strategy : list Q) (e : Q),
      (1 <= Optimizer.highest_tp s)%Z ->
      entry_price (Optimizer.details s) = Some e -> e == 0 ->
      Optimizer.calculate_signal_profit s strategy = Ok 0) /\
  (forall (table : list signal_details) (announced : Optimizer.announced_tps)
          (s : Optimizer.signal),
      In s (Optimizer.load_signals table announced) ->
      entry_price (Optimizer.details s) <> None).
Proof.
  split; [|split].
  - intros row hits Hh He.
    destruct (evaluate_row_take_profit row hits Hh) as [x [pp [b [_ [Hpp [_ Hv]]]]]].
    destruct (pips_and_profit_take_profit row (highest_of hits) x
                (Dashboard.risk_percent_of (Dashboard.risk_level_of row)))
      as [[_ E] | [xq [e [p [_ [He' [_ [Hne _]]]]]]]]; [lia | |].
    + rewrite E in Hpp. injection Hpp as <-.
      eexists. split; [exact Hv|]. simpl. split; reflexivity.
    + apply falsy_entry in He. rewrite He' in He.
      apply truthy_zero_inv in He. contradiction.
  - intros s strategy e Hh He Hz.
    unfold Optimizer.calculate_signal_profit.
    destruct (Z.eqb_spec (Optimizer.highest_tp s) 0); [lia|].
    rewrite He. simpl. now rewrite (Qeq_bool_refl_zero e Hz).
  - intros table announced s Hin.
    destruct (loaded_signal_has_entry_price _ _ _ Hin) as [e0 He0]. congruence.
Qed.

Lemma missing_entry_price_gives_zero_result_witness :
  (exists v,
      Dashboard.evaluate_row
        (mkSignalDetails 3 "EURUSD" "BUY" None (Some 1.05) (Some 1.11) (Some 1.12)
           None None None None None) [1; 2]%Z = Ok v /\
      Dashboard.profit_percent v == 0 /\ Dashboard.pips v == 0) /\
  Optimizer.calculate_signal_profit
    (Optimizer.mkSignal
       (mkSignalDetails 4 "EURUSD" "BUY" (Some 0) (Some 1.05) (Some 1.11) (Some 1.12)
          None None None None None) [1; 2]%Z 2)
    Optimizer.default_strategy = Ok 0.
Proof.
  split.
  - apply (proj1 missing_entry_price_gives_zero_result).
    + simpl. lia.
    + left. reflexivity.
  - apply (proj1 (proj2 missing_entry_price_gives_zero_result)) with (e := 0).
    + simpl. lia.
    + reflexivity.
    + reflexivity.
Defined.

End MissingEntryPrice.

Section RiskDefaultPinned.

(** C10. Any [risk_level] other than the exact strings LOW and HIGH, absent,
    unrecognised or malformed, is evaluated with the MEDIUM percentage 2.0.
    A stop-loss outcome is a loss of exactly 2 in both evaluators; a TP1
    outcome earns the leveraged move times the exit fraction times 2/100
    (the dashboard's figure within half a hundredth, its rounding); and on
    every input both evaluators return what they return for the same
    signal marked MEDIUM. *)
Theorem other_risk_level_is_medium (rl : option string) :
  rl <> Some "LOW"%string -> rl <> Some "HIGH"%string ->
  (forall (s : Optimizer.signal) (strategy : list Q),
      risk_level (Optimizer.details s) = rl ->
      Optimizer.highest_tp s = 0%Z ->
      Optimizer.calculate_signal_profit s strategy = Ok (-2)) /\
  (forall (row : signal_details) (tp_hits : list Z),
      risk_level row = rl ->
      highest_of tp_hits = 0%Z ->
      exists v, Dashboard.evaluate_row row tp_hits = Ok v /\
                Dashboard.profit_percent v == -2) /\
  (forall (s : Optimizer.signal) (f : Q) (rest : list Q) (e tp : Q),
      risk_level (Optimizer.details s) = rl ->
      Optimizer.highest_tp s = 1%Z ->
      entry_price (Optimizer.details s) = Some e -> ~ e == 0 ->
      tp1 (Optimizer.details s) = Some tp -> ~ tp == 0 ->
      exists p,
        Optimizer.calculate_signal_profit s (f :: rest) = Ok p /\
        p == (Qabs (tp - e) / e * 100 * 500 * f) * (2 / 100)) /\
  (forall (row : signal_details) (tp_hits : list Z) (e tp : Q),
      risk_level row = rl ->
      highest_of tp_hits = 1%Z ->
      entry_price row = Some e -> ~ e == 0 ->
      tp1 row = Some tp -> ~ tp == 0 ->
      exists v,
        Dashboard.evaluate_row row tp_hits = Ok v /\
        Qabs (Dashboard.profit_percent v
              - (Qabs (tp - e) / e * 100 * 500 * 0.50) * (2 / 100)) <= 1 # 200) /\
  (forall (s : Optimizer.signal) (strategy : list Q),
      risk_level (Optimizer.details s) = rl ->
      Optimizer.calculate_signal_profit s strategy =
      Optimizer.calculate_signal_profit
        (signal_with_risk_level s (Some "MEDIUM"%string)) strategy) /\
  (forall (row : signal_details) (tp_hits : list Z),
      risk_level row = rl ->
      figures (Dashboard.evaluate_row row tp_hits) =
      figures (Dashboard.evaluate_row
                 (with_risk_level row (Some "MEDIUM"%string)) tp_hits)).
Proof.
  intros HL HH. split; [|split; [|split; [|split; [|split]]]].
  - intros s strategy <- H0. unfold Optimizer.calculate_signal_profit.
    rewrite H0. cbn [Z.eqb]. now rewrite (optimizer_risk_percent_default _ HL HH).
  - intros row hits <- H0.
    destruct (evaluate_row_level_zero row hits H0) as [p ->].
    eexists. split; [reflexivity|]. cbn [Dashboard.profit_percent].
    rewrite (dashboard_risk_percent_default _ HL HH). reflexivity.
  - intros s f rest e tp <- H1 He He0 Htp Htp0.
    unfold Optimizer.calculate_signal_profit. rewrite H1, He. cbn [Z.eqb Py.float Py.bind].
    destruct (Qeq_bool e 0) eqn:E0; [apply Qeq_bool_eq in E0; contradiction|].
    rewrite (optimizer_risk_percent_default _ HL HH).
    change (Py.range 0 1) with [0%Z]. cbn [Py.for_each].
    unfold Optimizer.tp_step, Optimizer.get_tp. cbn [Z.add tp_column]. rewrite Htp.
    assert (T : Py.truthy (Some tp) = true).
    { simpl. destruct (Qeq_bool tp 0) eqn:E; [apply Qeq_bool_eq in E; contradiction|reflexivity]. }
    rewrite T. cbn [negb Py.float Py.bind]. rewrite div_ok by assumption.
    cbn [Py.bind Py.index Z.ltb Z.to_nat nth_error]. cbn.
    eexists. split; [reflexivity|]. ring.
  - intros row hits e tp <- H1 He He0 Htp Htp0.
    destruct (evaluate_row_take_profit row hits) as [x [pp [b [Hx [Hpp [_ ->]]]]]]; [lia|].
    eexists. split; [reflexivity|]. cbn [Dashboard.profit_percent].
    rewrite H1 in Hx, Hpp. unfold Dashboard.row_tp in Hx. cbn [tp_column] in Hx.
    rewrite Htp in Hx. injection Hx as <-.
    rewrite (dashboard_risk_percent_default _ HL HH) in Hpp.
    destruct (pips_and_profit_take_profit row 1 (Some tp) 2.0)
      as [[F _] | [xq [e' [p [Ex [He' [_ [_ E]]]]]]]]; [lia | |].
    + rewrite He in F. simpl in F.
      destruct (Qeq_bool tp 0) eqn:E1; [apply Qeq_bool_eq in E1; contradiction|].
      destruct (Qeq_bool e 0) eqn:E2; [apply Qeq_bool_eq in E2; contradiction|].
      discriminate.
    + injection Ex as <-. rewrite He in He'. injection He' as <-.
      rewrite E in Hpp. injection Hpp as <-. cbn [snd].
      rewrite or_zero_round.
      unfold Dashboard.tp_profit_percent. cbn [Z.eqb].
      pose proof (round_close ((Qabs (tp - e) / e * 100 * 500 * 0.50) * (2.0 / 100)) 2) as C.
      change (1 / (2 * inject_Z (10 ^ Z.of_nat 2))) with (1 / (2 * 100)) in C.
      assert (E1 : 1 / (2 * 100) == 1 # 200) by reflexivity. rewrite E1 in C.
      assert (E2 : (Qabs (tp - e) / e * 100 * 500 * 0.50) * (2 / 100)
                   == (Qabs (tp - e) / e * 100 * 500 * 0.50) * (2.0 / 100)).
      { assert (R : 2 / 100 == 2.0 / 100) by reflexivity. now rewrite R. }
      rewrite E2. exact C.
  - intros s strategy <-.
    unfold Optimizer.calculate_signal_profit.
    rewrite (optimizer_risk_percent_default _ HL HH).
    destruct s as [[] hits h]. reflexivity.
  - intros row hits <-.
    unfold Dashboard.evaluate_row.
    rewrite (dashboard_risk_percent_default _ HL HH).
    rewrite with_risk_level_pips_and_profit, with_risk_level_breakdown_step.
    replace (Dashboard.risk_percent_of
               (Dashboard.risk_level_of (with_risk_level row (Some "MEDIUM"%string))))
      with 2.0 by (destruct row; reflexivity).
    replace (stop_loss (with_risk_level row (Some "MEDIUM"%string)))
      with (stop_loss row) by (destruct row; reflexivity).
    rewrite with_risk_level_row_tp.
    destruct (if (highest_of hits =? 0)%Z then Ok (stop_loss row)
              else Dashboard.row_tp row (highest_of hits)) as [x|e];
      [|reflexivity].
    simpl.
    destruct (Dashboard.pips_and_profit row (highest_of hits) x 2.0) as [pp|e];
      [|reflexivity].
    simpl.
    destruct (Py.for_each (Dashboard.breakdown_step row x 2.0)
                (Py.range 1 (highest_of hits + 1)) []) as [b|e]; reflexivity.
Qed.

End RiskDefaultPinned.

Section RiskDefaultWitness.

Lemma other_risk_level_is_medium_witness :
  Optimizer.calculate_signal_profit
    (Optimizer.mkSignal
       (mkSignalDetails 1 "EURUSD" "SELL" (Some 1.1) None (Some 1.09) None None
          None None None (Some "medium"%string)) [] 0)
    [1; 0; 0; 0; 0; 0] = Ok (-2) /\
  (exists v,
      Dashboard.evaluate_row
        (mkSignalDetails 1 "EURUSD" "SELL" (Some 1.1) None (Some 1.09) None None
           None None None (Some "medium"%string)) [] = Ok v /\
      Dashboard.profit_percent v == -2) /\
  (exists p,
      Optimizer.calculate_signal_profit
        (Optimizer.mkSignal
           (mkSignalDetails 1 "EURUSD" "SELL" (Some 1.1) None (Some 1.09) None None
              None None None (Some "medium"%string)) [1]%Z 1)
        [1; 0; 0; 0; 0; 0] = Ok p /\
      p == (Qabs (1.09 - 1.1) / 1.1 * 100 * 500 * 1) * (2 / 100)).
Proof.
  assert (HL : Some "medium"%string <> Some "LOW"%string) by discriminate.
  assert (HH : Some "medium"%string <> Some "HIGH"%string) by discriminate.
  split; [|split].
  - apply (proj1 (other_risk_level_is_medium (Some "medium"%string) HL HH));
      reflexivity.
  - apply (proj1 (proj2 (other_risk_level_is_medium (Some "medium"%string) HL HH)));
      reflexivity.
  - apply (proj1 (proj2 (proj2 (other_risk_level_is_medium (Some "medium"%string) HL HH))));
      first [reflexivity | discriminate].
Defined.

End RiskDefaultWitness.

Section PipSizingPinned.

Lemma pip_multiplier_chain (symbol : string) :
  (gold_family symbol -> Dashboard.pip_multiplier symbol = 0.10) /\
  (~ gold_family symbol -> bitcoin_family symbol ->
   Dashboard.pip_multiplier symbol = 1.0) /\
  (~ gold_family symbol -> ~ bitcoin_family symbol -> nasdaq_family symbol ->
   Dashboard.pip_multiplier symbol = 1.0) /\
  (~ gold_family symbol -> ~ bitcoin_family symbol -> ~ nasdaq_family symbol ->
   jpy_quoted symbol -> Dashboard.pip_multiplier symbol = 0.01) /\
  (~ gold_family symbol -> ~ bitcoin_family symbol -> ~ nasdaq_family symbol ->
   ~ jpy_quoted symbol -> Dashboard.pip_multiplier symbol = 0.0001).
Proof.
  unfold gold_family, bitcoin_family, nasdaq_family, jpy_quoted.
  rewrite <- !contains_spec.
  repeat split;
    unfold Dashboard.pip_multiplier;
    destruct (Py.contains "XAU" symbol), (Py.contains "GOLD" symbol),
      (Py.contains "BTC" symbol), (Py.contains "BITCOIN" symbol),
      (Py.contains "NAS" symbol), (Py.contains "US100" symbol),
      (Py.contains "NDX" symbol), (Py.contains "JPY" symbol); simpl;
    intros; try reflexivity; intuition congruence.
Qed.

Lemma truthy_nonzero (q : Q) : ~ q == 0 -> Py.truthy (Some q) = true.
Proof.
  intros H. simpl. destruct (Qeq_bool q 0) eqn:E; [|reflexivity].
  apply Qeq_bool_eq in E. contradiction.
Qed.

Lemma signed_pips_value (row : signal_details) (target e : Q) :
  Dashboard.signed_pips row target e (Dashboard.pip_multiplier (symbol row))
  = Ok (signed_distance row target e / Dashboard.pip_multiplier (symbol row)).
Proof.
  unfold Dashboard.signed_pips, signed_distance.
  destruct (String.eqb (action row) "BUY");
    now rewrite div_ok by apply pip_multiplier_nonzero.
Qed.

Lemma exit_price_of_row (row : signal_details) (h : Z) (x : Q) :
  recorded_exit_price row h = Some x ->
  (if (h =? 0)%Z then Ok (stop_loss row) else Dashboard.row_tp row h) = Ok (Some x).
Proof.
  unfold recorded_exit_price, Dashboard.row_tp.
  destruct (h =? 0)%Z; [now intros -> |].
  destruct (tp_column row h) as [v|]; [now intros -> | discriminate].
Qed.

Lemma pips_and_profit_priced (row : signal_details) (h : Z) (x e rp : Q) :
  entry_price row = Some e -> ~ x == 0 -> ~ e == 0 ->
  exists q,
    Dashboard.pips_and_profit row h (Some x) rp
    = Ok (signed_distance row x e / Dashboard.pip_multiplier (symbol row), q).
Proof.
  intros He Hx He0. unfold Dashboard.pips_and_profit.
  rewrite He, (truthy_nonzero x Hx), (truthy_nonzero e He0).
  cbn [andb Py.float Py.bind]. rewrite signed_pips_value. cbn [Py.bind].
  destruct (h =? 0)%Z; [eexists; reflexivity|].
  rewrite div_ok by assumption. cbn [Py.bind]. eexists; reflexivity.
Qed.

Lemma breakdown_pips (row : signal_details) (x e rp : Q) (h : Z) :
  (h <= 6)%Z -> entry_price row = Some e -> ~ x == 0 -> ~ e == 0 ->
  exists rows,
    Py.for_each (Dashboard.breakdown_step row (Some x) rp) (Py.range 1 (h + 1)) []
    = Ok rows /\
    Forall (fun r =>
              exists tp,
                tp_column row (Dashboard.tp_level r) = Some (Some tp) /\
                Dashboard.row_pips r
                = Py.round (signed_distance row tp e
                            / Dashboard.pip_multiplier (symbol row)) 1) rows.
Proof.
  intros Hh He Hx He0.
  apply for_each_invariant; [|constructor].
  intros acc lvl Hl Hacc. apply in_range in Hl.
  unfold Dashboard.breakdown_step, Dashboard.row_tp.
  destruct (tp_column_inside row lvl) as [v Hv]; [lia|]. rewrite Hv. cbn [Py.bind].
  destruct (Py.truthy v) eqn:Tv; cbn [negb]; [|now exists acc].
  apply truthy_true in Tv. destruct Tv as [tp [-> _]]. cbn [Py.float Py.bind].
  rewrite He, (truthy_nonzero x Hx), (truthy_nonzero e He0).
  cbn [andb Py.float Py.bind]. rewrite signed_pips_value. cbn [Py.bind].
  rewrite div_ok by assumption. cbn [Py.bind].
  eexists. split; [reflexivity|].
  apply Forall_app. split; [assumption|]. constructor; [|constructor].
  exists tp. cbn [Dashboard.tp_level Dashboard.row_pips]. now split.
Qed.

Lemma round_one_decimal_close (q : Q) : Qabs (Py.round q 1 - q) <= 1 # 20.
Proof.
  pose proof (round_close q 1) as C.
  change (1 / (2 * inject_Z (10 ^ Z.of_nat 1))) with (1 / (2 * 10)) in C.
  assert (E : 1 / (2 * 10) == 1 # 20) by reflexivity. now rewrite E in C.
Qed.

(** C7. Whenever the evaluator prices a row (highest level 0 to 6, exit and
    entry price recorded and non-zero), the pips it reports, for the signal
    and for every row of its breakdown, are the signed price distance
    divided by one multiplier (up to the rounding to one decimal), and that
    multiplier is fixed by substring tests on the symbol in priority order:
    gold family 0.10; otherwise Bitcoin family 1.0; otherwise Nasdaq-100
    family 1.0; otherwise JPY-quoted 0.01; otherwise 0.0001. *)
Theorem pip_multiplier_priority (row : signal_details) (tp_hits : list Z) (x e : Q) :
  (0 <= highest_of tp_hits <= 6)%Z ->
  recorded_exit_price row (highest_of tp_hits) = Some x -> ~ x == 0 ->
  entry_price row = Some e -> ~ e == 0 ->
  exists (v : Dashboard.signal_view) (m : Q),
    Dashboard.evaluate_row row tp_hits = Ok v /\
    (gold_family (symbol row) -> m = 0.10) /\
    (~ gold_family (symbol row) -> bitcoin_family (symbol row) -> m = 1.0) /\
    (~ gold_family (symbol row) -> ~ bitcoin_family (symbol row) ->
     nasdaq_family (symbol row) -> m = 1.0) /\
    (~ gold_family (symbol row) -> ~ bitcoin_family (symbol row) ->
     ~ nasdaq_family (symbol row) -> jpy_quoted (symbol row) -> m = 0.01) /\
    (~ gold_family (symbol row) -> ~ bitcoin_family (symbol row) ->
     ~ nasdaq_family (symbol row) -> ~ jpy_quoted (symbol row) -> m = 0.0001) /\
    Qabs (Dashboard.pips v - signed_distance row x e / m) <= 1 # 20 /\
    Forall (fun r =>
              exists tp,
                tp_column row (Dashboard.tp_level r) = Some (Some tp) /\
                Qabs (Dashboard.row_pips r - signed_distance row tp e / m) <= 1 # 20)
           (Dashboard.tp_breakdown v).
Proof.
  intros Hh Hx Hx0 He He0.
  set (rp := Dashboard.risk_percent_of (Dashboard.risk_level_of row)).
  destruct (pips_and_profit_priced row (highest_of tp_hits) x e rp He Hx0 He0) as [q Hpp].
  destruct (breakdown_pips row x e rp (highest_of tp_hits)) as [rows [Hb F]];
    try assumption; [lia|].
  destruct (pip_multiplier_chain (symbol row)) as [G1 [G2 [G3 [G4 G5]]]].
  eexists. exists (Dashboard.pip_multiplier (symbol row)).
  split.
  { unfold Dashboard.evaluate_row. rewrite (exit_price_of_row _ _ _ Hx). cbn [Py.bind].
    fold rp. rewrite Hpp. cbn [Py.bind]. rewrite Hb. cbn [Py.bind]. reflexivity. }
  repeat (split; [assumption|]).
  cbn [Dashboard.pips Dashboard.tp_breakdown fst]. split.
  - rewrite or_zero_round. apply round_one_decimal_close.
  - eapply Forall_impl; [|exact F]. intros r [tp [Hc Hr]]. exists tp.
    split; [assumption|]. rewrite Hr. apply round_one_decimal_close.
Qed.

Lemma pip_multiplier_priority_witness :
  (exists v,
      Dashboard.evaluate_row two_level_row [1; 2]%Z = Ok v /\
      Qabs (Dashboard.pips v - (2020.0 - 2000.0) / 0.10) <= 1 # 20) /\
  (exists v,
      Dashboard.evaluate_row
        (mkSignalDetails 9 "USDJPY" "SELL" (Some 150.25) (Some 150.75) (Some 149.5)
           None None None None None None) [] = Ok v /\
      Qabs (Dashboard.pips v - (150.25 - 150.75) / 0.01) <= 1 # 20).
Proof.
  split.
  - destruct (pip_multiplier_priority two_level_row [1; 2]%Z 2020.0 2000.0)
      as [v [m [Ev [G [_ [_ [_ [_ [P _]]]]]]]]].
    + simpl. lia.
    + reflexivity.
    + discriminate.
    + reflexivity.
    + discriminate.
    + exists v. split; [exact Ev|].
      rewrite G in P; [exact P|].
      left. exists ""%string, "USD"%string. reflexivity.
  - destruct (pip_multiplier_priority
                (mkSignalDetails 9 "USDJPY" "SELL" (Some 150.25) (Some 150.75) (Some 149.5)
                   None None None None None None) [] 150.75 150.25)
      as [v [m [Ev [_ [_ [_ [G [_ [P _]]]]]]]]].
    + simpl. lia.
    + reflexivity.
    + discriminate.
    + reflexivity.
    + discriminate.
    + exists v. split; [exact Ev|].
      rewrite G in P; [exact P | | | |].
      * intros [H | H]; apply contains_spec in H; discriminate.
      * intros [H | H]; apply contains_spec in H; discriminate.
      * intros [H | [H | H]]; apply contains_spec in H; discriminate.
      * exists "USD"%string, ""%string. reflexivity.
Defined.

End PipSizingPinned.
